(** * ReactNativeZoomableView: the gesture-to-transform engine

    A shallow embedding of the class [ReactNativeZoomableView]
    (pinch to zoom, pan, double tap) and of the properties of its zoom
    bounds, pan boundaries, zoom stepping and momentum animation.

    Modelling conventions.
    - A JavaScript [number] is an exact rational ([Q]): every finite double
      is one and comparisons agree.  [NaN] and the infinities are outside
      the model: a property that speaks of a quotient assumes that the
      divisor is not 0, where the code gets an infinity or [NaN] and the
      total division of [Q] gives 0.  The arithmetic is the unrounded one:
      an equation between numbers is stated with the expression of the
      code, operation for operation, and what is proved beyond that are
      facts that rounding keeps (an order between numbers, a product with
      0 or 1, a quotient of a number by itself).  Strict equality [===]
      on numbers is [Qeq_bool].
    - An optional numeric prop ([maxZoom?: number]) is an [option Q]; the
      tests [!= null] and [== null] look at the constructor, a truthiness
      test also rejects [0].  A boolean prop is only ever tested for
      truthiness and is a [bool] (absent counts as [false]).
    - The component is a record of the instance fields; a handler is a
      function on that record.  What a handler hands to the host framework
      (animations started, timers, [setState], calls of the user's
      callbacks) is appended to the [trace] field, newest first.  The
      frames of a running animation are not part of a handler's step.
    - The helper modules the class imports ([./helper], [./animations])
      are an interface, [Helpers]; every result holds for all of them. *)

From Stdlib Require Import QArith Qabs Qround Lqa ZArith List Bool String
  Ascii Lia DecimalString DecimalN.
Import ListNotations.

Local Open Scope Q_scope.

(** ** JavaScript numbers *)

Definition number := Q.

(** [!!x] for a number: every number but zero. *)
Definition truthy (x : number) : bool := negb (Qeq_bool x 0).

(** [!!x] for [number | undefined | null]. *)
Definition truthyO (o : option number) : bool :=
  match o with
  | Some x => truthy x
  | None => false
  end.

(** [a || b] with [a] an optional number and [b] a number. *)
Definition orElse (a : option number) (b : number) : number :=
  match a with
  | Some x => if truthy x then x else b
  | None => b
  end.

(** [a > b], [a < b], [a === b], [a !== b] on numbers. *)
Definition num_gt (a b : number) : bool := negb (Qle_bool a b).
Definition num_lt (a b : number) : bool := negb (Qle_bool b a).
Definition strictEq (a b : number) : bool := Qeq_bool a b.
Definition strictNeq (a b : number) : bool := negb (Qeq_bool a b).

(** [a === b] with [b] possibly undefined. *)
Definition strictEqO (a : number) (b : option number) : bool :=
  match b with
  | Some y => strictEq a y
  | None => false
  end.

(** [a !== b] with both possibly undefined. *)
Definition strictNeqO (a b : option number) : bool :=
  match a, b with
  | Some u, Some v => strictNeq u v
  | None, None => false
  | _, _ => true
  end.

(** *** [Number.prototype.toFixed]

    [x.toFixed(f)]: the sign when [x < 0], then the integer [n] closest to
    [|x| * 10^f] (the larger one of two) written in decimal with at least
    [f + 1] digits, a point before the last [f].  (From [10^21] on
    JavaScript prints the number in exponent form; zoom levels and offsets
    stay far below.) *)

Definition toFixed_n (f : nat) (x : number) : Z :=
  Qfloor (Qabs x * inject_Z (10 ^ Z.of_nat f) + (1 # 2)).

Fixpoint zeros (k : nat) : string :=
  match k with
  | O => EmptyString
  | S k' => String "0" (zeros k')
  end.

Definition pad (f : nat) (m : string) : string :=
  append (zeros (S f - String.length m)) m.

(** A point after the first [k] characters. *)
Fixpoint insertPoint (k : nat) (m : string) : string :=
  match k, m with
  | S k', String a m' => String a (insertPoint k' m')
  | _, _ => String "." m
  end.

Definition point (f : nat) (m : string) : string :=
  match f with
  | O => m
  | S _ => insertPoint (String.length m - f) m
  end.

Definition toFixed (f : nat) (x : number) : string :=
  let s := if num_lt x 0 then "-"%string else EmptyString in
  let m := NilZero.string_of_uint (N.to_uint (Z.to_N (toFixed_n f x))) in
  append s (point f (pad f m)).

(** ** Data of [typings/index.ts] *)

Record Vec2D := { x : number; y : number }.

Record Size2D := { width : number; height : number }.

Record TouchPoint := {
  tp_x : number;
  tp_y : number;
  (** [id] is [Date.now().toString()]: the timestamp it prints. *)
  id : Z;
  isSecondTap : bool
}.

Record ZoomableViewEvent := {
  ev_zoomLevel : number;
  ev_offsetX : number;
  ev_offsetY : number;
  ev_originalHeight : number;
  ev_originalWidth : number;
  ev_originalPageX : number;
  ev_originalPageY : number
}.

(** [this.state], the part the handlers read.  [touches], [debugPoints] and
    [pinSize] are only written, through [setState]. *)
Record ReactNativeZoomableViewState := {
  originalWidth : number;
  originalHeight : number;
  originalPageX : number;
  originalPageY : number;
  originalX : number;
  originalY : number
}.

Definition initialState : ReactNativeZoomableViewState :=
  {| originalWidth := 0; originalHeight := 0; originalPageX := 0;
     originalPageY := 0; originalX := 0; originalY := 0 |}.

(** ** Events of the host framework *)

Record NativeTouch := { touch_pageX : number; touch_pageY : number }.

(** [e.nativeEvent] of a [GestureResponderEvent]. *)
Record GestureResponderEvent := {
  pageX : number;
  pageY : number;
  nativeTouches : list NativeTouch
}.

Record PanResponderGestureState := {
  numberActiveTouches : nat;
  dx : number;
  dy : number;
  moveX : number;
  moveY : number;
  vx : number;
  vy : number
}.

(** ** Styles

    Of a style object only the [transform] key is kept.  An entry of a
    transform list is driven by an animated value of the component or is a
    plain number. *)

Inductive TransformValue :=
| ZoomAnimNode
| PanAnimXNode
| PanAnimYNode
| Static (v : number).

Inductive Transform :=
| scale (v : TransformValue)
| scaleX (v : TransformValue)
| scaleY (v : TransformValue)
| translateX (v : TransformValue)
| translateY (v : TransformValue)
| rotate (v : TransformValue)
| skewX (v : TransformValue)
| skewY (v : TransformValue).

Record ViewStyle := { transform : option (list Transform) }.

(** ** Props *)

(** A callback of the user with the arguments
    [(event, gestureState, zoomableViewEventObject)]; its result read for
    truthiness.  A callback does not call back into the component. *)
Definition GestureCallback :=
  option GestureResponderEvent -> option PanResponderGestureState ->
  ZoomableViewEvent -> bool.

Inductive CallbackName :=
| onPanResponderGrant | onPanResponderEnd | onPanResponderMove
| onZoomBefore | onZoomAfter | onZoomEnd
| onShiftingBefore | onShiftingAfter | onShiftingEnd
| onDoubleTapBefore | onDoubleTapAfter | onLongPress | onLayout.

Record ReactNativeZoomableViewProps := {
  style : option ViewStyle;
  zoomEnabled : bool;
  panEnabled : bool;
  initialZoom : option number;
  initialOffsetX : option number;
  initialOffsetY : option number;
  contentWidth : option number;
  contentHeight : option number;
  panBoundaryPadding : option number;
  maxZoom : option number;
  minZoom : option number;
  doubleTapDelay : option number;
  doubleTapZoomToCenter : bool;
  bindToBorders : bool;
  zoomStep : option number;
  pinchToZoomInSensitivity : option number;
  pinchToZoomOutSensitivity : option number;
  movementSensibility : option number;
  longPressDuration : option number;
  disablePanOnInitialZoom : bool;
  debug : bool;
  staticPinPosition : option Vec2D;
  animatePin : bool;
  disableMomentum : bool;
  (** the callbacks, [None] when the prop is not given *)
  callback : CallbackName -> option GestureCallback
}.

(** [static defaultProps]. *)
Definition defaultProps : ReactNativeZoomableViewProps :=
  {| style := None;
     zoomEnabled := true;
     panEnabled := true;
     initialZoom := Some 1;
     initialOffsetX := Some 0;
     initialOffsetY := Some 0;
     contentWidth := None;
     contentHeight := None;
     panBoundaryPadding := Some 0;
     maxZoom := Some (3 # 2);
     minZoom := Some (1 # 2);
     doubleTapDelay := Some 300;
     doubleTapZoomToCenter := false;
     bindToBorders := true;
     zoomStep := Some (1 # 2);
     pinchToZoomInSensitivity := Some 1;
     pinchToZoomOutSensitivity := Some 1;
     movementSensibility := Some 1;
     longPressDuration := Some 700;
     disablePanOnInitialZoom := false;
     debug := false;
     staticPinPosition := None;
     animatePin := true;
     disableMomentum := false;
     callback := fun _ => None |}.

(** ** The component instance *)

Inductive Axis := AxisX | AxisY.

Inductive GestureType := pinch | shift.

Record OffsetState := {
  value : number;
  boundaryCrossedAnimInEffect : bool
}.

Inductive AnimatedRef := PanAnim | ZoomAnim | PinAnim.

Inductive Timer :=
| LongPressTimer (duration : option number)
| SingleTapTimer (delay : option number).

(** What a handler hands to the framework. *)
Inductive Effect :=
| BoundaryCrossedAnim (axis : Axis) (toValue : number)
| PanMomentumDecayAnim (velocity : Vec2D)
| ZoomToAnimation (toValue : number) (zoomCenter : option Vec2D)
| PanTiming (toValue : Vec2D) (duration : number)
| PinTiming (toValue : Vec2D)
| StopAnimation (target : AnimatedRef)
| SetDebugPoints (points : list Vec2D)
| SetTouches (ts : list TouchPoint)
| SetTimeout (t : Timer)
| ClearTimeout (t : Timer)
| Persist
| Invoke (cb : CallbackName) (ev : ZoomableViewEvent)
| InvokeOnTransform (ev : ZoomableViewEvent)
| InvokeOnLayout (layout : ReactNativeZoomableViewState)
| InvokeStaticPinPositionChange (position : Vec2D).

Record ZoomableView := mkView {
  state : ReactNativeZoomableViewState;
  panAnim : Vec2D;
  zoomAnim : number;
  offsets_x : OffsetState;
  offsets_y : OffsetState;
  zoomLevel : number;
  lastGestureCenterPosition : option Vec2D;
  lastGestureTouchDistance : option number;
  gestureType : option GestureType;
  gestureStarted : bool;
  longPressTimeout : option Timer;
  onTransformInvocationInitialized : bool;
  singleTapTimeoutId : option Timer;
  touches : list TouchPoint;
  doubleTapFirstTap : option TouchPoint;
  doubleTapFirstTapReleaseTimestamp : option Z;
  trace : list Effect
}.

(** Assignments to the instance fields. *)

Definition set_state (v : ReactNativeZoomableViewState)
    (c : ZoomableView) : ZoomableView :=
  mkView v (panAnim c) (zoomAnim c) (offsets_x c) (offsets_y c)
    (zoomLevel c) (lastGestureCenterPosition c)
    (lastGestureTouchDistance c) (gestureType c) (gestureStarted c)
    (longPressTimeout c) (onTransformInvocationInitialized c)
    (singleTapTimeoutId c) (touches c) (doubleTapFirstTap c)
    (doubleTapFirstTapReleaseTimestamp c) (trace c).

Definition set_onTransformInvocationInitialized (v : bool)
    (c : ZoomableView) : ZoomableView :=
  mkView (state c) (panAnim c) (zoomAnim c) (offsets_x c) (offsets_y c)
    (zoomLevel c) (lastGestureCenterPosition c)
    (lastGestureTouchDistance c) (gestureType c) (gestureStarted c)
    (longPressTimeout c) v
    (singleTapTimeoutId c) (touches c) (doubleTapFirstTap c)
    (doubleTapFirstTapReleaseTimestamp c) (trace c).

Definition set_panAnim (v : Vec2D) (c : ZoomableView) : ZoomableView :=
  mkView (state c) v (zoomAnim c) (offsets_x c) (offsets_y c) (zoomLevel c)
    (lastGestureCenterPosition c) (lastGestureTouchDistance c)
    (gestureType c) (gestureStarted c) (longPressTimeout c)
    (onTransformInvocationInitialized c) (singleTapTimeoutId c) (touches c)
    (doubleTapFirstTap c) (doubleTapFirstTapReleaseTimestamp c) (trace c).

Definition set_zoomAnim (v : number) (c : ZoomableView) : ZoomableView :=
  mkView (state c) (panAnim c) v (offsets_x c) (offsets_y c) (zoomLevel c)
    (lastGestureCenterPosition c) (lastGestureTouchDistance c)
    (gestureType c) (gestureStarted c) (longPressTimeout c)
    (onTransformInvocationInitialized c) (singleTapTimeoutId c) (touches c)
    (doubleTapFirstTap c) (doubleTapFirstTapReleaseTimestamp c) (trace c).

Definition set_offsets_x (v : OffsetState) (c : ZoomableView) : ZoomableView :=
  mkView (state c) (panAnim c) (zoomAnim c) v (offsets_y c) (zoomLevel c)
    (lastGestureCenterPosition c) (lastGestureTouchDistance c)
    (gestureType c) (gestureStarted c) (longPressTimeout c)
    (onTransformInvocationInitialized c) (singleTapTimeoutId c) (touches c)
    (doubleTapFirstTap c) (doubleTapFirstTapReleaseTimestamp c) (trace c).

Definition set_offsets_y (v : OffsetState) (c : ZoomableView) : ZoomableView :=
  mkView (state c) (panAnim c) (zoomAnim c) (offsets_x c) v (zoomLevel c)
    (lastGestureCenterPosition c) (lastGestureTouchDistance c)
    (gestureType c) (gestureStarted c) (longPressTimeout c)
    (onTransformInvocationInitialized c) (singleTapTimeoutId c) (touches c)
    (doubleTapFirstTap c) (doubleTapFirstTapReleaseTimestamp c) (trace c).

Definition set_zoomLevel (v : number) (c : ZoomableView) : ZoomableView :=
  mkView (state c) (panAnim c) (zoomAnim c) (offsets_x c) (offsets_y c) v
    (lastGestureCenterPosition c) (lastGestureTouchDistance c)
    (gestureType c) (gestureStarted c) (longPressTimeout c)
    (onTransformInvocationInitialized c) (singleTapTimeoutId c) (touches c)
    (doubleTapFirstTap c) (doubleTapFirstTapReleaseTimestamp c) (trace c).

Definition set_lastGestureCenterPosition (v : option Vec2D)
    (c : ZoomableView) : ZoomableView :=
  mkView (state c) (panAnim c) (zoomAnim c) (offsets_x c) (offsets_y c)
    (zoomLevel c) v (lastGestureTouchDistance c) (gestureType c)
    (gestureStarted c) (longPressTimeout c)
    (onTransformInvocationInitialized c) (singleTapTimeoutId c) (touches c)
    (doubleTapFirstTap c) (doubleTapFirstTapReleaseTimestamp c) (trace c).

Definition set_lastGestureTouchDistance (v : option number)
    (c : ZoomableView) : ZoomableView :=
  mkView (state c) (panAnim c) (zoomAnim c) (offsets_x c) (offsets_y c)
    (zoomLevel c) (lastGestureCenterPosition c) v (gestureType c)
    (gestureStarted c) (longPressTimeout c)
    (onTransformInvocationInitialized c) (singleTapTimeoutId c) (touches c)
    (doubleTapFirstTap c) (doubleTapFirstTapReleaseTimestamp c) (trace c).

Definition set_gestureType (v : option GestureType)
    (c : ZoomableView) : ZoomableView :=
  mkView (state c) (panAnim c) (zoomAnim c) (offsets_x c) (offsets_y c)
    (zoomLevel c) (lastGestureCenterPosition c)
    (lastGestureTouchDistance c) v (gestureStarted c) (longPressTimeout c)
    (onTransformInvocationInitialized c) (singleTapTimeoutId c) (touches c)
    (doubleTapFirstTap c) (doubleTapFirstTapReleaseTimestamp c) (trace c).

Definition set_gestureStarted (v : bool) (c : ZoomableView) : ZoomableView :=
  mkView (state c) (panAnim c) (zoomAnim c) (offsets_x c) (offsets_y c)
    (zoomLevel c) (lastGestureCenterPosition c)
    (lastGestureTouchDistance c) (gestureType c) v (longPressTimeout c)
    (onTransformInvocationInitialized c) (singleTapTimeoutId c) (touches c)
    (doubleTapFirstTap c) (doubleTapFirstTapReleaseTimestamp c) (trace c).

Definition set_longPressTimeout (v : option Timer)
    (c : ZoomableView) : ZoomableView :=
  mkView (state c) (panAnim c) (zoomAnim c) (offsets_x c) (offsets_y c)
    (zoomLevel c) (lastGestureCenterPosition c)
    (lastGestureTouchDistance c) (gestureType c) (gestureStarted c) v
    (onTransformInvocationInitialized c) (singleTapTimeoutId c) (touches c)
    (doubleTapFirstTap c) (doubleTapFirstTapReleaseTimestamp c) (trace c).

Definition set_singleTapTimeoutId (v : option Timer)
    (c : ZoomableView) : ZoomableView :=
  mkView (state c) (panAnim c) (zoomAnim c) (offsets_x c) (offsets_y c)
    (zoomLevel c) (lastGestureCenterPosition c)
    (lastGestureTouchDistance c) (gestureType c) (gestureStarted c)
    (longPressTimeout c) (onTransformInvocationInitialized c) v (touches c)
    (doubleTapFirstTap c) (doubleTapFirstTapReleaseTimestamp c) (trace c).

Definition set_touches (v : list TouchPoint)
    (c : ZoomableView) : ZoomableView :=
  mkView (state c) (panAnim c) (zoomAnim c) (offsets_x c) (offsets_y c)
    (zoomLevel c) (lastGestureCenterPosition c)
    (lastGestureTouchDistance c) (gestureType c) (gestureStarted c)
    (longPressTimeout c) (onTransformInvocationInitialized c)
    (singleTapTimeoutId c) v (doubleTapFirstTap c)
    (doubleTapFirstTapReleaseTimestamp c) (trace c).

Definition set_doubleTapFirstTap (v : option TouchPoint)
    (c : ZoomableView) : ZoomableView :=
  mkView (state c) (panAnim c) (zoomAnim c) (offsets_x c) (offsets_y c)
    (zoomLevel c) (lastGestureCenterPosition c)
    (lastGestureTouchDistance c) (gestureType c) (gestureStarted c)
    (longPressTimeout c) (onTransformInvocationInitialized c)
    (singleTapTimeoutId c) (touches c) v
    (doubleTapFirstTapReleaseTimestamp c) (trace c).

Definition set_doubleTapFirstTapReleaseTimestamp (v : option Z)
    (c : ZoomableView) : ZoomableView :=
  mkView (state c) (panAnim c) (zoomAnim c) (offsets_x c) (offsets_y c)
    (zoomLevel c) (lastGestureCenterPosition c)
    (lastGestureTouchDistance c) (gestureType c) (gestureStarted c)
    (longPressTimeout c) (onTransformInvocationInitialized c)
    (singleTapTimeoutId c) (touches c) (doubleTapFirstTap c) v (trace c).

Definition set_trace (v : list Effect) (c : ZoomableView) : ZoomableView :=
  mkView (state c) (panAnim c) (zoomAnim c) (offsets_x c) (offsets_y c)
    (zoomLevel c) (lastGestureCenterPosition c)
    (lastGestureTouchDistance c) (gestureType c) (gestureStarted c)
    (longPressTimeout c) (onTransformInvocationInitialized c)
    (singleTapTimeoutId c) (touches c) (doubleTapFirstTap c)
    (doubleTapFirstTapReleaseTimestamp c) v.

(** ** The helper modules

    [./helper] and [./helper/applyPanBoundariesToOffset] and
    [./helper/coordinateConversion], as the class calls them.  A result that
    the class tests with [!] is optional. *)

Record Helpers := {
  calcGestureCenterPoint :
    GestureResponderEvent -> PanResponderGestureState -> option Vec2D;
  calcGestureTouchDistance :
    GestureResponderEvent -> PanResponderGestureState -> option number;
  (** [(oldOffset, originalSize, oldScale, newScale, zoomCenter)] *)
  calcNewScaledOffsetForZoomCentering :
    number -> number -> number -> number -> number -> number;
  (** [(offset, containerSize, contentSize, scale, boundaryPadding)] *)
  applyPanBoundariesToOffset :
    number -> number -> number -> number -> number -> number;
  (** [({ viewportPosition, imageSize, zoomableEvent })] *)
  viewportPositionToImagePosition :
    Vec2D -> Size2D -> ZoomableViewEvent -> option Vec2D
}.

Definition isSome {A : Type} (o : option A) : bool :=
  match o with
  | Some _ => true
  | None => false
  end.

Definition is_pinch (g : option GestureType) : bool :=
  match g with
  | Some pinch => true
  | _ => false
  end.

Definition is_shift (g : option GestureType) : bool :=
  match g with
  | Some shift => true
  | _ => false
  end.

Section Component.

Context (H : Helpers) (props : ReactNativeZoomableViewProps).

Definition emit (e : Effect) (c : ZoomableView) : ZoomableView :=
  set_trace (e :: trace c) c.

(** *** Offsets *)

Definition offsetStateOf (axis : Axis) (c : ZoomableView) : OffsetState :=
  match axis with
  | AxisX => offsets_x c
  | AxisY => offsets_y c
  end.

Definition set_offsetState (axis : Axis) (o : OffsetState)
    (c : ZoomableView) : ZoomableView :=
  match axis with
  | AxisX => set_offsets_x o c
  | AxisY => set_offsets_y o c
  end.

Definition __getOffset (axis : Axis) (c : ZoomableView) : number :=
  value (offsetStateOf axis c).

Definition offsetX (c : ZoomableView) : number := __getOffset AxisX c.
Definition offsetY (c : ZoomableView) : number := __getOffset AxisY c.

Definition containerSizeOf (axis : Axis) (c : ZoomableView) : number :=
  match axis with
  | AxisX => originalWidth (state c)
  | AxisY => originalHeight (state c)
  end.

Definition contentSizeOf (axis : Axis) (c : ZoomableView) : number :=
  match axis with
  | AxisX => orElse (contentWidth props) (originalWidth (state c))
  | AxisY => orElse (contentHeight props) (originalHeight (state c))
  end.

(** [boundOffset] of [__setOffset]. *)
Definition boundOffsetOf (axis : Axis) (offset : number)
    (c : ZoomableView) : number :=
  match panBoundaryPadding props with
  | Some padding =>
      if truthy (contentSizeOf axis c) && truthy (containerSizeOf axis c)
      then applyPanBoundariesToOffset H offset (containerSizeOf axis c)
             (contentSizeOf axis c) (zoomLevel c) padding
      else offset
  | None => offset
  end.

(** [boundariesApplied] of [__setOffset]. *)
Definition boundariesApplied (boundOffset offset : number) : bool :=
  strictNeq boundOffset offset &&
  negb (String.eqb (toFixed 3 boundOffset) (toFixed 3 offset)).

Definition __setOffset (axis : Axis) (offset : number)
    (c : ZoomableView) : ZoomableView :=
  let offsetState := offsetStateOf axis c in
  let stored :=
    set_offsetState axis
      {| value := offset;
         boundaryCrossedAnimInEffect :=
           boundaryCrossedAnimInEffect offsetState |} c in
  if bindToBorders props then
    let boundOffset := boundOffsetOf axis offset c in
    if negb (isSome (gestureType c)) &&
       negb (boundaryCrossedAnimInEffect offsetState)
    then
      if boundariesApplied boundOffset offset then
        emit (BoundaryCrossedAnim axis boundOffset)
          (set_offsetState axis
             {| value := value offsetState;
                boundaryCrossedAnimInEffect := true |} c)
      else stored
    else stored
  else stored.

Definition set_offsetX (v : number) : ZoomableView -> ZoomableView :=
  __setOffset AxisX v.
Definition set_offsetY (v : number) : ZoomableView -> ZoomableView :=
  __setOffset AxisY v.

(** The completion callback given to the boundary animation's [start]:
    the framework calls it when the animation on that axis ends or is
    stopped. *)
Definition boundaryCrossedAnimEnd (axis : Axis)
    (c : ZoomableView) : ZoomableView :=
  set_offsetState axis
    {| value := value (offsetStateOf axis c);
       boundaryCrossedAnimInEffect := false |} c.

(** *** Event object and static pin *)

Definition _getZoomableViewEventObject (c : ZoomableView) : ZoomableViewEvent :=
  {| ev_zoomLevel := zoomLevel c;
     ev_offsetX := offsetX c;
     ev_offsetY := offsetY c;
     ev_originalHeight := originalHeight (state c);
     ev_originalWidth := originalWidth (state c);
     ev_originalPageX := originalPageX (state c);
     ev_originalPageY := originalPageY (state c) |}.

(** [_getZoomableViewEventObject({ zoomLevel })]. *)
Definition _getZoomableViewEventObject_zoomLevel (z : number)
    (c : ZoomableView) : ZoomableViewEvent :=
  let ev := _getZoomableViewEventObject c in
  {| ev_zoomLevel := z;
     ev_offsetX := ev_offsetX ev;
     ev_offsetY := ev_offsetY ev;
     ev_originalHeight := ev_originalHeight ev;
     ev_originalWidth := ev_originalWidth ev;
     ev_originalPageX := ev_originalPageX ev;
     ev_originalPageY := ev_originalPageY ev |}.

Definition _staticPinPosition (c : ZoomableView) : option Vec2D :=
  match staticPinPosition props with
  | None => None
  | Some pin =>
      match contentWidth props, contentHeight props with
      | Some w, Some h =>
          if truthy w && truthy h
          then viewportPositionToImagePosition H pin
                 {| width := w; height := h |}
                 (_getZoomableViewEventObject c)
          else None
      | _, _ => None
      end
  end.

Definition _updateStaticPin (c : ZoomableView) : ZoomableView :=
  match _staticPinPosition c with
  | None => c
  | Some position => emit (InvokeStaticPinPositionChange position) c
  end.

(** [_invokeOnTransform]: the [onTransform] and pin position callbacks,
    one entry of the trace; the result is [successful]. *)
Definition _invokeOnTransform (c : ZoomableView) : bool * ZoomableView :=
  let zoomableViewEvent := _getZoomableViewEventObject c in
  if negb (truthy (ev_originalWidth zoomableViewEvent)) ||
     negb (truthy (ev_originalHeight zoomableViewEvent))
  then (false, c)
  else (true, emit (InvokeOnTransform zoomableViewEvent) c).

(** Calls of the user's callbacks.  [invoke] is [this.props.cb?.(...)] with
    the result dropped, [ask] reads the result ([false] when the prop is
    not given). *)
Definition ask (cb : CallbackName) (e : option GestureResponderEvent)
    (gs : option PanResponderGestureState)
    (c : ZoomableView) : bool * ZoomableView :=
  match callback props cb with
  | Some f =>
      (f e gs (_getZoomableViewEventObject c),
       emit (Invoke cb (_getZoomableViewEventObject c)) c)
  | None => (false, c)
  end.

Definition invoke (cb : CallbackName) (e : option GestureResponderEvent)
    (gs : option PanResponderGestureState)
    (c : ZoomableView) : ZoomableView :=
  snd (ask cb e gs c).

(** *** The animated values

    [panAnim] and [zoomAnim] belong to the framework.  Its contract, as the
    class relies on it: [setValue] ends the animation running on the value,
    stores the number and calls the listeners; [stopAnimation] ends the
    running animation and keeps the number; an [Animated.ValueXY] does
    either for [x], then for [y], and calls a listener with both numbers
    each time; [start] registers an animation, whose frames come later.
    The listeners are the two of the constructor, and after them the two
    [componentDidUpdate] adds once [onTransformInvocationInitialized]. *)

Definition onTransformListener (c : ZoomableView) : ZoomableView :=
  if onTransformInvocationInitialized c then snd (_invokeOnTransform c)
  else c.

(** [this.panAnim.addListener(({ x, y }) => { this.offsetX = x;
    this.offsetY = y; })] *)
Definition panAnimListeners (c : ZoomableView) : ZoomableView :=
  let v := panAnim c in
  onTransformListener (set_offsetY (y v) (set_offsetX (x v) c)).

(** [this.zoomAnim.addListener(({ value }) => { this.zoomLevel = value; })] *)
Definition zoomAnimListeners (c : ZoomableView) : ZoomableView :=
  onTransformListener (set_zoomLevel (zoomAnim c) c).

Definition panAnim_setValue (v : Vec2D) (c : ZoomableView) : ZoomableView :=
  let c := boundaryCrossedAnimEnd AxisX c in
  let c := set_panAnim {| x := x v; y := y (panAnim c) |} c in
  let c := panAnimListeners c in
  let c := boundaryCrossedAnimEnd AxisY c in
  let c := set_panAnim {| x := x (panAnim c); y := y v |} c in
  panAnimListeners c.

Definition zoomAnim_setValue (v : number) (c : ZoomableView) : ZoomableView :=
  zoomAnimListeners (set_zoomAnim v c).

Definition panAnim_stopAnimation (c : ZoomableView) : ZoomableView :=
  emit (StopAnimation PanAnim)
    (boundaryCrossedAnimEnd AxisY (boundaryCrossedAnimEnd AxisX c)).

Definition zoomAnim_stopAnimation (c : ZoomableView) : ZoomableView :=
  emit (StopAnimation ZoomAnim) c.

(** [getPanMomentumDecayAnim(this.panAnim, velocity).start()]: it replaces
    the animations on both axes. *)
Definition startPanMomentumDecayAnim (velocity : Vec2D)
    (c : ZoomableView) : ZoomableView :=
  emit (PanMomentumDecayAnim velocity)
    (boundaryCrossedAnimEnd AxisY (boundaryCrossedAnimEnd AxisX c)).

(** [Animated.timing(this.panAnim, { toValue, duration }).start()]: it
    replaces the animations on both axes as well. *)
Definition startPanTiming (toValue : Vec2D) (duration : number)
    (c : ZoomableView) : ZoomableView :=
  emit (PanTiming toValue duration)
    (boundaryCrossedAnimEnd AxisY (boundaryCrossedAnimEnd AxisX c)).

Definition raisePin (c : ZoomableView) : ZoomableView :=
  if negb (animatePin props) then c
  else emit (PinTiming {| x := 0; y := - (10) |}) c.

Definition dropPin (c : ZoomableView) : ZoomableView :=
  if negb (animatePin props) then c
  else emit (PinTiming {| x := 0; y := 0 |}) c.

(** *** Programmatic zoom *)

(** [_getNextZoomStep]; [None] is [undefined]. *)
Definition _getNextZoomStep (c : ZoomableView) : option number :=
  match maxZoom props with
  | None => None
  | Some maxZoom =>
      if String.eqb (toFixed 2 (zoomLevel c)) (toFixed 2 maxZoom)
      then initialZoom props
      else
        match zoomStep props with
        | None => None
        | Some zoomStep =>
            let nextZoomStep := zoomLevel c * (1 + zoomStep) in
            if num_gt nextZoomStep maxZoom then Some maxZoom
            else Some nextZoomStep
        end
  end.

(** [zoomTo(newZoomLevel, zoomCenter)].  The listener that keeps the zoom
    center in place lives as long as the animation and is part of the
    [ZoomToAnimation] entry. *)
Definition zoomTo (newZoomLevel : number) (zoomCenter : option Vec2D)
    (c : ZoomableView) : bool * ZoomableView :=
  if negb (zoomEnabled props) then (false, c)
  else if truthyO (maxZoom props) &&
          match maxZoom props with
          | Some m => num_gt newZoomLevel m
          | None => false
          end
  then (false, c)
  else if truthyO (minZoom props) &&
          match minZoom props with
          | Some m => num_lt newZoomLevel m
          | None => false
          end
  then (false, c)
  else
    let c := invoke onZoomBefore None None c in
    let c := emit (ZoomToAnimation newZoomLevel zoomCenter) c in
    let c := invoke onZoomAfter None None c in
    (true, c).

(** [zoomBy(zoomLevelChange)], with
    [zoomLevelChange ||= this.props.zoomStep || 0]. *)
Definition zoomBy (zoomLevelChange : option number)
    (c : ZoomableView) : bool * ZoomableView :=
  let zoomLevelChange := orElse zoomLevelChange (orElse (zoomStep props) 0) in
  zoomTo (zoomLevel c + zoomLevelChange) None c.

(** *** Programmatic pan *)

Definition _setNewOffsetPosition (newOffsetX newOffsetY : number)
    (c : ZoomableView) : ZoomableView :=
  let (veto, c) := ask onShiftingBefore None None c in
  if veto then c
  else
    let c := set_offsetX newOffsetX c in
    let c := set_offsetY newOffsetY c in
    let c := panAnim_setValue {| x := offsetX c; y := offsetY c |} c in
    let c := zoomAnim_setValue (zoomLevel c) c in
    invoke onShiftingAfter None None c.

Definition moveTo (newOffsetX newOffsetY : number)
    (c : ZoomableView) : ZoomableView :=
  if negb (truthy (originalWidth (state c))) ||
     negb (truthy (originalHeight (state c)))
  then c
  else
    let offsetX := (newOffsetX - originalWidth (state c) / 2) / zoomLevel c in
    let offsetY := (newOffsetY - originalHeight (state c) / 2) / zoomLevel c in
    _setNewOffsetPosition (- offsetX) (- offsetY) c.

Definition moveBy (offsetChangeX offsetChangeY : number)
    (c : ZoomableView) : ZoomableView :=
  let offsetX' := (offsetX c * zoomLevel c - offsetChangeX) / zoomLevel c in
  let offsetY' := (offsetY c * zoomLevel c - offsetChangeY) / zoomLevel c in
  _setNewOffsetPosition offsetX' offsetY' c.

Definition moveStaticPinTo (position : Vec2D) (duration : option number)
    (c : ZoomableView) : ZoomableView :=
  match staticPinPosition props, contentWidth props, contentHeight props with
  | Some pin, Some contentWidth, Some contentHeight =>
      if negb (truthy (originalWidth (state c))) ||
         negb (truthy (originalHeight (state c)))
      then c
      else if negb (truthy contentWidth) || negb (truthy contentHeight)
      then c
      else
        let pinX := x pin - originalWidth (state c) / 2 in
        let pinY := y pin - originalHeight (state c) / 2 in
        let c :=
          set_offsetX (contentWidth / 2 - x position + pinX / zoomLevel c) c in
        let c :=
          set_offsetY (contentHeight / 2 - y position + pinY / zoomLevel c) c in
        match duration with
        | Some d =>
            if truthy d
            then startPanTiming {| x := offsetX c; y := offsetY c |} d c
            else panAnim_setValue {| x := offsetX c; y := offsetY c |} c
        | None => panAnim_setValue {| x := offsetX c; y := offsetY c |} c
        end
  | _, _, _ => c
  end.

(** *** Life cycle *)

(** The callback of [measure] in [measureZoomSubject]; the [setState] is
    taken as applied. *)
Definition measureZoomSubject (x y width height pageX pageY : number)
    (c : ZoomableView) : ZoomableView :=
  if negb (truthy pageX) && negb (truthy pageY) && negb (truthy width) &&
     negb (truthy height)
  then c
  else if strictEq (originalX (state c)) x &&
          strictEq (originalY (state c)) y &&
          strictEq (originalWidth (state c)) width &&
          strictEq (originalHeight (state c)) height &&
          strictEq (originalPageX (state c)) pageX &&
          strictEq (originalPageY (state c)) pageY
  then c
  else
    set_state {| originalWidth := width; originalHeight := height;
                 originalPageX := pageX; originalPageY := pageY;
                 originalX := x; originalY := y |} c.

Definition componentDidUpdate (prevProps : ReactNativeZoomableViewProps)
    (prevState : ReactNativeZoomableViewState)
    (c : ZoomableView) : ZoomableView :=
  let c :=
    match initialZoom props with
    | Some initialZoom =>
        if zoomEnabled prevProps && negb (zoomEnabled props) &&
           truthy initialZoom
        then
          let c := set_zoomLevel initialZoom c in
          zoomAnim_setValue (zoomLevel c) c
        else c
    | None => c
    end in
  let c :=
    if negb (onTransformInvocationInitialized c) then
      let (successful, c) := _invokeOnTransform c in
      if successful then set_onTransformInvocationInitialized true c else c
    else c in
  let currState := state c in
  let originalMeasurementsChanged :=
    strictNeq (originalHeight currState) (originalHeight prevState) ||
    strictNeq (originalWidth currState) (originalWidth prevState) ||
    strictNeq (originalPageX currState) (originalPageX prevState) ||
    strictNeq (originalPageY currState) (originalPageY prevState) ||
    strictNeq (originalX currState) (originalX prevState) ||
    strictNeq (originalY currState) (originalY prevState) in
  let staticPinPositionChanged :=
    strictNeqO (option_map x (staticPinPosition prevProps))
               (option_map x (staticPinPosition props)) ||
    strictNeqO (option_map y (staticPinPosition prevProps))
               (option_map y (staticPinPosition props)) in
  let c :=
    if originalMeasurementsChanged && isSome (callback props onLayout)
    then emit (InvokeOnLayout currState) c
    else c in
  if onTransformInvocationInitialized c &&
     (originalMeasurementsChanged || staticPinPositionChanged)
  then snd (_invokeOnTransform c)
  else c.

(** *** Taps *)

Definition _addTouch (touch : TouchPoint) (c : ZoomableView) : ZoomableView :=
  let c := set_touches (touches c ++ [touch]) c in
  emit (SetTouches (touches c)) c.

Definition _handleDoubleTap (e : GestureResponderEvent)
    (c : ZoomableView) : ZoomableView :=
  let c := invoke onDoubleTapBefore (Some e) None c in
  match _getNextZoomStep c with
  | None => c
  | Some nextZoomStep =>
      let zoomPositionCoordinates :=
        if doubleTapZoomToCenter props then {| x := 0; y := 0 |}
        else {| x := pageX e - originalPageX (state c);
                y := pageY e - originalPageY (state c) |} in
      let c := snd (zoomTo nextZoomStep (Some zoomPositionCoordinates) c) in
      match callback props onDoubleTapAfter with
      | Some _ =>
          emit (Invoke onDoubleTapAfter
                  (_getZoomableViewEventObject_zoomLevel nextZoomStep c)) c
      | None => c
      end
  end.

(** [_resolveAndHandleTap], with [now] the value of [Date.now()].  The body
    of the single tap timer runs later and is no part of this step. *)
Definition _resolveAndHandleTap (now : Z) (e : GestureResponderEvent)
    (c : ZoomableView) : ZoomableView :=
  let isDoubleTap :=
    match doubleTapFirstTapReleaseTimestamp c, doubleTapDelay props with
    | Some t0, Some delay =>
        truthy (inject_Z t0) && truthy delay &&
        num_lt (inject_Z now - inject_Z t0) delay
    | _, _ => false
    end in
  if isDoubleTap then
    let c :=
      match doubleTapFirstTap c with
      | Some tap =>
          _addTouch {| tp_x := tp_x tap; tp_y := tp_y tap; id := now;
                       isSecondTap := true |} c
      | None => c
      end in
    let c :=
      match singleTapTimeoutId c with
      | Some t => emit (ClearTimeout t) c
      | None => c
      end in
    let c := set_doubleTapFirstTapReleaseTimestamp None c in
    let c := set_singleTapTimeoutId None c in
    let c := set_doubleTapFirstTap None c in
    _handleDoubleTap e c
  else
    let c := set_doubleTapFirstTapReleaseTimestamp (Some now) c in
    let tap :=
      {| tp_x := pageX e - originalPageX (state c);
         tp_y := pageY e - originalPageY (state c);
         id := now;
         isSecondTap := false |} in
    let c := set_doubleTapFirstTap (Some tap) c in
    let c := _addTouch tap c in
    let c := emit Persist c in
    let t := SingleTapTimer (doubleTapDelay props) in
    set_singleTapTimeoutId (Some t) (emit (SetTimeout t) c).

(** *** Gestures *)

Definition clearLongPressTimeout (c : ZoomableView) : ZoomableView :=
  match longPressTimeout c with
  | Some t => set_longPressTimeout None (emit (ClearTimeout t) c)
  | None => c
  end.

Definition _handlePanResponderGrant (e : GestureResponderEvent)
    (gestureState : PanResponderGestureState)
    (c : ZoomableView) : ZoomableView :=
  let c :=
    match callback props onLongPress with
    | Some _ =>
        let t := LongPressTimer (longPressDuration props) in
        set_longPressTimeout (Some t) (emit (SetTimeout t) c)
    | None => c
    end in
  let c := invoke onPanResponderGrant (Some e) (Some gestureState) c in
  let c := panAnim_stopAnimation c in
  let c := zoomAnim_stopAnimation c in
  let c := set_gestureStarted true c in
  raisePin c.

(** [disableMomentum] of [_handlePanResponderEnd]. *)
Definition momentumDisabled (c : ZoomableView) : bool :=
  disableMomentum props ||
  (panEnabled props && is_shift (gestureType c) &&
   disablePanOnInitialZoom props &&
   strictEqO (zoomLevel c) (initialZoom props)).

Definition _handlePanResponderEnd (now : Z) (e : GestureResponderEvent)
    (gestureState : PanResponderGestureState)
    (c : ZoomableView) : ZoomableView :=
  let c :=
    if negb (isSome (gestureType c)) then _resolveAndHandleTap now e c
    else c in
  let c := emit (SetDebugPoints []) c in
  let c := set_lastGestureCenterPosition None c in
  let c :=
    if negb (momentumDisabled c) then
      startPanMomentumDecayAnim
        {| x := vx gestureState / zoomLevel c;
           y := vy gestureState / zoomLevel c |} c
    else c in
  let c := clearLongPressTimeout c in
  let c := invoke onPanResponderEnd (Some e) (Some gestureState) c in
  let c :=
    match gestureType c with
    | Some pinch => invoke onZoomEnd (Some e) (Some gestureState) c
    | Some shift => invoke onShiftingEnd (Some e) (Some gestureState) c
    | None => c
    end in
  let c := if isSome (staticPinPosition props) then _updateStaticPin c else c in
  let c := dropPin c in
  let c := set_gestureType None c in
  set_gestureStarted false c.

(** [_calcOffsetShiftSinceLastGestureState]: the shift, and the component
    with the gesture center remembered. *)
Definition _calcOffsetShiftSinceLastGestureState (gestureCenterPoint : Vec2D)
    (c : ZoomableView) : option Vec2D * ZoomableView :=
  let shiftVec :=
    match lastGestureCenterPosition c, movementSensibility props with
    | Some last, Some movementSensibility =>
        if truthy movementSensibility then
          let dx := x gestureCenterPoint - x last in
          let dy := y gestureCenterPoint - y last in
          Some {| x := dx / zoomLevel c / movementSensibility;
                  y := dy / zoomLevel c / movementSensibility |}
        else None
    | _, _ => None
    end in
  (shiftVec, set_lastGestureCenterPosition (Some gestureCenterPoint) c).

(** [_setPinchDebugPoints]; [None] when [touches[0]] or [touches[1]] is
    missing and the property access throws. *)
Definition _setPinchDebugPoints (e : GestureResponderEvent)
    (zoomCenter : Vec2D) (c : ZoomableView) : option ZoomableView :=
  match nativeTouches e with
  | t0 :: t1 :: _ =>
      Some (emit (SetDebugPoints
                    [ {| x := touch_pageX t0 - originalPageX (state c);
                         y := touch_pageY t0 - originalPageY (state c) |};
                      {| x := touch_pageX t1 - originalPageX (state c);
                         y := touch_pageY t1 - originalPageY (state c) |};
                      zoomCenter ]) c)
  | _ => None
  end.

(** [newZoomLevel] of [_handlePinching] before the bounds are applied. *)
Definition pinchZoomLevel (zoomLevel distance lastGestureTouchDistance
    pinchToZoomSensitivity : number) : number :=
  let zoomGrowthFromLastGestureState := distance / lastGestureTouchDistance in
  let deltaGrowth := zoomGrowthFromLastGestureState - 1 in
  let deltaGrowthAdjustedBySensitivity :=
    deltaGrowth * (1 - (pinchToZoomSensitivity * 9) / 100) in
  zoomLevel * (1 + deltaGrowthAdjustedBySensitivity).

(** [pinchToZoomSensitivity] of [_handlePinching]. *)
Definition pinchSensitivity (distance lastGestureTouchDistance : number)
    : option number :=
  if num_lt (distance / lastGestureTouchDistance) 1
  then pinchToZoomOutSensitivity props
  else pinchToZoomInSensitivity props.

(** "make sure max and min zoom levels are respected" *)
Definition respectZoomBounds (newZoomLevel : number) : number :=
  let newZoomLevel :=
    match maxZoom props with
    | Some maxZoom =>
        if num_gt newZoomLevel maxZoom then maxZoom else newZoomLevel
    | None => newZoomLevel
    end in
  match minZoom props with
  | Some minZoom =>
      if num_lt newZoomLevel minZoom then minZoom else newZoomLevel
  | None => newZoomLevel
  end.

(** [_handlePinching].  Where [_setPinchDebugPoints] throws, the handler is
    left with what it had done until then. *)
Definition _handlePinching (e : GestureResponderEvent)
    (gestureState : PanResponderGestureState)
    (c : ZoomableView) : ZoomableView :=
  if negb (zoomEnabled props) then c
  else
    let distance := calcGestureTouchDistance H e gestureState in
    let (veto, c) := ask onZoomBefore (Some e) (Some gestureState) c in
    if veto then c
    else
      match distance, lastGestureTouchDistance c with
      | None, _ => c
      | Some _, None => c
      | Some distance, Some last =>
      if negb (truthy distance) then c
      else if negb (truthy last) then c
      else
        let c := set_lastGestureTouchDistance (Some distance) c in
        match pinchSensitivity distance last with
        | None => c
        | Some pinchToZoomSensitivity =>
        let newZoomLevel :=
          respectZoomBounds
            (pinchZoomLevel (zoomLevel c) distance last
               pinchToZoomSensitivity) in
        match calcGestureCenterPoint H e gestureState with
        | None => c
        | Some gestureCenterPoint =>
        let zoomCenter :=
          match staticPinPosition props with
          | Some pin => {| x := x pin; y := y pin |}
          | None =>
              {| x := x gestureCenterPoint - originalPageX (state c);
                 y := y gestureCenterPoint - originalPageY (state c) |}
          end in
        match (if debug props then _setPinchDebugPoints e zoomCenter c
               else Some c) with
        | None => c
        | Some c =>
        let oldOffsetX := offsetX c in
        let oldOffsetY := offsetY c in
        let oldScale := zoomLevel c in
        let newScale := newZoomLevel in
        if negb (truthy (originalHeight (state c))) ||
           negb (truthy (originalWidth (state c)))
        then c
        else
          let offsetY0 :=
            calcNewScaledOffsetForZoomCentering H oldOffsetY
              (originalHeight (state c)) oldScale newScale (y zoomCenter) in
          let offsetX0 :=
            calcNewScaledOffsetForZoomCentering H oldOffsetX
              (originalWidth (state c)) oldScale newScale (x zoomCenter) in
          let (offsetShift, c) :=
            _calcOffsetShiftSinceLastGestureState gestureCenterPoint c in
          let offsetX1 :=
            match offsetShift with
            | Some s => offsetX0 + x s
            | None => offsetX0
            end in
          let offsetY1 :=
            match offsetShift with
            | Some s => offsetY0 + y s
            | None => offsetY0
            end in
          let c := set_offsetX offsetX1 c in
          let c := set_offsetY offsetY1 c in
          let c := set_zoomLevel newScale c in
          let c := panAnim_setValue {| x := offsetX c; y := offsetY c |} c in
          let c := zoomAnim_setValue (zoomLevel c) c in
          invoke onZoomAfter (Some e) (Some gestureState) c
        end
        end
        end
      end.

Definition _handleShifting (gestureState : PanResponderGestureState)
    (c : ZoomableView) : ZoomableView :=
  if negb (panEnabled props) ||
     (disablePanOnInitialZoom props &&
      strictEqO (zoomLevel c) (initialZoom props))
  then c
  else
    let (shiftVec, c) :=
      _calcOffsetShiftSinceLastGestureState
        {| x := moveX gestureState; y := moveY gestureState |} c in
    match shiftVec with
    | None => c
    | Some s =>
        let offsetX' := offsetX c + x s in
        let offsetY' := offsetY c + y s in
        let c :=
          if debug props && truthy (originalPageX (state c)) &&
             truthy (originalPageY (state c))
          then emit (SetDebugPoints
                       [ {| x := moveX gestureState - originalPageX (state c);
                            y := moveY gestureState - originalPageY (state c) |} ]) c
          else c in
        let c := _setNewOffsetPosition offsetX' offsetY' c in
        raisePin c
    end.

(** [_handlePanResponderMove]; the result is [Some false], [Some true] or
    [None] for [undefined]. *)
Definition _handlePanResponderMove (now : Z) (e : GestureResponderEvent)
    (gestureState : PanResponderGestureState)
    (c : ZoomableView) : option bool * ZoomableView :=
  let (veto, c) := ask onPanResponderMove (Some e) (Some gestureState) c in
  if veto then (Some false, c)
  else if (2 <? numberActiveTouches gestureState)%nat then
    let c :=
      if gestureStarted c then _handlePanResponderEnd now e gestureState c
      else c in
    (Some true, c)
  else
    let c :=
      if negb (gestureStarted c) then _handlePanResponderGrant e gestureState c
      else c in
    if (numberActiveTouches gestureState =? 2)%nat then
      let c := clearLongPressTimeout c in
      let c :=
        if negb (is_pinch (gestureType c)) then
          set_lastGestureTouchDistance
            (calcGestureTouchDistance H e gestureState)
            (set_lastGestureCenterPosition
               (calcGestureCenterPoint H e gestureState) c)
        else c in
      let c := set_gestureType (Some pinch) c in
      (None, _handlePinching e gestureState c)
    else if (numberActiveTouches gestureState =? 1)%nat then
      let c :=
        if isSome (longPressTimeout c) &&
           (num_gt (Qabs (dx gestureState)) 5 ||
            num_gt (Qabs (dy gestureState)) 5)
        then clearLongPressTimeout c
        else c in
      let c :=
        if negb (is_shift (gestureType c)) then
          set_lastGestureCenterPosition
            (calcGestureCenterPoint H e gestureState) c
        else c in
      let isShiftGesture :=
        num_gt (Qabs (dx gestureState)) 2 ||
        num_gt (Qabs (dy gestureState)) 2 in
      if isShiftGesture then
        let c := set_gestureType (Some shift) c in
        (None, _handleShifting gestureState c)
      else (None, c)
    else (None, c).

End Component.

(** ** Construction and measurement *)

(** The constructor: the fields' initial values, then the initial zoom and
    offsets of the props.  The listeners are added after the first
    [setValue]s, which therefore only store. *)
Definition construct (H : Helpers) (props : ReactNativeZoomableViewProps)
    : ZoomableView :=
  let c :=
    {| state := initialState;
       panAnim := {| x := 0; y := 0 |};
       zoomAnim := 1;
       offsets_x := {| value := 0; boundaryCrossedAnimInEffect := false |};
       offsets_y := {| value := 0; boundaryCrossedAnimInEffect := false |};
       zoomLevel := 1;
       lastGestureCenterPosition := None;
       lastGestureTouchDistance := None;
       gestureType := None;
       gestureStarted := false;
       longPressTimeout := None;
       onTransformInvocationInitialized := false;
       singleTapTimeoutId := None;
       touches := [];
       doubleTapFirstTap := None;
       doubleTapFirstTapReleaseTimestamp := None;
       trace := [] |} in
  let c :=
    match initialZoom props with
    | Some z => if truthy z then set_zoomLevel z c else c
    | None => c
    end in
  let c :=
    match initialOffsetX props with
    | Some v => set_offsetX H props v c
    | None => c
    end in
  let c :=
    match initialOffsetY props with
    | Some v => set_offsetY H props v c
    | None => c
    end in
  let c :=
    set_panAnim {| x := value (offsets_x c); y := value (offsets_y c) |} c in
  let c := set_zoomAnim (zoomLevel c) c in
  set_lastGestureTouchDistance (Some 150) c.

(** ** Rendering *)

(** [styles.zoomSubject] has no transform. *)
Definition styles_zoomSubject : ViewStyle := {| transform := None |}.

(** [Animated.ValueXY.getTranslateTransform] of the framework. *)
Definition getTranslateTransform : list Transform :=
  [translateX PanAnimXNode; translateY PanAnimYNode].

(** The [style] array of the [Animated.View] in [render]. *)
Definition render_style (props : ReactNativeZoomableViewProps)
    : list (option ViewStyle) :=
  [ Some styles_zoomSubject;
    style props;
    Some {| transform := Some (scale ZoomAnimNode :: getTranslateTransform) |} ].

(** The framework flattens a style array from left to right; a key given
    again replaces the earlier one. *)
Definition flattenStyle (l : list (option ViewStyle)) : ViewStyle :=
  fold_left
    (fun acc s =>
       match s with
       | Some {| transform := Some t |} => {| transform := Some t |}
       | _ => acc
       end)
    l {| transform := None |}.

Definition is_rotation_or_skew (t : Transform) : bool :=
  match t with
  | rotate _ | skewX _ | skewY _ => true
  | _ => false
  end.

(** ** An instance for the examples

    Helpers to run the component on concrete events: the center is the
    midpoint of the first two touches (the first touch when there is one),
    the distance is the sum of the horizontal and vertical distances, zoom
    centering keeps the offset, and the pan boundaries keep the offset
    within half of what the scaled content exceeds the padded container by
    (content that fits does not move). *)

Definition example_center (e : GestureResponderEvent)
    (gestureState : PanResponderGestureState) : option Vec2D :=
  match nativeTouches e, numberActiveTouches gestureState with
  | t0 :: t1 :: _, 2%nat =>
      Some {| x := (touch_pageX t0 + touch_pageX t1) / 2;
              y := (touch_pageY t0 + touch_pageY t1) / 2 |}
  | t0 :: _, 1%nat => Some {| x := touch_pageX t0; y := touch_pageY t0 |}
  | _, _ => None
  end.

Definition example_distance (e : GestureResponderEvent)
    (gestureState : PanResponderGestureState) : option number :=
  match nativeTouches e, numberActiveTouches gestureState with
  | t0 :: t1 :: _, 2%nat =>
      Some (Qabs (touch_pageX t0 - touch_pageX t1) +
            Qabs (touch_pageY t0 - touch_pageY t1))
  | _, _ => None
  end.

Definition example_boundaries (offset containerSize contentSize zoom
    boundaryPadding : number) : number :=
  let padded := containerSize - 2 * boundaryPadding in
  if num_lt (contentSize * zoom) padded then 0
  else
    let most := (contentSize * zoom - padded) / (2 * zoom) in
    if num_gt offset most then most
    else if num_lt offset (- most) then - most
    else offset.

Definition exampleHelpers : Helpers :=
  {| calcGestureCenterPoint := example_center;
     calcGestureTouchDistance := example_distance;
     calcNewScaledOffsetForZoomCentering := fun old _ _ _ _ => old;
     applyPanBoundariesToOffset := example_boundaries;
     viewportPositionToImagePosition := fun _ _ _ => None |}.

Definition exampleState : ReactNativeZoomableViewState :=
  {| originalWidth := 300; originalHeight := 400; originalPageX := 0;
     originalPageY := 0; originalX := 0; originalY := 0 |}.

(** A mounted and measured component with the default props. *)
Definition exampleView : ZoomableView :=
  set_state exampleState (construct exampleHelpers defaultProps).

(** The default props with other zoom bounds, or with one callback. *)
Definition withZoomBounds (minZ maxZ : option number)
    (p : ReactNativeZoomableViewProps) : ReactNativeZoomableViewProps :=
  {| style := style p;
     zoomEnabled := zoomEnabled p;
     panEnabled := panEnabled p;
     initialZoom := initialZoom p;
     initialOffsetX := initialOffsetX p;
     initialOffsetY := initialOffsetY p;
     contentWidth := contentWidth p;
     contentHeight := contentHeight p;
     panBoundaryPadding := panBoundaryPadding p;
     maxZoom := maxZ;
     minZoom := minZ;
     doubleTapDelay := doubleTapDelay p;
     doubleTapZoomToCenter := doubleTapZoomToCenter p;
     bindToBorders := bindToBorders p;
     zoomStep := zoomStep p;
     pinchToZoomInSensitivity := pinchToZoomInSensitivity p;
     pinchToZoomOutSensitivity := pinchToZoomOutSensitivity p;
     movementSensibility := movementSensibility p;
     longPressDuration := longPressDuration p;
     disablePanOnInitialZoom := disablePanOnInitialZoom p;
     debug := debug p;
     staticPinPosition := staticPinPosition p;
     animatePin := animatePin p;
     disableMomentum := disableMomentum p;
     callback := callback p |}.

Definition withCallback (f : CallbackName -> option GestureCallback)
    (p : ReactNativeZoomableViewProps) : ReactNativeZoomableViewProps :=
  {| style := style p;
     zoomEnabled := zoomEnabled p;
     panEnabled := panEnabled p;
     initialZoom := initialZoom p;
     initialOffsetX := initialOffsetX p;
     initialOffsetY := initialOffsetY p;
     contentWidth := contentWidth p;
     contentHeight := contentHeight p;
     panBoundaryPadding := panBoundaryPadding p;
     maxZoom := maxZoom p;
     minZoom := minZoom p;
     doubleTapDelay := doubleTapDelay p;
     doubleTapZoomToCenter := doubleTapZoomToCenter p;
     bindToBorders := bindToBorders p;
     zoomStep := zoomStep p;
     pinchToZoomInSensitivity := pinchToZoomInSensitivity p;
     pinchToZoomOutSensitivity := pinchToZoomOutSensitivity p;
     movementSensibility := movementSensibility p;
     longPressDuration := longPressDuration p;
     disablePanOnInitialZoom := disablePanOnInitialZoom p;
     debug := debug p;
     staticPinPosition := staticPinPosition p;
     animatePin := animatePin p;
     disableMomentum := disableMomentum p;
     callback := f |}.

(** The props with other switches for zooming and panning. *)
Definition withSwitches (zoomOn panOn panOffAtInitialZoom : bool)
    (p : ReactNativeZoomableViewProps) : ReactNativeZoomableViewProps :=
  {| style := style p;
     zoomEnabled := zoomOn;
     panEnabled := panOn;
     initialZoom := initialZoom p;
     initialOffsetX := initialOffsetX p;
     initialOffsetY := initialOffsetY p;
     contentWidth := contentWidth p;
     contentHeight := contentHeight p;
     panBoundaryPadding := panBoundaryPadding p;
     maxZoom := maxZoom p;
     minZoom := minZoom p;
     doubleTapDelay := doubleTapDelay p;
     doubleTapZoomToCenter := doubleTapZoomToCenter p;
     bindToBorders := bindToBorders p;
     zoomStep := zoomStep p;
     pinchToZoomInSensitivity := pinchToZoomInSensitivity p;
     pinchToZoomOutSensitivity := pinchToZoomOutSensitivity p;
     movementSensibility := movementSensibility p;
     longPressDuration := longPressDuration p;
     disablePanOnInitialZoom := panOffAtInitialZoom;
     debug := debug p;
     staticPinPosition := staticPinPosition p;
     animatePin := animatePin p;
     disableMomentum := disableMomentum p;
     callback := callback p |}.

(** The props with a static pin over content of a given size. *)
Definition withStaticPin (pin : Vec2D) (cw ch : number)
    (p : ReactNativeZoomableViewProps) : ReactNativeZoomableViewProps :=
  {| style := style p;
     zoomEnabled := zoomEnabled p;
     panEnabled := panEnabled p;
     initialZoom := initialZoom p;
     initialOffsetX := initialOffsetX p;
     initialOffsetY := initialOffsetY p;
     contentWidth := Some cw;
     contentHeight := Some ch;
     panBoundaryPadding := panBoundaryPadding p;
     maxZoom := maxZoom p;
     minZoom := minZoom p;
     doubleTapDelay := doubleTapDelay p;
     doubleTapZoomToCenter := doubleTapZoomToCenter p;
     bindToBorders := bindToBorders p;
     zoomStep := zoomStep p;
     pinchToZoomInSensitivity := pinchToZoomInSensitivity p;
     pinchToZoomOutSensitivity := pinchToZoomOutSensitivity p;
     movementSensibility := movementSensibility p;
     longPressDuration := longPressDuration p;
     disablePanOnInitialZoom := disablePanOnInitialZoom p;
     debug := debug p;
     staticPinPosition := Some pin;
     animatePin := animatePin p;
     disableMomentum := disableMomentum p;
     callback := callback p |}.

(** An [onPanResponderMove] that claims every move. *)
Definition claimingMove (cb : CallbackName) : option GestureCallback :=
  match cb with
  | onPanResponderMove => Some (fun _ _ _ => true)
  | _ => None
  end.

(** A measured component in the middle of a gesture of the given kind. *)
Definition viewDuring (g : GestureType)
    (p : ReactNativeZoomableViewProps) : ZoomableView :=
  set_gestureType (Some g)
    (set_gestureStarted true
       (set_state exampleState (construct exampleHelpers p))).

Definition twoTouches (x0 y0 x1 y1 : number) : GestureResponderEvent :=
  {| pageX := x0; pageY := y0;
     nativeTouches := [ {| touch_pageX := x0; touch_pageY := y0 |};
                        {| touch_pageX := x1; touch_pageY := y1 |} ] |}.

Definition oneTouch (x0 y0 : number) : GestureResponderEvent :=
  {| pageX := x0; pageY := y0;
     nativeTouches := [ {| touch_pageX := x0; touch_pageY := y0 |} ] |}.

Definition gesture (n : nat) (dx dy moveX moveY vx vy : number)
    : PanResponderGestureState :=
  {| numberActiveTouches := n; dx := dx; dy := dy; moveX := moveX;
     moveY := moveY; vx := vx; vy := vy |}.

(** ** What a trace started *)

Definition momentumStarts (l : list Effect) : list Vec2D :=
  flat_map (fun e => match e with
                     | PanMomentumDecayAnim v => [v]
                     | _ => []
                     end) l.

Definition zoomStarts (l : list Effect) : list (number * option Vec2D) :=
  flat_map (fun e => match e with
                     | ZoomToAnimation z zc => [(z, zc)]
                     | _ => []
                     end) l.

Definition boundaryStarts (l : list Effect) : list (Axis * number) :=
  flat_map (fun e => match e with
                     | BoundaryCrossedAnim a v => [(a, v)]
                     | _ => []
                     end) l.

(** ** Vocabulary of the statements *)

(** *** Reading a printed number back *)

Fixpoint withoutPoint (s : string) : string :=
  match s with
  | EmptyString => EmptyString
  | String a s' =>
      if Ascii.eqb a "." then withoutPoint s' else String a (withoutPoint s')
  end.

Definition readDigits (s : string) : option N :=
  option_map N.of_uint (NilEmpty.uint_of_string (withoutPoint s)).

(** The sign and the digits of a printed number. *)
Definition readFixed (s : string) : option (bool * N) :=
  match s with
  | EmptyString => None
  | String a r =>
      if Ascii.eqb a "-" then option_map (pair true) (readDigits r)
      else option_map (pair false) (readDigits s)
  end.

Definition noMinus (s : string) : Prop :=
  match s with
  | EmptyString => False
  | String a _ => Ascii.eqb a "-" = false
  end.

(** *** What a step leaves alone *)

(** The transform and what it is computed from. *)
Record unmoved (c c' : ZoomableView) : Prop := {
  unmoved_state : state c' = state c;
  unmoved_zoomLevel : zoomLevel c' = zoomLevel c;
  unmoved_zoomAnim : zoomAnim c' = zoomAnim c;
  unmoved_panAnim : panAnim c' = panAnim c;
  unmoved_offsetX : offsetX c' = offsetX c;
  unmoved_offsetY : offsetY c' = offsetY c
}.

(** Nothing of the transform and not the kind of gesture. *)
Definition quiet (c c' : ZoomableView) : Prop :=
  unmoved c c' /\ gestureType c' = gestureType c.

(** The offsets and animated values may move; the measurements, the zoom
    level and the kind of gesture stay. *)
Definition steady (c c' : ZoomableView) : Prop :=
  state c' = state c /\ zoomLevel c' = zoomLevel c /\
  gestureType c' = gestureType c.

(** The measurements and the kind of gesture stay. *)
Definition settled (c c' : ZoomableView) : Prop :=
  state c' = state c /\ gestureType c' = gestureType c.

(** A step that starts no momentum animation. *)
Definition calm (c c' : ZoomableView) : Prop :=
  momentumStarts (trace c') = momentumStarts (trace c).

(** *** Conditions of the handlers *)

(** When [zoomTo] refuses a zoom level: zoom is disabled, or a (truthy)
    bound is set and the level lies beyond it. *)
Definition zoomTo_refuses (props : ReactNativeZoomableViewProps)
    (newZoomLevel : number) : Prop :=
  zoomEnabled props = false \/
  (exists m, maxZoom props = Some m /\ ~ m == 0 /\ m < newZoomLevel) \/
  (exists m, minZoom props = Some m /\ ~ m == 0 /\ newZoomLevel < m).

(** When [_handlePanResponderEnd] starts no momentum animation. *)
Definition momentum_disabled (props : ReactNativeZoomableViewProps)
    (c : ZoomableView) : Prop :=
  disableMomentum props = true \/
  (panEnabled props = true /\ gestureType c = Some shift /\
   disablePanOnInitialZoom props = true /\
   exists z0, initialZoom props = Some z0 /\ zoomLevel c == z0).

(** The [onZoomBefore] prop is given and vetoes the pinch step (returns a
    truthy value). *)
Definition zoom_vetoed (props : ReactNativeZoomableViewProps)
    (e : GestureResponderEvent) (gs : PanResponderGestureState)
    (c : ZoomableView) : bool :=
  fst (ask props onZoomBefore (Some e) (Some gs) c).

(** The [onPanResponderMove] prop is given and claims the event (returns a
    truthy value): [_handlePanResponderMove] then returns [false] at once. *)
Definition move_claimed (props : ReactNativeZoomableViewProps)
    (e : GestureResponderEvent) (gs : PanResponderGestureState)
    (c : ZoomableView) : bool :=
  fst (ask props onPanResponderMove (Some e) (Some gs) c).

(** [r] is [v] with the zoom bounds [mn <= mx] applied: [mx] in place of a
    [v] above it, [mn] in place of a [v] below it, else [v]. *)
Definition clamped (mn mx v r : number) : Prop :=
  mn <= r /\ r <= mx /\
  (mx < v -> r = mx) /\ (v < mn -> r = mn) /\
  (mn <= v -> v <= mx -> r = v).

(** *** Further vocabulary *)

(** The bookkeeping of gestures and taps. *)
Record kept (c c' : ZoomableView) : Prop := {
  kept_gestureStarted : gestureStarted c' = gestureStarted c;
  kept_longPressTimeout : longPressTimeout c' = longPressTimeout c;
  kept_singleTapTimeoutId : singleTapTimeoutId c' = singleTapTimeoutId c;
  kept_touches : touches c' = touches c;
  kept_doubleTapFirstTap : doubleTapFirstTap c' = doubleTapFirstTap c;
  kept_doubleTapFirstTapReleaseTimestamp :
    doubleTapFirstTapReleaseTimestamp c' = doubleTapFirstTapReleaseTimestamp c;
  kept_lastGestureTouchDistance :
    lastGestureTouchDistance c' = lastGestureTouchDistance c;
  kept_lastGestureCenterPosition :
    lastGestureCenterPosition c' = lastGestureCenterPosition c;
  kept_onTransformInvocationInitialized :
    onTransformInvocationInitialized c' = onTransformInvocationInitialized c
}.

(** [__setOffset] stores what it is given: the borders do not bind, or a
    gesture is in progress. *)
Definition stores_freely (props : ReactNativeZoomableViewProps)
    (c : ZoomableView) : Prop :=
  bindToBorders props = false \/ gestureType c <> None.

(** [_handleShifting] returns at once: panning is disabled, or
    [disablePanOnInitialZoom] is set and the zoom level is [initialZoom]. *)
Definition pan_blocked (props : ReactNativeZoomableViewProps)
    (c : ZoomableView) : Prop :=
  panEnabled props = false \/
  (disablePanOnInitialZoom props = true /\
   exists z0, initialZoom props = Some z0 /\ zoomLevel c == z0).

(** The [onShiftingBefore] prop is given and vetoes the new offsets. *)
Definition shift_vetoed (props : ReactNativeZoomableViewProps)
    (c : ZoomableView) : bool :=
  fst (ask props onShiftingBefore None None c).

(** A zoom level that the bounds that are set allow. *)
Definition within_zoom_bounds (props : ReactNativeZoomableViewProps)
    (z : number) : Prop :=
  (forall m, maxZoom props = Some m -> z <= m) /\
  (forall m, minZoom props = Some m -> m <= z).

(** The test of [_resolveAndHandleTap]: a first tap was released less than
    [doubleTapDelay] before [now]. *)
Definition is_double_tap (props : ReactNativeZoomableViewProps) (now : Z)
    (c : ZoomableView) : Prop :=
  exists t0 delay,
    doubleTapFirstTapReleaseTimestamp c = Some t0 /\ t0 <> 0%Z /\
    doubleTapDelay props = Some delay /\ ~ delay == 0 /\
    inject_Z now - inject_Z t0 < delay.

(** The first tap [_resolveAndHandleTap] records for the event [e]. *)
Definition firstTapOf (now : Z) (e : GestureResponderEvent)
    (c : ZoomableView) : TouchPoint :=
  {| tp_x := pageX e - originalPageX (state c);
     tp_y := pageY e - originalPageY (state c);
     id := now;
     isSecondTap := false |}.

(** The bookkeeping of taps and timers, without the two measurements of
    the last gesture state. *)
Record tapsKept (c c' : ZoomableView) : Prop := {
  tapsKept_gestureStarted : gestureStarted c' = gestureStarted c;
  tapsKept_longPressTimeout : longPressTimeout c' = longPressTimeout c;
  tapsKept_singleTapTimeoutId : singleTapTimeoutId c' = singleTapTimeoutId c;
  tapsKept_touches : touches c' = touches c;
  tapsKept_doubleTapFirstTap : doubleTapFirstTap c' = doubleTapFirstTap c;
  tapsKept_doubleTapFirstTapReleaseTimestamp :
    doubleTapFirstTapReleaseTimestamp c' = doubleTapFirstTapReleaseTimestamp c
}.

(** The animated values a trace stopped, and the timed pans it started. *)
Definition animationStops (l : list Effect) : list AnimatedRef :=
  flat_map (fun e => match e with
                     | StopAnimation a => [a]
                     | _ => []
                     end) l.

Definition panTimingStarts (l : list Effect) : list (Vec2D * number) :=
  flat_map (fun e => match e with
                     | PanTiming v d => [(v, d)]
                     | _ => []
                     end) l.

(** The taps on record: the release of the first tap, the first tap, the
    single tap timer and the touches shown. *)
Definition tapRecord (c : ZoomableView)
    : option Z * option TouchPoint * option Timer * list TouchPoint :=
  (doubleTapFirstTapReleaseTimestamp c, doubleTapFirstTap c,
   singleTapTimeoutId c, touches c).

(** The touch [_resolveAndHandleTap] adds for the second tap: the first tap
    again, with a new id. *)
Definition secondTapOf (now : Z) (c : ZoomableView) : list TouchPoint :=
  match doubleTapFirstTap c with
  | Some tap => [ {| tp_x := tp_x tap; tp_y := tp_y tap; id := now;
                     isSecondTap := true |} ]
  | None => []
  end.

(** [zoomPositionCoordinates] of [_handleDoubleTap]. *)
Definition doubleTapCenter (props : ReactNativeZoomableViewProps)
    (e : GestureResponderEvent) (c : ZoomableView) : Vec2D :=
  if doubleTapZoomToCenter props then {| x := 0; y := 0 |}
  else {| x := pageX e - originalPageX (state c);
          y := pageY e - originalPageY (state c) |}.

(** The animated values mirror the transform: the pan value holds the
    offsets and the animated zoom value the zoom level. *)
Definition mirrored (c : ZoomableView) : Prop :=
  panAnim c = {| x := offsetX c; y := offsetY c |} /\
  zoomAnim c = zoomLevel c.

(** A step that starts no boundary animation. *)
Definition withinStep (c c' : ZoomableView) : Prop :=
  boundaryStarts (trace c') = boundaryStarts (trace c).

(** * Properties *)

(** ** Numbers *)

Lemma num_gt_true (a b : number) : num_gt a b = true <-> b < a.
Proof.
  unfold num_gt. rewrite negb_true_iff, <- not_true_iff_false, Qle_bool_iff.
  split; [apply Qnot_le_lt | apply Qlt_not_le].
Qed.

Lemma num_gt_false (a b : number) : num_gt a b = false <-> a <= b.
Proof.
  unfold num_gt. rewrite negb_false_iff. apply Qle_bool_iff.
Qed.

Lemma num_lt_true (a b : number) : num_lt a b = true <-> a < b.
Proof. unfold num_lt. apply (num_gt_true b a). Qed.

Lemma num_lt_false (a b : number) : num_lt a b = false <-> b <= a.
Proof. unfold num_lt. apply (num_gt_false b a). Qed.

Lemma truthy_true (a : number) : truthy a = true <-> ~ a == 0.
Proof.
  unfold truthy. rewrite negb_true_iff, <- not_true_iff_false, Qeq_bool_iff.
  tauto.
Qed.

Lemma truthy_false (a : number) : truthy a = false <-> a == 0.
Proof. unfold truthy. rewrite negb_false_iff. apply Qeq_bool_iff. Qed.

Lemma orElse_truthy (a b : number) : truthy a = true -> orElse (Some a) b = a.
Proof. intros E. unfold orElse. now rewrite E. Qed.

Lemma orElse_falsy (a b : number) : truthy a = false -> orElse (Some a) b = b.
Proof. intros E. unfold orElse. now rewrite E. Qed.

(** ** Printing with a fixed number of decimals *)

Example toFixed_one_and_a_half : toFixed 2 (3 # 2) = "1.50"%string.
Proof. vm_compute. reflexivity. Qed.

Example toFixed_small_negative : toFixed 2 (-1 # 1000) = "-0.00"%string.
Proof. vm_compute. reflexivity. Qed.

Example toFixed_rounds_up : toFixed 3 (12346 # 10000) = "1.235"%string.
Proof. vm_compute. reflexivity. Qed.

Example toFixed_tie : toFixed 2 (1 # 8) = "0.13"%string.
Proof. vm_compute. reflexivity. Qed.

Example toFixed_no_decimals : toFixed 0 (5 # 2) = "3"%string.
Proof. vm_compute. reflexivity. Qed.

Example toFixed_zero : toFixed 2 0 = "0.00"%string.
Proof. vm_compute. reflexivity. Qed.

Example toFixed_negative : toFixed 3 (-123456 # 100) = "-1234.560"%string.
Proof. vm_compute. reflexivity. Qed.

Lemma withoutPoint_digits d :
  withoutPoint (NilEmpty.string_of_uint d) = NilEmpty.string_of_uint d.
Proof. induction d; simpl; now rewrite ?IHd. Qed.

Lemma readDigits_digits d :
  readDigits (NilZero.string_of_uint d) = Some (N.of_uint d).
Proof.
  unfold readDigits, NilZero.string_of_uint.
  destruct d; try reflexivity;
    rewrite withoutPoint_digits, NilEmpty.usu; reflexivity.
Qed.

Lemma readDigits_zero s : readDigits (String "0" s) = readDigits s.
Proof.
  unfold readDigits. simpl.
  destruct (NilEmpty.uint_of_string (withoutPoint s)); reflexivity.
Qed.

Lemma readDigits_pad f m : readDigits (pad f m) = readDigits m.
Proof.
  unfold pad. induction (S f - String.length m)%nat as [|k IH]; simpl.
  - reflexivity.
  - now rewrite readDigits_zero.
Qed.

Lemma withoutPoint_insertPoint k m :
  withoutPoint (insertPoint k m) = withoutPoint m.
Proof.
  revert m. induction k as [|k IH]; intros m.
  - destruct m; reflexivity.
  - destruct m as [|a m]; [reflexivity | ]. simpl. now rewrite IH.
Qed.

Lemma readDigits_point f m : readDigits (point f m) = readDigits m.
Proof.
  unfold point. destruct f; [reflexivity | ].
  unfold readDigits. now rewrite withoutPoint_insertPoint.
Qed.

Lemma noMinus_digits d : noMinus (NilZero.string_of_uint d).
Proof. destruct d; reflexivity. Qed.

Lemma noMinus_pad f m : noMinus m -> noMinus (pad f m).
Proof.
  unfold pad. destruct (S f - String.length m)%nat; [trivial | reflexivity].
Qed.

Lemma noMinus_point f m : noMinus m -> noMinus (point f m).
Proof.
  unfold point. destruct f; [trivial | ].
  destruct m as [|a m]; [contradiction | ].
  destruct (String.length (String a m) - S f)%nat; simpl; trivial.
Qed.

Lemma readFixed_noMinus s :
  noMinus s -> readFixed s = option_map (pair false) (readDigits s).
Proof.
  destruct s as [|a s]; [contradiction | ]. simpl. now intros ->.
Qed.

Lemma readFixed_toFixed f x :
  readFixed (toFixed f x) = Some (num_lt x 0, Z.to_N (toFixed_n f x)).
Proof.
  unfold toFixed.
  set (m := NilZero.string_of_uint (N.to_uint (Z.to_N (toFixed_n f x)))).
  assert (R : readDigits (point f (pad f m)) = Some (Z.to_N (toFixed_n f x))).
  { rewrite readDigits_point, readDigits_pad. unfold m.
    rewrite readDigits_digits. now rewrite Unsigned.of_to. }
  destruct (num_lt x 0).
  - simpl. now rewrite R.
  - simpl append. rewrite readFixed_noMinus, R; [reflexivity | ].
    apply noMinus_point, noMinus_pad, noMinus_digits.
Qed.

Lemma toFixed_n_nonneg f x : (0 <= toFixed_n f x)%Z.
Proof.
  unfold toFixed_n.
  change 0%Z with (Qfloor 0). apply Qfloor_resp_le.
  assert (0 <= Qabs x) by apply Qabs_nonneg.
  assert (0 <= inject_Z (10 ^ Z.of_nat f)).
  { change 0 with (inject_Z 0). rewrite <- Zle_Qle. apply Z.pow_nonneg. lia. }
  assert (0 <= Qabs x * inject_Z (10 ^ Z.of_nat f))
    by now apply Qmult_le_0_compat.
  lra.
Qed.

(** [toFixed_n f x] is the integer nearest to [|x| * 10^f], the larger
    one when two are as near. *)
Lemma toFixed_n_nearest f x :
  let y := Qabs x * inject_Z (10 ^ Z.of_nat f) in
  y - (1 # 2) < inject_Z (toFixed_n f x) /\
  inject_Z (toFixed_n f x) <= y + (1 # 2).
Proof.
  cbv zeta. unfold toFixed_n.
  set (y := Qabs x * inject_Z (10 ^ Z.of_nat f)).
  pose proof (Qfloor_le (y + (1 # 2))) as L.
  pose proof (Qlt_floor (y + (1 # 2))) as U.
  rewrite inject_Z_plus in U. change (inject_Z 1) with 1 in U.
  split; lra.
Qed.

Lemma toFixed_eq_iff f a b :
  toFixed f a = toFixed f b <->
  num_lt a 0 = num_lt b 0 /\ toFixed_n f a = toFixed_n f b.
Proof.
  split.
  - intros E. apply (f_equal readFixed) in E.
    rewrite !readFixed_toFixed in E. injection E as Esign En.
    split; [exact Esign | ].
    apply Z2N.inj; auto using toFixed_n_nonneg.
  - intros [Esign En]. unfold toFixed. now rewrite Esign, En.
Qed.

(** ** Frames: what a step leaves alone *)

Lemma unmoved_refl c : unmoved c c.
Proof. now constructor. Qed.

Lemma unmoved_trans c0 c c' : unmoved c0 c -> unmoved c c' -> unmoved c0 c'.
Proof. intros [] []; constructor; congruence. Qed.

Lemma quiet_refl c : quiet c c.
Proof. split; [apply unmoved_refl | reflexivity]. Qed.

Lemma quiet_trans c0 c c' : quiet c0 c -> quiet c c' -> quiet c0 c'.
Proof.
  intros [U G] [U' G']. split; [eapply unmoved_trans; eauto | congruence].
Qed.

Lemma steady_refl c : steady c c.
Proof. now repeat split. Qed.

Lemma steady_trans c0 c c' : steady c0 c -> steady c c' -> steady c0 c'.
Proof. unfold steady. intuition congruence. Qed.

Lemma settled_refl c : settled c c.
Proof. now split. Qed.

Lemma settled_trans c0 c c' : settled c0 c -> settled c c' -> settled c0 c'.
Proof. unfold settled. intuition congruence. Qed.

Lemma quiet_steady c c' : quiet c c' -> steady c c'.
Proof. intros [[] G]. now repeat split. Qed.

Lemma steady_settled c c' : steady c c' -> settled c c'.
Proof. unfold steady, settled. tauto. Qed.

Lemma quiet_unmoved c c' : quiet c c' -> unmoved c c'.
Proof. now intros []. Qed.

Create HintDb frame.
#[local] Hint Resolve quiet_steady steady_settled quiet_unmoved : frame.

(** A goal [R c0 (f ... (g c0))]: peel the calls from the outside. *)
Ltac peel_with refl trans :=
  repeat first
    [ apply refl
    | eapply trans; [ | solve [eauto 4 with frame] ] ].

Ltac peel :=
  cbv zeta;
  lazymatch goal with
  | |- quiet _ _ => peel_with quiet_refl quiet_trans
  | |- steady _ _ => peel_with steady_refl steady_trans
  | |- settled _ _ => peel_with settled_refl settled_trans
  | |- unmoved _ _ => peel_with unmoved_refl unmoved_trans
  end.

(** A step that only assigns bookkeeping fields or appends to the trace. *)
Ltac plainly_quiet :=
  intros; repeat split; reflexivity.

Section Frames.

Context (H : Helpers) (props : ReactNativeZoomableViewProps).

Lemma emit_quiet e c : quiet c (emit e c).
Proof. plainly_quiet. Qed.

Lemma set_trace_quiet v c : quiet c (set_trace v c).
Proof. plainly_quiet. Qed.

Lemma set_lastGestureCenterPosition_quiet v c :
  quiet c (set_lastGestureCenterPosition v c).
Proof. plainly_quiet. Qed.

Lemma set_lastGestureTouchDistance_quiet v c :
  quiet c (set_lastGestureTouchDistance v c).
Proof. plainly_quiet. Qed.

Lemma set_gestureStarted_quiet v c : quiet c (set_gestureStarted v c).
Proof. plainly_quiet. Qed.

Lemma set_longPressTimeout_quiet v c : quiet c (set_longPressTimeout v c).
Proof. plainly_quiet. Qed.

Lemma set_singleTapTimeoutId_quiet v c : quiet c (set_singleTapTimeoutId v c).
Proof. plainly_quiet. Qed.

Lemma set_touches_quiet v c : quiet c (set_touches v c).
Proof. plainly_quiet. Qed.

Lemma set_doubleTapFirstTap_quiet v c : quiet c (set_doubleTapFirstTap v c).
Proof. plainly_quiet. Qed.

Lemma set_doubleTapFirstTapReleaseTimestamp_quiet v c :
  quiet c (set_doubleTapFirstTapReleaseTimestamp v c).
Proof. plainly_quiet. Qed.

Lemma set_gestureType_unmoved v c : unmoved c (set_gestureType v c).
Proof. plainly_quiet. Qed.

Lemma boundaryCrossedAnimEnd_quiet axis c :
  quiet c (boundaryCrossedAnimEnd axis c).
Proof. destruct axis; plainly_quiet. Qed.

Lemma ask_quiet cb e gs c : quiet c (snd (ask props cb e gs c)).
Proof. unfold ask. destruct (callback props cb); plainly_quiet. Qed.

Lemma invoke_quiet cb e gs c : quiet c (invoke props cb e gs c).
Proof. apply ask_quiet. Qed.

Lemma _invokeOnTransform_quiet c : quiet c (snd (_invokeOnTransform c)).
Proof.
  unfold _invokeOnTransform.
  destruct (_ || _); plainly_quiet.
Qed.

Lemma onTransformListener_quiet c : quiet c (onTransformListener c).
Proof.
  unfold onTransformListener.
  destruct (onTransformInvocationInitialized c);
    [apply _invokeOnTransform_quiet | apply quiet_refl].
Qed.

Lemma _updateStaticPin_quiet c : quiet c (_updateStaticPin H props c).
Proof.
  unfold _updateStaticPin. destruct (_staticPinPosition H props c);
    plainly_quiet.
Qed.

Lemma raisePin_quiet c : quiet c (raisePin props c).
Proof. unfold raisePin. destruct (negb _); plainly_quiet. Qed.

Lemma dropPin_quiet c : quiet c (dropPin props c).
Proof. unfold dropPin. destruct (negb _); plainly_quiet. Qed.

Lemma clearLongPressTimeout_quiet c : quiet c (clearLongPressTimeout c).
Proof.
  unfold clearLongPressTimeout. destruct (longPressTimeout c); plainly_quiet.
Qed.

Lemma panAnim_stopAnimation_quiet c : quiet c (panAnim_stopAnimation c).
Proof. plainly_quiet. Qed.

Lemma zoomAnim_stopAnimation_quiet c : quiet c (zoomAnim_stopAnimation c).
Proof. plainly_quiet. Qed.

Lemma startPanMomentumDecayAnim_quiet v c :
  quiet c (startPanMomentumDecayAnim v c).
Proof. plainly_quiet. Qed.

Lemma _addTouch_quiet t c : quiet c (_addTouch t c).
Proof. plainly_quiet. Qed.

Lemma _calcOffsetShiftSinceLastGestureState_quiet p c :
  quiet c (snd (_calcOffsetShiftSinceLastGestureState props p c)).
Proof. plainly_quiet. Qed.

Lemma _setPinchDebugPoints_quiet e z c c' :
  _setPinchDebugPoints e z c = Some c' -> quiet c c'.
Proof.
  unfold _setPinchDebugPoints.
  destruct (nativeTouches e) as [|t0 [|t1 l]]; try discriminate.
  intros [= <-]. plainly_quiet.
Qed.

#[local] Hint Resolve emit_quiet set_trace_quiet
  set_lastGestureCenterPosition_quiet set_lastGestureTouchDistance_quiet
  set_gestureStarted_quiet set_longPressTimeout_quiet
  set_singleTapTimeoutId_quiet set_touches_quiet set_doubleTapFirstTap_quiet
  set_doubleTapFirstTapReleaseTimestamp_quiet set_gestureType_unmoved
  boundaryCrossedAnimEnd_quiet ask_quiet invoke_quiet _invokeOnTransform_quiet
  onTransformListener_quiet _updateStaticPin_quiet raisePin_quiet
  dropPin_quiet clearLongPressTimeout_quiet panAnim_stopAnimation_quiet
  zoomAnim_stopAnimation_quiet startPanMomentumDecayAnim_quiet _addTouch_quiet
  _calcOffsetShiftSinceLastGestureState_quiet : frame.

(** *** Writers of the offsets *)

Lemma set_offsetState_steady axis o c : steady c (set_offsetState axis o c).
Proof. destruct axis; now repeat split. Qed.

Lemma __setOffset_steady axis offset c :
  steady c (__setOffset H props axis offset c).
Proof.
  unfold __setOffset.
  repeat match goal with
         | |- context [if ?b then _ else _] => destruct b
         end;
    destruct axis; now repeat split.
Qed.

Lemma set_panAnim_steady v c : steady c (set_panAnim v c).
Proof. now repeat split. Qed.

#[local] Hint Resolve set_offsetState_steady __setOffset_steady
  set_panAnim_steady : frame.

Lemma panAnimListeners_steady c : steady c (panAnimListeners H props c).
Proof. unfold panAnimListeners, set_offsetX, set_offsetY. peel. Qed.

#[local] Hint Resolve panAnimListeners_steady : frame.

Lemma panAnim_setValue_steady v c : steady c (panAnim_setValue H props v c).
Proof. unfold panAnim_setValue. peel. Qed.

#[local] Hint Resolve panAnim_setValue_steady : frame.

(** *** Writers of the zoom level *)

Lemma set_zoomLevel_settled v c : settled c (set_zoomLevel v c).
Proof. now split. Qed.

Lemma set_zoomAnim_steady v c : steady c (set_zoomAnim v c).
Proof. now repeat split. Qed.

Lemma zoomAnim_setValue_settled v c : settled c (zoomAnim_setValue v c).
Proof.
  unfold zoomAnim_setValue, zoomAnimListeners.
  eapply settled_trans;
    [ | apply steady_settled, quiet_steady, onTransformListener_quiet ].
  now split.
Qed.

Lemma zoomAnim_setValue_zoomLevel v c :
  zoomLevel (zoomAnim_setValue v c) = v.
Proof.
  unfold zoomAnim_setValue, zoomAnimListeners.
  destruct (onTransformListener_quiet
              (set_zoomLevel (zoomAnim (set_zoomAnim v c)) (set_zoomAnim v c)))
    as [[_ E _ _ _ _] _].
  rewrite E. reflexivity.
Qed.

Lemma zoomAnim_setValue_zoomAnim v c :
  zoomAnim (zoomAnim_setValue v c) = v.
Proof.
  unfold zoomAnim_setValue, zoomAnimListeners.
  destruct (onTransformListener_quiet
              (set_zoomLevel (zoomAnim (set_zoomAnim v c)) (set_zoomAnim v c)))
    as [[_ _ E _ _ _] _].
  rewrite E. reflexivity.
Qed.

(** Writing the zoom level the component already has moves nothing but the
    animated zoom value. *)
Lemma zoomAnim_setValue_same_steady c :
  steady c (zoomAnim_setValue (zoomLevel c) c).
Proof.
  destruct (zoomAnim_setValue_settled (zoomLevel c) c) as [S G].
  repeat split; auto using zoomAnim_setValue_zoomLevel.
Qed.

#[local] Hint Resolve set_zoomLevel_settled zoomAnim_setValue_settled
  zoomAnim_setValue_same_steady : frame.

(** *** Programmatic zoom and taps *)

Lemma zoomTo_quiet z zc c : quiet c (snd (zoomTo props z zc c)).
Proof.
  unfold zoomTo.
  repeat match goal with
         | |- context [if ?b then _ else _] => destruct b
         end; simpl; peel.
Qed.

#[local] Hint Resolve zoomTo_quiet : frame.

Lemma _handleDoubleTap_quiet e c : quiet c (_handleDoubleTap props e c).
Proof.
  unfold _handleDoubleTap.
  destruct (_getNextZoomStep props _); [ | peel ].
  destruct (callback props onDoubleTapAfter); peel.
Qed.

#[local] Hint Resolve _handleDoubleTap_quiet : frame.

Lemma _resolveAndHandleTap_quiet now e c :
  quiet c (_resolveAndHandleTap props now e c).
Proof.
  unfold _resolveAndHandleTap.
  match goal with
  | |- context [if ?b then _ else _] => destruct b
  end.
  - destruct (doubleTapFirstTap c); destruct (singleTapTimeoutId _); peel.
  - peel.
Qed.

#[local] Hint Resolve _resolveAndHandleTap_quiet : frame.

(** *** Gesture handlers *)

Lemma _handlePanResponderGrant_quiet e gs c :
  quiet c (_handlePanResponderGrant props e gs c).
Proof.
  unfold _handlePanResponderGrant.
  destruct (callback props onLongPress); peel.
Qed.

Lemma _handlePanResponderEnd_unmoved now e gs c :
  unmoved c (_handlePanResponderEnd H props now e gs c).
Proof.
  unfold _handlePanResponderEnd.
  eapply unmoved_trans; [ | apply quiet_unmoved, set_gestureStarted_quiet ].
  eapply unmoved_trans; [ | apply set_gestureType_unmoved ].
  apply quiet_unmoved.
  repeat match goal with
         | |- context [if ?b then _ else _] => destruct b
         | |- context [match gestureType ?c with _ => _ end] =>
             destruct (gestureType c) as [[]|]
         end; peel.
Qed.

#[local] Hint Resolve _handlePanResponderGrant_quiet : frame.

Lemma _setNewOffsetPosition_steady nx ny c :
  steady c (_setNewOffsetPosition H props nx ny c).
Proof.
  unfold _setNewOffsetPosition.
  rewrite (surjective_pairing (ask props onShiftingBefore None None c)).
  destruct (fst _); unfold set_offsetX, set_offsetY; peel.
Qed.

#[local] Hint Resolve _setNewOffsetPosition_steady : frame.

Lemma _handleShifting_steady gs c : steady c (_handleShifting H props gs c).
Proof.
  unfold _handleShifting.
  destruct (_ || _); [apply steady_refl | ].
  rewrite (surjective_pairing (_calcOffsetShiftSinceLastGestureState _ _ _)).
  destruct (fst _); [ | peel ].
  match goal with
  | |- context [if ?b then _ else _] => destruct b
  end; peel.
Qed.

Lemma moveTo_steady nx ny c : steady c (moveTo H props nx ny c).
Proof.
  unfold moveTo. destruct (_ || _); [apply steady_refl | ].
  apply _setNewOffsetPosition_steady.
Qed.

Lemma moveBy_steady dx dy c : steady c (moveBy H props dx dy c).
Proof. unfold moveBy. apply _setNewOffsetPosition_steady. Qed.

(** The last step of [_handlePinching]: the offsets, then the zoom level,
    then the two animated values. *)
Lemma pinch_store_zoomLevel e gs ox oy z c :
  let c1 := set_zoomLevel z (set_offsetY H props oy (set_offsetX H props ox c)) in
  let c2 := panAnim_setValue H props {| x := offsetX c1; y := offsetY c1 |} c1 in
  zoomLevel (invoke props onZoomAfter e gs (zoomAnim_setValue (zoomLevel c2) c2))
  = z.
Proof.
  intros c1 c2.
  destruct (invoke_quiet onZoomAfter e gs (zoomAnim_setValue (zoomLevel c2) c2))
    as [[_ E _ _ _ _] _].
  rewrite E, zoomAnim_setValue_zoomLevel.
  destruct (panAnim_setValue_steady {| x := offsetX c1; y := offsetY c1 |} c1)
    as (_ & E' & _).
  fold c2 in E'. rewrite E'. reflexivity.
Qed.

Lemma pinch_store_settled e gs ox oy z c :
  let c1 := set_zoomLevel z (set_offsetY H props oy (set_offsetX H props ox c)) in
  let c2 := panAnim_setValue H props {| x := offsetX c1; y := offsetY c1 |} c1 in
  settled c
    (invoke props onZoomAfter e gs (zoomAnim_setValue (zoomLevel c2) c2)).
Proof.
  intros c1 c2. subst c2 c1. unfold set_offsetX, set_offsetY.
  peel_with settled_refl settled_trans.
Qed.


Lemma ask_lastGestureTouchDistance cb e gs c :
  lastGestureTouchDistance (snd (ask props cb e gs c)) =
  lastGestureTouchDistance c.
Proof. unfold ask. now destruct (callback props cb). Qed.

Lemma _handlePinching_zoomLevel e gs c :
  let c' := _handlePinching H props e gs c in
  zoomLevel c' = zoomLevel c \/
  exists d last s,
    calcGestureTouchDistance H e gs = Some d /\
    lastGestureTouchDistance c = Some last /\
    pinchSensitivity props d last = Some s /\
    zoomLevel c' =
      respectZoomBounds props (pinchZoomLevel (zoomLevel c) d last s).
Proof.
  cbv zeta. unfold _handlePinching.
  destruct (negb (zoomEnabled props)); [now left | ].
  rewrite (surjective_pairing (ask props onZoomBefore (Some e) (Some gs) c)).
  pose proof (ask_quiet onZoomBefore (Some e) (Some gs) c) as [[S Z _ _ _ _] _].
  pose proof (ask_lastGestureTouchDistance onZoomBefore (Some e) (Some gs) c) as L.
  set (c1 := snd (ask props onZoomBefore (Some e) (Some gs) c)) in *.
  destruct (fst _); [now left | ].
  destruct (calcGestureTouchDistance H e gs) as [d|] eqn:D; [ | now left].
  rewrite L.
  destruct (lastGestureTouchDistance c) as [last|] eqn:LD; [ | now left].
  destruct (negb (truthy d)); [now left | ].
  destruct (negb (truthy last)); [now left | ].
  destruct (pinchSensitivity props d last) as [s|] eqn:PS; [ | now left].
  destruct (calcGestureCenterPoint H e gs) as [center|]; [ | now left].
  set (c2 := set_lastGestureTouchDistance (Some d) c1).
  assert (Z2 : zoomLevel c2 = zoomLevel c) by exact Z.
  set (zc := match staticPinPosition props with Some _ => _ | None => _ end).
  clearbody zc.
  destruct (if debug props then _ else _) as [c3|] eqn:DBG;
    [ | now left].
  assert (Q3 : quiet c2 c3).
  { destruct (debug props);
      [eapply _setPinchDebugPoints_quiet; eauto | injection DBG as <-; apply quiet_refl]. }
  destruct (_ || _);
    [left; destruct Q3 as [[_ E _ _ _ _] _]; congruence | ].
  right. exists d, last, s. repeat split; trivial.
  rewrite (surjective_pairing (_calcOffsetShiftSinceLastGestureState _ _ _)).
  rewrite pinch_store_zoomLevel. now rewrite Z2.
Qed.

(** Conditions under which [_handlePinching] does not return early. *)
Lemma _handlePinching_stores e gs c d last s center :
  zoomEnabled props = true ->
  fst (ask props onZoomBefore (Some e) (Some gs) c) = false ->
  calcGestureTouchDistance H e gs = Some d -> ~ d == 0 ->
  lastGestureTouchDistance c = Some last -> ~ last == 0 ->
  pinchSensitivity props d last = Some s ->
  calcGestureCenterPoint H e gs = Some center ->
  (debug props = true -> (2 <= List.length (nativeTouches e))%nat) ->
  ~ originalHeight (state c) == 0 ->
  ~ originalWidth (state c) == 0 ->
  zoomLevel (_handlePinching H props e gs c) =
    respectZoomBounds props (pinchZoomLevel (zoomLevel c) d last s).
Proof.
  intros ZE V D Dnz L Lnz PS C DBG Hh Hw.
  unfold _handlePinching. rewrite ZE. cbn [negb].
  rewrite (surjective_pairing (ask props onZoomBefore (Some e) (Some gs) c)).
  rewrite V, D.
  pose proof (ask_quiet onZoomBefore (Some e) (Some gs) c) as [[S Z _ _ _ _] _].
  rewrite (ask_lastGestureTouchDistance onZoomBefore (Some e) (Some gs) c), L.
  set (c1 := snd (ask props onZoomBefore (Some e) (Some gs) c)) in *.
  apply truthy_true in Dnz, Lnz, Hh, Hw.
  rewrite Dnz, Lnz, PS, C. cbn [negb].
  set (c2 := set_lastGestureTouchDistance (Some d) c1).
  assert (Z2 : zoomLevel c2 = zoomLevel c) by exact Z.
  assert (S2 : state c2 = state c) by exact S.
  set (zc := match staticPinPosition props with Some _ => _ | None => _ end).
  clearbody zc.
  assert (exists c3, (if debug props then _setPinchDebugPoints e zc c2
                      else Some c2) = Some c3 /\ quiet c2 c3)
    as (c3 & -> & [[S3 _ _ _ _ _] _]).
  { destruct (debug props).
    - specialize (DBG eq_refl). unfold _setPinchDebugPoints.
      destruct (nativeTouches e) as [|t0 [|t1 l]]; simpl in DBG; try lia.
      eexists; split; [reflexivity | ]. repeat split; reflexivity.
    - exists c2. split; [reflexivity | apply quiet_refl]. }
  rewrite S3, S2, Hh, Hw. cbn [negb orb].
  rewrite (surjective_pairing (_calcOffsetShiftSinceLastGestureState _ _ _)).
  rewrite pinch_store_zoomLevel. now rewrite Z2.
Qed.

Lemma _handlePinching_settled e gs c :
  settled c (_handlePinching H props e gs c).
Proof.
  unfold _handlePinching.
  destruct (negb (zoomEnabled props)); [apply settled_refl | ].
  rewrite (surjective_pairing (ask props onZoomBefore (Some e) (Some gs) c)).
  assert (Q1 : settled c (snd (ask props onZoomBefore (Some e) (Some gs) c)))
    by auto with frame.
  set (c1 := snd (ask props onZoomBefore (Some e) (Some gs) c)) in *.
  destruct (fst _); [exact Q1 | ].
  destruct (calcGestureTouchDistance H e gs) as [d|]; [ | exact Q1].
  destruct (lastGestureTouchDistance c1) as [last|]; [ | exact Q1].
  destruct (negb (truthy d)); [exact Q1 | ].
  destruct (negb (truthy last)); [exact Q1 | ].
  set (c2 := set_lastGestureTouchDistance (Some d) c1).
  assert (Q2 : settled c c2) by exact Q1.
  destruct (pinchSensitivity props d last) as [s|]; [ | exact Q2].
  destruct (calcGestureCenterPoint H e gs) as [center|]; [ | exact Q2].
  set (zc := match staticPinPosition props with Some _ => _ | None => _ end).
  clearbody zc.
  destruct (if debug props then _ else _) as [c3|] eqn:DBG; [ | exact Q2].
  assert (Q3 : settled c c3).
  { eapply settled_trans; [exact Q2 | ]. apply steady_settled, quiet_steady.
    destruct (debug props);
      [eapply _setPinchDebugPoints_quiet; eauto
      | injection DBG as <-; apply quiet_refl]. }
  destruct (_ || _); [exact Q3 | ].
  rewrite (surjective_pairing (_calcOffsetShiftSinceLastGestureState _ _ _)).
  eapply settled_trans; [ | apply pinch_store_settled ].
  eapply settled_trans; [exact Q3 | ].
  auto with frame.
Qed.

(** A move event never touches the measurements. *)
Lemma _handlePanResponderMove_state now e gs c :
  state (snd (_handlePanResponderMove H props now e gs c)) = state c.
Proof.
  unfold _handlePanResponderMove.
  rewrite (surjective_pairing (ask props onPanResponderMove (Some e) (Some gs) c)).
  pose proof (ask_quiet onPanResponderMove (Some e) (Some gs) c) as Q.
  set (c0 := snd (ask props onPanResponderMove (Some e) (Some gs) c)) in *.
  assert (S0 : state c0 = state c) by (now destruct Q as [[] _]).
  clearbody c0. rewrite <- S0. clear Q S0.
  destruct (fst _); [reflexivity | ].
  destruct (2 <? numberActiveTouches gs)%nat; cbn [snd].
  - destruct (gestureStarted c0); [ | reflexivity].
    apply _handlePanResponderEnd_unmoved.
  - set (c1 := if negb (gestureStarted c0)
               then _handlePanResponderGrant props e gs c0 else c0).
    assert (Q1 : quiet c0 c1).
    { subst c1. destruct (negb _);
        [apply _handlePanResponderGrant_quiet | apply quiet_refl]. }
    assert (S1 : state c1 = state c0) by (now destruct Q1 as [[] _]).
    clearbody c1. rewrite <- S1. clear Q1 S1.
    destruct (numberActiveTouches gs =? 2)%nat; cbn [snd].
    + match goal with
      | |- state (_handlePinching H props e gs ?c2) = _ =>
          destruct (_handlePinching_settled e gs c2) as [E _]; rewrite E
      end.
      destruct (negb (is_pinch _)); cbn [state set_gestureType];
        now destruct (clearLongPressTimeout_quiet c1) as [[] _].
    + destruct (numberActiveTouches gs =? 1)%nat; [ | reflexivity].
      set (c2 := if isSome (longPressTimeout c1) && _
                 then clearLongPressTimeout c1 else c1).
      assert (S2 : state c2 = state c1).
      { subst c2. destruct (_ && _); [ | reflexivity].
        now destruct (clearLongPressTimeout_quiet c1) as [[] _]. }
      clearbody c2. rewrite <- S2. clear S2.
      set (c3 := if negb (is_shift (gestureType c2))
                 then set_lastGestureCenterPosition _ c2 else c2).
      assert (S3 : state c3 = state c2) by (subst c3; now destruct (negb _)).
      clearbody c3. rewrite <- S3. clear S3.
      destruct (_ || _); cbn [snd]; [ | reflexivity].
      now destruct (_handleShifting_steady gs (set_gestureType (Some shift) c3))
        as [E _].
Qed.

End Frames.

(** ** Zoom bounds of a pinch step *)

Lemma respectZoomBounds_spec props mn mx v :
  maxZoom props = Some mx -> minZoom props = Some mn -> mn <= mx ->
  let r := respectZoomBounds props v in
  mn <= r /\ r <= mx /\ (mx < v -> r = mx) /\ (v < mn -> r = mn) /\
  (mn <= v -> v <= mx -> r = v).
Proof.
  intros Emx Emn Hle. unfold respectZoomBounds. rewrite Emx, Emn.
  destruct (num_gt v mx) eqn:G.
  - apply num_gt_true in G.
    destruct (num_lt mx mn) eqn:L.
    + apply num_lt_true in L. lra.
    + repeat split; try lra; intros; reflexivity || lra.
  - apply num_gt_false in G.
    destruct (num_lt v mn) eqn:L.
    + apply num_lt_true in L. repeat split; try lra; intros; reflexivity || lra.
    + apply num_lt_false in L. repeat split; try lra; intros; reflexivity || lra.
Qed.

(** C1 (as amended).  With [maxZoom] and [minZoom] set and
    [minZoom <= maxZoom], a step of [_handlePinching] leaves the zoom level
    as it was (an early return) or stores the level [v] it computed from
    the two touch distances and the sensitivity, with the bounds applied:
    [maxZoom] when [v > maxZoom], [minZoom] when [v < minZoom], [v] itself
    when it lies between them - in each case a level between [minZoom] and
    [maxZoom].  And it does store that level whenever it is not left early
    (zoom enabled, no veto, both distances not 0, a sensitivity, a gesture
    center, measurements taken). *)
Theorem pinch_zoomLevel_within_bounds
    (H : Helpers) (props : ReactNativeZoomableViewProps)
    (e : GestureResponderEvent) (gs : PanResponderGestureState)
    (c : ZoomableView) (mn mx : number) :
  maxZoom props = Some mx -> minZoom props = Some mn -> mn <= mx ->
  let c' := _handlePinching H props e gs c in
  (zoomLevel c' = zoomLevel c \/
   exists d last s,
     calcGestureTouchDistance H e gs = Some d /\
     lastGestureTouchDistance c = Some last /\
     pinchSensitivity props d last = Some s /\
     zoomLevel c' =
       respectZoomBounds props (pinchZoomLevel (zoomLevel c) d last s) /\
     clamped mn mx (pinchZoomLevel (zoomLevel c) d last s) (zoomLevel c')) /\
  (forall d last s center,
     zoomEnabled props = true -> zoom_vetoed props e gs c = false ->
     calcGestureTouchDistance H e gs = Some d -> ~ d == 0 ->
     lastGestureTouchDistance c = Some last -> ~ last == 0 ->
     pinchSensitivity props d last = Some s ->
     calcGestureCenterPoint H e gs = Some center ->
     (debug props = true -> (2 <= List.length (nativeTouches e))%nat) ->
     ~ originalHeight (state c) == 0 -> ~ originalWidth (state c) == 0 ->
     clamped mn mx (pinchZoomLevel (zoomLevel c) d last s) (zoomLevel c')).
Proof.
  intros Emx Emn Hle c'.
  assert (Cl : forall v, clamped mn mx v (respectZoomBounds props v)).
  { intros v.
    destruct (respectZoomBounds_spec props mn mx v Emx Emn Hle)
      as (A & B & C & D & I).
    repeat split; assumption. }
  split.
  - destruct (_handlePinching_zoomLevel H props e gs c)
      as [E | (d & last & s & D & L & PS & E)]; [now left | right].
    fold c' in E. exists d, last, s. rewrite E.
    repeat split; trivial; apply Cl.
  - intros d last s center ZE V D Dnz L Lnz PS C DBG Hh Hw.
    subst c'.
    rewrite (_handlePinching_stores H props e gs c d last s center);
      trivial.
Qed.

Lemma pinch_zoomLevel_within_bounds_witness :
  maxZoom defaultProps = Some (3 # 2) /\
  minZoom defaultProps = Some (1 # 2) /\
  (1 # 2) <= (3 # 2) /\
  let c := viewDuring pinch defaultProps in
  let e := twoTouches 100 100 400 100 in
  let gs := gesture 2 0 0 250 100 0 0 in
  let c' := _handlePinching exampleHelpers defaultProps e gs c in
  (zoomLevel c' = zoomLevel c \/
   exists d last s,
     calcGestureTouchDistance exampleHelpers e gs = Some d /\
     lastGestureTouchDistance c = Some last /\
     pinchSensitivity defaultProps d last = Some s /\
     zoomLevel c' =
       respectZoomBounds defaultProps
         (pinchZoomLevel (zoomLevel c) d last s) /\
     clamped (1 # 2) (3 # 2) (pinchZoomLevel (zoomLevel c) d last s)
       (zoomLevel c')) /\
  (forall d last s center,
     zoomEnabled defaultProps = true ->
     zoom_vetoed defaultProps e gs c = false ->
     calcGestureTouchDistance exampleHelpers e gs = Some d -> ~ d == 0 ->
     lastGestureTouchDistance c = Some last -> ~ last == 0 ->
     pinchSensitivity defaultProps d last = Some s ->
     calcGestureCenterPoint exampleHelpers e gs = Some center ->
     (debug defaultProps = true ->
      (2 <= List.length (nativeTouches e))%nat) ->
     ~ originalHeight (state c) == 0 -> ~ originalWidth (state c) == 0 ->
     clamped (1 # 2) (3 # 2) (pinchZoomLevel (zoomLevel c) d last s)
       (zoomLevel c')).
Proof.
  split; [reflexivity | ]. split; [reflexivity | ].
  split; [unfold Qle; simpl; lia | ].
  apply (pinch_zoomLevel_within_bounds exampleHelpers defaultProps
           (twoTouches 100 100 400 100) (gesture 2 0 0 250 100 0 0)
           (viewDuring pinch defaultProps) (1 # 2) (3 # 2));
    [reflexivity | reflexivity | unfold Qle; simpl; lia].
Defined.

(** At the input of the witness the step stores: the computed level, about
    1.91, is above [maxZoom] and the stored level is [maxZoom]. *)
Example pinch_zoomLevel_clamped_to_maxZoom :
  let c := viewDuring pinch defaultProps in
  let c' := _handlePinching exampleHelpers defaultProps
              (twoTouches 100 100 400 100) (gesture 2 0 0 250 100 0 0) c in
  zoomLevel c == 1 /\ zoomLevel c' = 3 # 2.
Proof. vm_compute. split; reflexivity. Qed.

(** C1 as stated fails when the bounds are given the wrong way round: with
    [minZoom = 2] and [maxZoom = 1] a pinch from zoom level 1 stores 2. *)
Lemma pinch_zoomLevel_outside_inverted_bounds :
  let props := withZoomBounds (Some 2) (Some 1) defaultProps in
  let c := viewDuring pinch props in
  let c' := _handlePinching exampleHelpers props
              (twoTouches 100 100 200 100) (gesture 2 0 0 150 100 0 0) c in
  maxZoom props = Some 1 /\ minZoom props = Some 2 /\
  zoomLevel c == 1 /\ zoomLevel c' == 2 /\
  ~ (zoomLevel c' == zoomLevel c \/
     (2 <= zoomLevel c' /\ zoomLevel c' <= 1)).
Proof.
  vm_compute. repeat split; try reflexivity.
  intros [E | [_ L]]; [discriminate E | apply L; reflexivity].
Qed.

(** ** Pan boundaries of an offset assignment *)

Lemma boundariesApplied_false (b offset : number) :
  boundariesApplied b offset = false <->
  (b == offset \/ toFixed 3 b = toFixed 3 offset).
Proof.
  unfold boundariesApplied, strictNeq.
  rewrite andb_false_iff, !negb_false_iff, Qeq_bool_iff, String.eqb_eq.
  tauto.
Qed.

Lemma boundariesApplied_true (b offset : number) :
  boundariesApplied b offset = true <->
  (~ b == offset /\ toFixed 3 b <> toFixed 3 offset).
Proof.
  unfold boundariesApplied, strictNeq.
  rewrite andb_true_iff, !negb_true_iff, <- !not_true_iff_false,
    Qeq_bool_iff, String.eqb_eq.
  tauto.
Qed.

Lemma __getOffset_set_offsetState axis o c :
  __getOffset axis (set_offsetState axis o c) = value o.
Proof. now destruct axis. Qed.

Lemma offsetStateOf_set_offsetState axis o c :
  offsetStateOf axis (set_offsetState axis o c) = o.
Proof. now destruct axis. Qed.

Lemma trace_set_offsetState axis o c :
  trace (set_offsetState axis o c) = trace c.
Proof. now destruct axis. Qed.

(** C2 (as amended).  With [bindToBorders] on, an assignment to [offsetX]
    or [offsetY] made while no gesture is in progress and no boundary
    animation is in effect on the axis either stores the offset, which then
    agrees with the offset clamped to the pan boundaries for the current
    zoom level (the same number, or the same to three decimals), or stores
    nothing and starts the boundary animation towards the clamped offset.
    An assignment made during a gesture or during that animation stores the
    offset as it is given. *)
Theorem setOffset_pan_boundaries
    (H : Helpers) (props : ReactNativeZoomableViewProps)
    (axis : Axis) (offset : number) (c : ZoomableView) :
  bindToBorders props = true ->
  let c' := __setOffset H props axis offset c in
  let b := boundOffsetOf H props axis offset c in
  (gestureType c = None ->
   boundaryCrossedAnimInEffect (offsetStateOf axis c) = false ->
   (__getOffset axis c' = offset /\
    (b == offset \/ toFixed 3 b = toFixed 3 offset) /\
    trace c' = trace c)
   \/
   (__getOffset axis c' = __getOffset axis c /\
    ~ b == offset /\ toFixed 3 b <> toFixed 3 offset /\
    boundaryCrossedAnimInEffect (offsetStateOf axis c') = true /\
    trace c' = BoundaryCrossedAnim axis b :: trace c))
  /\
  (gestureType c <> None \/
   boundaryCrossedAnimInEffect (offsetStateOf axis c) = true ->
   __getOffset axis c' = offset /\ trace c' = trace c).
Proof.
  intros B c' b. subst c'. unfold __setOffset. rewrite B. fold b.
  split.
  - intros G F. rewrite G, F. cbn [isSome negb andb].
    destruct (boundariesApplied b offset) eqn:A.
    + right. apply boundariesApplied_true in A. destruct A as [A1 A2].
      unfold emit.
      repeat split; trivial; cbn [trace set_trace];
        rewrite ?trace_set_offsetState; trivial.
      * unfold set_trace, __getOffset. destruct axis; reflexivity.
      * unfold set_trace. destruct axis; reflexivity.
    + left. apply boundariesApplied_false in A.
      rewrite __getOffset_set_offsetState, trace_set_offsetState.
      repeat split; trivial.
  - intros GF.
    assert (E : negb (isSome (gestureType c)) &&
                negb (boundaryCrossedAnimInEffect (offsetStateOf axis c))
                = false).
    { destruct GF as [G | F].
      - destruct (gestureType c); [reflexivity | congruence].
      - rewrite F. apply andb_false_r. }
    rewrite E, __getOffset_set_offsetState, trace_set_offsetState.
    split; reflexivity.
Qed.

Lemma setOffset_pan_boundaries_witness :
  bindToBorders defaultProps = true /\
  let c := exampleView in
  let c' := __setOffset exampleHelpers defaultProps AxisX 1000 c in
  let b := boundOffsetOf exampleHelpers defaultProps AxisX 1000 c in
  (gestureType c = None ->
   boundaryCrossedAnimInEffect (offsetStateOf AxisX c) = false ->
   (__getOffset AxisX c' = 1000 /\
    (b == 1000 \/ toFixed 3 b = toFixed 3 1000) /\
    trace c' = trace c)
   \/
   (__getOffset AxisX c' = __getOffset AxisX c /\
    ~ b == 1000 /\ toFixed 3 b <> toFixed 3 1000 /\
    boundaryCrossedAnimInEffect (offsetStateOf AxisX c') = true /\
    trace c' = BoundaryCrossedAnim AxisX b :: trace c))
  /\
  (gestureType c <> None \/
   boundaryCrossedAnimInEffect (offsetStateOf AxisX c) = true ->
   __getOffset AxisX c' = 1000 /\ trace c' = trace c).
Proof.
  split; [reflexivity | ].
  apply (setOffset_pan_boundaries exampleHelpers defaultProps AxisX 1000
           exampleView).
  reflexivity.
Defined.

(** C2 as stated fails during a gesture: with [bindToBorders] on, the sizes
    measured and the padding given, [offsetX = 1000] in the middle of a
    pan stores 1000, while the pan boundaries for the current zoom level
    put the offset at 0. *)
Lemma setOffset_stores_outside_pan_boundaries :
  let c := viewDuring shift defaultProps in
  let c' := __setOffset exampleHelpers defaultProps AxisX 1000 c in
  bindToBorders defaultProps = true /\
  truthy (containerSizeOf AxisX c) = true /\
  truthy (contentSizeOf defaultProps AxisX c) = true /\
  panBoundaryPadding defaultProps = Some 0 /\
  offsetX c' == 1000 /\
  boundOffsetOf exampleHelpers defaultProps AxisX 1000 c == 0 /\
  ~ boundOffsetOf exampleHelpers defaultProps AxisX (offsetX c') c'
    == offsetX c'.
Proof.
  vm_compute. repeat split; try reflexivity. discriminate.
Qed.

(** ** Programmatic zoom *)

Lemma zoomTo_guards props z :
  negb (zoomEnabled props)
  || (truthyO (maxZoom props) &&
      match maxZoom props with
      | Some m => num_gt z m
      | None => false
      end)
  || (truthyO (minZoom props) &&
      match minZoom props with
      | Some m => num_lt z m
      | None => false
      end) = true
  <-> zoomTo_refuses props z.
Proof.
  unfold zoomTo_refuses.
  rewrite !orb_true_iff, !andb_true_iff, negb_true_iff.
  split.
  - intros [[E | [T G]] | [T L]].
    + now left.
    + right; left. destruct (maxZoom props) as [m|]; [ | discriminate].
      exists m. simpl in T. apply truthy_true in T. apply num_gt_true in G.
      auto.
    + right; right. destruct (minZoom props) as [m|]; [ | discriminate].
      exists m. simpl in T. apply truthy_true in T. apply num_lt_true in L.
      auto.
  - intros [E | [(m & -> & T & G) | (m & -> & T & L)]].
    + now left; left.
    + left; right. simpl. now rewrite truthy_true, num_gt_true.
    + right. simpl. now rewrite truthy_true, num_lt_true.
Qed.

Lemma zoomTo_unfold props z zc c :
  zoomTo props z zc c =
  if negb (zoomEnabled props)
     || (truthyO (maxZoom props) &&
         match maxZoom props with
         | Some m => num_gt z m
         | None => false
         end)
     || (truthyO (minZoom props) &&
         match minZoom props with
         | Some m => num_lt z m
         | None => false
         end)
  then (false, c)
  else (true,
        invoke props onZoomAfter None None
          (emit (ZoomToAnimation z zc)
             (invoke props onZoomBefore None None c))).
Proof.
  unfold zoomTo.
  destruct (negb (zoomEnabled props)); [reflexivity | ].
  destruct (truthyO (maxZoom props) && _); [reflexivity | ].
  destruct (truthyO (minZoom props) && _); reflexivity.
Qed.

Lemma zoomStarts_app l l' :
  zoomStarts (l ++ l') = zoomStarts l ++ zoomStarts l'.
Proof. apply flat_map_app. Qed.

Lemma zoomStarts_invoke props cb e gs c :
  zoomStarts (trace (invoke props cb e gs c)) = zoomStarts (trace c).
Proof.
  unfold invoke, ask. now destruct (callback props cb).
Qed.

(** C3.  [zoomTo] returns [false] and leaves the component as it is exactly
    when zoom is disabled, or [maxZoom] is truthy and the new level exceeds
    it, or [minZoom] is truthy and the new level is below it; otherwise it
    returns [true] having started the zoom animation towards the new level
    (the zoom level and offsets themselves are moved by the animation, not
    by the call). *)
Theorem zoomTo_refuses_or_starts
    (props : ReactNativeZoomableViewProps) (newZoomLevel : number)
    (zoomCenter : option Vec2D) (c : ZoomableView) :
  let r := zoomTo props newZoomLevel zoomCenter c in
  (fst r = false <-> zoomTo_refuses props newZoomLevel) /\
  (zoomTo_refuses props newZoomLevel -> r = (false, c)) /\
  (~ zoomTo_refuses props newZoomLevel ->
   fst r = true /\
   zoomStarts (trace (snd r)) =
     (newZoomLevel, zoomCenter) :: zoomStarts (trace c) /\
   unmoved c (snd r)).
Proof.
  cbv zeta.
  pose proof (zoomTo_quiet props newZoomLevel zoomCenter c) as Q.
  rewrite zoomTo_unfold in *.
  pose proof (zoomTo_guards props newZoomLevel) as G.
  destruct (_ || _ || _) eqn:E.
  - assert (R : zoomTo_refuses props newZoomLevel) by now apply G.
    repeat split; trivial; intros; tauto.
  - assert (R : ~ zoomTo_refuses props newZoomLevel).
    { intros R. apply G in R. discriminate. }
    split; [split; [discriminate | tauto] | ].
    split; [tauto | ].
    intros _. split; [reflexivity | ]. cbn [snd]. split.
    + rewrite zoomStarts_invoke. unfold emit. cbn [trace set_trace].
      change (zoomStarts (?a :: ?l)) with
        ((fun e => match e with
                   | ZoomToAnimation z zc => [(z, zc)]
                   | _ => []
                   end) a ++ zoomStarts l).
      cbn [app]. now rewrite zoomStarts_invoke.
    + apply quiet_unmoved, Q.
Qed.

(** C10.  [zoomBy] of a non-zero change is [zoomTo] of the zoom level plus
    the change; for a change of zero, or none, the [zoomStep] prop stands
    in (zero when it is unset or zero), so that [zoomBy(0)] zooms by
    [zoomStep]. *)
Theorem zoomBy_is_zoomTo
    (props : ReactNativeZoomableViewProps) (c : ZoomableView) :
  (forall change, ~ change == 0 ->
     zoomBy props (Some change) c =
     zoomTo props (zoomLevel c + change) None c) /\
  (forall change, change == 0 ->
     zoomBy props (Some change) c =
     zoomTo props (zoomLevel c + orElse (zoomStep props) 0) None c) /\
  zoomBy props None c =
    zoomTo props (zoomLevel c + orElse (zoomStep props) 0) None c /\
  (forall step, zoomStep props = Some step -> ~ step == 0 ->
     zoomBy props (Some 0) c = zoomTo props (zoomLevel c + step) None c).
Proof.
  unfold zoomBy. repeat split.
  - intros change N. apply truthy_true in N. now rewrite orElse_truthy.
  - intros change Z. apply truthy_false in Z. now rewrite orElse_falsy.
  - intros step -> N. apply truthy_true in N.
    rewrite orElse_falsy by reflexivity. now rewrite orElse_truthy.
Qed.

(** Printing a non-negative number with [f] decimals is rounding it to the
    nearest multiple of [10^-f]: two such numbers print the same exactly
    when they round to the same multiple. *)
Lemma toFixed_nonneg_eq_iff (f : nat) (a b : number) :
  0 <= a -> 0 <= b ->
  (toFixed f a = toFixed f b <-> toFixed_n f a = toFixed_n f b).
Proof.
  intros A B. rewrite toFixed_eq_iff.
  apply num_lt_false in A, B. rewrite A, B. tauto.
Qed.

(** C4.  [_getNextZoomStep] is undefined without [maxZoom]; it is
    [initialZoom] when the zoom level and [maxZoom] are equal once both are
    rounded to two decimals ([toFixed(2)]); otherwise it is undefined
    without [zoomStep], and else [zoomLevel * (1 + zoomStep)], or [maxZoom]
    when that product exceeds [maxZoom]. *)
Theorem getNextZoomStep_cases
    (props : ReactNativeZoomableViewProps) (c : ZoomableView) :
  (maxZoom props = None -> _getNextZoomStep props c = None) /\
  (forall m, maxZoom props = Some m ->
     (toFixed 2 (zoomLevel c) = toFixed 2 m ->
      _getNextZoomStep props c = initialZoom props) /\
     (toFixed 2 (zoomLevel c) <> toFixed 2 m ->
      (zoomStep props = None -> _getNextZoomStep props c = None) /\
      (forall s, zoomStep props = Some s ->
         (m < zoomLevel c * (1 + s) ->
          _getNextZoomStep props c = Some m) /\
         (zoomLevel c * (1 + s) <= m ->
          _getNextZoomStep props c = Some (zoomLevel c * (1 + s))))) /\
     (0 <= zoomLevel c -> 0 <= m ->
      (toFixed 2 (zoomLevel c) = toFixed 2 m <->
       toFixed_n 2 (zoomLevel c) = toFixed_n 2 m))).
Proof.
  unfold _getNextZoomStep. split; [now intros -> | ].
  intros m ->. split; [ | split].
  - intros E. apply String.eqb_eq in E. now rewrite E.
  - intros N. apply String.eqb_neq in N. rewrite N.
    split; [now intros -> | ].
    intros s ->. split.
    + intros G. apply num_gt_true in G. now rewrite G.
    + intros L. apply num_gt_false in L. now rewrite L.
  - apply toFixed_nonneg_eq_iff.
Qed.

(** The double tap cycle with the default props: 1, 1.5, back to 1. *)
Example getNextZoomStep_from_initial :
  _getNextZoomStep defaultProps exampleView = Some (3 # 2).
Proof. vm_compute. reflexivity. Qed.

Example getNextZoomStep_from_maxZoom :
  _getNextZoomStep defaultProps (set_zoomLevel (1499 # 1000) exampleView)
  = Some 1.
Proof. vm_compute. reflexivity. Qed.

Example getNextZoomStep_below_maxZoom :
  _getNextZoomStep (withZoomBounds (Some (1 # 2)) (Some 4) defaultProps)
    (set_zoomLevel 2 exampleView) = Some (2 * (1 + (1 # 2))).
Proof. vm_compute. reflexivity. Qed.

(** ** Momentum at the end of a gesture *)

Lemma calm_refl c : calm c c.
Proof. reflexivity. Qed.

Lemma calm_trans c0 c c' : calm c0 c -> calm c c' -> calm c0 c'.
Proof. unfold calm. congruence. Qed.

Ltac plainly_calm := intros; reflexivity.

Lemma ask_calm props cb e gs c : calm c (snd (ask props cb e gs c)).
Proof. unfold ask. destruct (callback props cb); plainly_calm. Qed.

Lemma invoke_calm props cb e gs c : calm c (invoke props cb e gs c).
Proof. apply ask_calm. Qed.

Lemma clearLongPressTimeout_calm c : calm c (clearLongPressTimeout c).
Proof.
  unfold clearLongPressTimeout. destruct (longPressTimeout c); plainly_calm.
Qed.

Lemma _updateStaticPin_calm H props c : calm c (_updateStaticPin H props c).
Proof.
  unfold _updateStaticPin. destruct (_staticPinPosition H props c);
    plainly_calm.
Qed.

Lemma dropPin_calm props c : calm c (dropPin props c).
Proof. unfold dropPin. destruct (negb _); plainly_calm. Qed.

Lemma zoomTo_calm props z zc c : calm c (snd (zoomTo props z zc c)).
Proof.
  rewrite zoomTo_unfold. destruct (_ || _ || _); [apply calm_refl | ].
  cbn [snd]. eapply calm_trans; [ | apply invoke_calm ].
  eapply calm_trans; [apply invoke_calm | reflexivity].
Qed.

Lemma _handleDoubleTap_calm props e c : calm c (_handleDoubleTap props e c).
Proof.
  unfold _handleDoubleTap.
  pose proof (invoke_calm props onDoubleTapBefore (Some e) None c) as C1.
  set (c1 := invoke props onDoubleTapBefore (Some e) None c) in *.
  destruct (_getNextZoomStep props c1); [ | exact C1].
  cbv zeta.
  match goal with
  | |- context [zoomTo props ?z ?zc c1] =>
      pose proof (zoomTo_calm props z zc c1) as C2;
      set (c2 := snd (zoomTo props z zc c1)) in *
  end.
  destruct (callback props onDoubleTapAfter).
  - eapply calm_trans; [ | reflexivity ].
    eapply calm_trans; eauto.
  - eapply calm_trans; eauto.
Qed.

Lemma _resolveAndHandleTap_calm props now e c :
  calm c (_resolveAndHandleTap props now e c).
Proof.
  unfold _resolveAndHandleTap.
  match goal with
  | |- context [if ?b then _ else _] => destruct b
  end.
  - eapply calm_trans; [ | apply _handleDoubleTap_calm ].
    destruct (doubleTapFirstTap c); destruct (singleTapTimeoutId _);
      reflexivity.
  - reflexivity.
Qed.

Lemma momentumDisabled_quiet props c c' :
  quiet c c' -> momentumDisabled props c' = momentumDisabled props c.
Proof.
  intros [[_ Z _ _ _ _] G]. unfold momentumDisabled. now rewrite Z, G.
Qed.

(** The momentum animations in the trace after [_handlePanResponderEnd];
    the velocity is that of the code where the zoom level is not 0. *)
Lemma _handlePanResponderEnd_momentum H props now e gs c :
  momentumStarts (trace (_handlePanResponderEnd H props now e gs c)) =
  if momentumDisabled props c then momentumStarts (trace c)
  else {| x := vx gs / zoomLevel c; y := vy gs / zoomLevel c |}
       :: momentumStarts (trace c).
Proof.
  unfold _handlePanResponderEnd.
  set (c1 := if negb (isSome (gestureType c))
             then _resolveAndHandleTap props now e c else c).
  assert (Q1 : quiet c c1 /\ calm c c1).
  { subst c1. destruct (negb _);
      [split; [apply _resolveAndHandleTap_quiet
              | apply _resolveAndHandleTap_calm]
      | split; [apply quiet_refl | apply calm_refl]]. }
  set (c2 := set_lastGestureCenterPosition None (emit (SetDebugPoints []) c1)).
  assert (Q2 : quiet c c2 /\ calm c c2).
  { destruct Q1 as [Q1 C1]. split.
    - eapply quiet_trans; [exact Q1 | ]. subst c2. repeat split; reflexivity.
    - eapply calm_trans; [exact C1 | reflexivity]. }
  destruct Q2 as [Q2 C2].
  rewrite (momentumDisabled_quiet props c c2 Q2).
  assert (Z2 : zoomLevel c2 = zoomLevel c) by (now destruct Q2 as [[] _]).
  rewrite Z2.
  set (v := {| x := vx gs / zoomLevel c; y := vy gs / zoomLevel c |}).
  set (c3 := if negb (momentumDisabled props c) then
               startPanMomentumDecayAnim v c2 else c2).
  assert (M3 : momentumStarts (trace c3) =
               if momentumDisabled props c then momentumStarts (trace c)
               else v :: momentumStarts (trace c)).
  { subst c3. destruct (momentumDisabled props c); cbn [negb].
    - exact C2.
    - unfold startPanMomentumDecayAnim, emit. cbn [trace set_trace].
      change (momentumStarts (PanMomentumDecayAnim v :: ?l))
        with (v :: momentumStarts l).
      f_equal. exact C2. }
  rewrite <- M3. clearbody c3.
  cbn [trace set_gestureStarted set_gestureType].
  eapply calm_trans; [ | apply dropPin_calm ].
  eapply calm_trans;
    [ | destruct (isSome (staticPinPosition props));
        [apply _updateStaticPin_calm | apply calm_refl] ].
  eapply calm_trans;
    [ | match goal with
        | |- calm _ (match gestureType ?c with _ => _ end) =>
            destruct (gestureType c) as [[]|];
              [apply invoke_calm | apply invoke_calm | apply calm_refl]
        end ].
  eapply calm_trans; [ | apply invoke_calm ].
  apply clearLongPressTimeout_calm.
Qed.

Lemma momentumDisabled_true props c :
  momentumDisabled props c = true <-> momentum_disabled props c.
Proof.
  unfold momentumDisabled, momentum_disabled, strictEqO, strictEq.
  rewrite orb_true_iff, !andb_true_iff. split.
  - intros [D | [[[P G] I] Z]]; [now left | right].
    destruct (gestureType c) as [[]|]; try discriminate.
    destruct (initialZoom props) as [z0|]; [ | discriminate].
    apply Qeq_bool_iff in Z. eauto 6.
  - intros [D | (P & G & I & z0 & E & Z)]; [now left | right].
    rewrite G, E, Qeq_bool_iff. auto.
Qed.

(** C6.  At the end of a gesture, [_handlePanResponderEnd] starts one pan
    momentum decay animation - with the velocity
    [(vx / zoomLevel, vy / zoomLevel)] of the gesture state, for a zoom
    level that is not 0 - unless [disableMomentum] is set, or panning is
    enabled, the gesture was a 'shift', [disablePanOnInitialZoom] is set
    and the zoom level is [initialZoom]: then it starts none. *)
Theorem end_of_gesture_momentum
    (H : Helpers) (props : ReactNativeZoomableViewProps) (now : Z)
    (e : GestureResponderEvent) (gs : PanResponderGestureState)
    (c : ZoomableView) :
  let c' := _handlePanResponderEnd H props now e gs c in
  (momentum_disabled props c ->
   momentumStarts (trace c') = momentumStarts (trace c)) /\
  (~ momentum_disabled props c ->
   List.length (momentumStarts (trace c')) =
     S (List.length (momentumStarts (trace c))) /\
   (~ zoomLevel c == 0 ->
    momentumStarts (trace c') =
      {| x := vx gs / zoomLevel c; y := vy gs / zoomLevel c |}
      :: momentumStarts (trace c))).
Proof.
  cbv zeta. rewrite _handlePanResponderEnd_momentum.
  pose proof (momentumDisabled_true props c) as D.
  destruct (momentumDisabled props c).
  - split; [reflexivity | ]. intros N. exfalso. apply N, D. reflexivity.
  - split; [ | split; reflexivity]. intros M. apply D in M. discriminate.
Qed.

Lemma end_of_gesture_momentum_witness :
  let c := viewDuring shift defaultProps in
  let e := oneTouch 150 100 in
  let gs := gesture 0 50 0 150 100 (3 # 2) (1 # 2) in
  let c' := _handlePanResponderEnd exampleHelpers defaultProps 1000 e gs c in
  ~ momentum_disabled defaultProps c /\ ~ zoomLevel c == 0 /\
  List.length (momentumStarts (trace c')) =
    S (List.length (momentumStarts (trace c))) /\
  momentumStarts (trace c') =
    {| x := vx gs / zoomLevel c; y := vy gs / zoomLevel c |}
    :: momentumStarts (trace c).
Proof.
  cbv zeta.
  assert (N : ~ momentum_disabled defaultProps (viewDuring shift defaultProps))
    by (intros [E | (_ & _ & E & _)]; discriminate E).
  assert (Z : ~ zoomLevel (viewDuring shift defaultProps) == 0)
    by (vm_compute; discriminate).
  split; [exact N | ]. split; [exact Z | ].
  destruct (proj2 (end_of_gesture_momentum exampleHelpers defaultProps 1000
                     (oneTouch 150 100)
                     (gesture 0 50 0 150 100 (3 # 2) (1 # 2))
                     (viewDuring shift defaultProps)) N) as [L V].
  split; [exact L | exact (V Z)].
Defined.

(** ** Classification of a move event *)

Lemma ask_gestureStarted props cb e gs c :
  gestureStarted (snd (ask props cb e gs c)) = gestureStarted c.
Proof. unfold ask. now destruct (callback props cb). Qed.

(** C8 (as amended).  A move event with more than two active touches that
    the [onPanResponderMove] prop does not claim makes
    [_handlePanResponderMove] end the gesture if one was started and return
    [true]; no pinch or shift handling runs, and the zoom level, the
    offsets and the animated values are as before. *)
Theorem move_with_more_than_two_touches
    (H : Helpers) (props : ReactNativeZoomableViewProps) (now : Z)
    (e : GestureResponderEvent) (gs : PanResponderGestureState)
    (c : ZoomableView) :
  move_claimed props e gs c = false ->
  (2 < numberActiveTouches gs)%nat ->
  let r := _handlePanResponderMove H props now e gs c in
  let c0 := snd (ask props onPanResponderMove (Some e) (Some gs) c) in
  fst r = Some true /\
  (gestureStarted c = true ->
   snd r = _handlePanResponderEnd H props now e gs c0 /\
   gestureStarted (snd r) = false /\ gestureType (snd r) = None) /\
  (gestureStarted c = false -> snd r = c0) /\
  gestureStarted (snd r) = false /\
  unmoved c (snd r).
Proof.
  unfold move_claimed. intros V N. cbv zeta.
  unfold _handlePanResponderMove.
  rewrite (surjective_pairing (ask props onPanResponderMove (Some e) (Some gs) c)).
  rewrite V. apply Nat.ltb_lt in N. rewrite N. cbn [fst snd].
  pose proof (ask_quiet props onPanResponderMove (Some e) (Some gs) c) as Q.
  pose proof (ask_gestureStarted props onPanResponderMove (Some e) (Some gs) c)
    as G.
  set (c0 := snd (ask props onPanResponderMove (Some e) (Some gs) c)) in *.
  rewrite G.
  destruct (gestureStarted c) eqn:S.
  - split; [reflexivity | ].
    split; [intros _; split; [reflexivity | split; reflexivity] | ].
    split; [discriminate | ]. split; [reflexivity | ].
    eapply unmoved_trans; [apply quiet_unmoved, Q | ].
    apply _handlePanResponderEnd_unmoved.
  - split; [reflexivity | ]. split; [discriminate | ].
    split; [reflexivity | ]. split; [congruence | ].
    apply quiet_unmoved, Q.
Qed.

(** C5 (as amended).  A move event that the [onPanResponderMove] prop does
    not claim is classified by its number of active touches.  With two, the
    gesture type becomes 'pinch' and [_handlePinching] runs.  With one, the
    gesture type becomes 'shift' and [_handleShifting] runs if [|dx| > 2]
    or [|dy| > 2]; at or below that threshold neither the gesture type nor
    the transform changes. *)
Theorem move_classified_by_touches
    (H : Helpers) (props : ReactNativeZoomableViewProps) (now : Z)
    (e : GestureResponderEvent) (gs : PanResponderGestureState)
    (c : ZoomableView) :
  move_claimed props e gs c = false ->
  let r := _handlePanResponderMove H props now e gs c in
  (numberActiveTouches gs = 2%nat ->
   gestureType (snd r) = Some pinch /\
   exists c1, gestureType c1 = Some pinch /\
              snd r = _handlePinching H props e gs c1) /\
  (numberActiveTouches gs = 1%nat ->
   (2 < Qabs (dx gs) \/ 2 < Qabs (dy gs) ->
    gestureType (snd r) = Some shift /\
    exists c1, gestureType c1 = Some shift /\
               snd r = _handleShifting H props gs c1) /\
   (Qabs (dx gs) <= 2 /\ Qabs (dy gs) <= 2 -> quiet c (snd r))).
Proof.
  unfold move_claimed. intros V. cbv zeta.
  unfold _handlePanResponderMove.
  rewrite (surjective_pairing (ask props onPanResponderMove (Some e) (Some gs) c)).
  rewrite V.
  pose proof (ask_quiet props onPanResponderMove (Some e) (Some gs) c) as Q.
  set (c0 := snd (ask props onPanResponderMove (Some e) (Some gs) c)) in *.
  set (c1 := if negb (gestureStarted c0)
             then _handlePanResponderGrant props e gs c0 else c0).
  assert (Q1 : quiet c c1).
  { eapply quiet_trans; [exact Q | ]. subst c1.
    destruct (negb _);
      [apply _handlePanResponderGrant_quiet | apply quiet_refl]. }
  clearbody c1. clear Q V. clearbody c0.
  split.
  - intros ->. cbn [Nat.ltb Nat.leb Nat.eqb snd].
    match goal with
    | |- context [_handlePinching H props e gs ?c2] =>
        assert (G : gestureType c2 = Some pinch) by reflexivity;
        set (c2' := c2) in *
    end.
    split; [ | exists c2'; split; [exact G | reflexivity]].
    destruct (_handlePinching_settled H props e gs c2') as [_ E].
    congruence.
  - intros ->. cbn [Nat.ltb Nat.leb Nat.eqb].
    set (c2 := if isSome (longPressTimeout c1) && _
               then clearLongPressTimeout c1 else c1).
    assert (Q2 : quiet c c2).
    { eapply quiet_trans; [exact Q1 | ]. subst c2.
      destruct (_ && _);
        [apply clearLongPressTimeout_quiet | apply quiet_refl]. }
    clearbody c2.
    set (c3 := if negb (is_shift (gestureType c2))
               then set_lastGestureCenterPosition _ c2 else c2).
    assert (Q3 : quiet c c3).
    { eapply quiet_trans; [exact Q2 | ]. subst c3.
      destruct (negb _);
        [apply set_lastGestureCenterPosition_quiet | apply quiet_refl]. }
    clearbody c3.
    split.
    + intros T.
      assert (S : num_gt (Qabs (dx gs)) 2 || num_gt (Qabs (dy gs)) 2 = true).
      { apply orb_true_iff. rewrite !num_gt_true. exact T. }
      rewrite S. cbn [snd].
      set (c4 := set_gestureType (Some shift) c3).
      split; [ | exists c4; split; reflexivity].
      destruct (_handleShifting_steady H props gs c4) as (_ & _ & E).
      rewrite E. reflexivity.
    + intros [Lx Ly].
      assert (S : num_gt (Qabs (dx gs)) 2 || num_gt (Qabs (dy gs)) 2 = false).
      { apply orb_false_iff. rewrite !num_gt_false. auto. }
      rewrite S. exact Q3.
Qed.

Lemma move_with_more_than_two_touches_witness :
  let c := viewDuring pinch defaultProps in
  let e := twoTouches 100 100 200 100 in
  let gs := gesture 3 0 0 150 100 1 2 in
  move_claimed defaultProps e gs c = false /\
  (2 < numberActiveTouches gs)%nat /\
  let r := _handlePanResponderMove exampleHelpers defaultProps 1000 e gs c in
  let c0 := snd (ask defaultProps onPanResponderMove (Some e) (Some gs) c) in
  fst r = Some true /\
  (gestureStarted c = true ->
   snd r = _handlePanResponderEnd exampleHelpers defaultProps 1000 e gs c0 /\
   gestureStarted (snd r) = false /\ gestureType (snd r) = None) /\
  (gestureStarted c = false -> snd r = c0) /\
  gestureStarted (snd r) = false /\
  unmoved c (snd r).
Proof.
  split; [reflexivity | ]. split; [simpl; lia | ].
  apply (move_with_more_than_two_touches exampleHelpers defaultProps 1000
           (twoTouches 100 100 200 100) (gesture 3 0 0 150 100 1 2)
           (viewDuring pinch defaultProps));
    [reflexivity | simpl; lia].
Defined.

(** C8 as stated fails when the [onPanResponderMove] prop claims the event:
    the handler returns [false], not [true], and the started gesture is
    not ended. *)
Lemma claimed_move_with_three_touches :
  let props := withCallback claimingMove defaultProps in
  let c := viewDuring pinch props in
  let gs := gesture 3 0 0 150 100 1 2 in
  let r := _handlePanResponderMove exampleHelpers props 1000
             (twoTouches 100 100 200 100) gs c in
  numberActiveTouches gs = 3%nat /\
  gestureStarted c = true /\
  fst r = Some false /\ fst r <> Some true /\
  gestureStarted (snd r) = true /\ gestureType (snd r) = Some pinch.
Proof. vm_compute. repeat split; try reflexivity. discriminate. Qed.

Lemma move_classified_by_touches_witness :
  let c := exampleView in
  let e := oneTouch 120 100 in
  let gs := gesture 1 20 0 120 100 0 0 in
  move_claimed defaultProps e gs c = false /\
  let r := _handlePanResponderMove exampleHelpers defaultProps 1000 e gs c in
  (numberActiveTouches gs = 2%nat ->
   gestureType (snd r) = Some pinch /\
   exists c1, gestureType c1 = Some pinch /\
              snd r = _handlePinching exampleHelpers defaultProps e gs c1) /\
  (numberActiveTouches gs = 1%nat ->
   (2 < Qabs (dx gs) \/ 2 < Qabs (dy gs) ->
    gestureType (snd r) = Some shift /\
    exists c1, gestureType c1 = Some shift /\
               snd r = _handleShifting exampleHelpers defaultProps gs c1) /\
   (Qabs (dx gs) <= 2 /\ Qabs (dy gs) <= 2 -> quiet c (snd r))).
Proof.
  split; [reflexivity | ].
  apply (move_classified_by_touches exampleHelpers defaultProps 1000
           (oneTouch 120 100) (gesture 1 20 0 120 100 0 0) exampleView).
  reflexivity.
Defined.

(** C5 as stated fails when the [onPanResponderMove] prop claims the event:
    a move with two active touches then leaves the gesture type unset. *)
Lemma claimed_move_with_two_touches :
  let props := withCallback claimingMove defaultProps in
  let c := set_state exampleState (construct exampleHelpers props) in
  let gs := gesture 2 0 0 150 100 0 0 in
  let r := _handlePanResponderMove exampleHelpers props 1000
             (twoTouches 100 100 200 100) gs c in
  numberActiveTouches gs = 2%nat /\
  gestureType c = None /\
  gestureType (snd r) = None /\ gestureType (snd r) <> Some pinch /\
  fst r = Some false.
Proof. vm_compute. repeat split; try reflexivity. discriminate. Qed.

(** ** The zoom level a pinch computes *)

Lemma pinchZoomLevel_formula (z d dLast s : number) :
  pinchZoomLevel z d dLast s ==
  z * (1 + (d / dLast - 1) * (1 - 9 * s / 100)).
Proof. unfold pinchZoomLevel. unfold Qdiv. ring. Qed.

(** With a sensitivity of 0 the factor [1 - s * 9 / 100] is 1 and the
    growth is taken as it is.  Each step of this is exact for doubles as
    well: a product and a quotient of 0 are 0, [1 - 0] is 1, and a product
    with 1 is the other factor. *)
Lemma pinchZoomLevel_no_resistance (z d dLast s : number) :
  s == 0 ->
  (d / dLast - 1) * (1 - s * 9 / 100) == d / dLast - 1 /\
  pinchZoomLevel z d dLast s == z * (1 + (d / dLast - 1)).
Proof.
  intros E. unfold pinchZoomLevel. cbv zeta. rewrite E.
  assert (O : 1 - 0 * 9 / 100 == 1) by reflexivity.
  rewrite O, Qmult_1_r. split; reflexivity.
Qed.

(** C9.  A pinch step that is not left early (zoom enabled, [onZoomBefore]
    not vetoing, touch distance [d] and previous distance [dLast] not
    zero, a gesture center, measurements taken) stores the zoom bounds
    applied to [zoomLevel * (1 + (d / dLast - 1) * (1 - 9 * s / 100))],
    where [s] is [pinchToZoomOutSensitivity] when [d / dLast < 1] and
    [pinchToZoomInSensitivity] otherwise.  With [s = 0] there is no
    resistance: the growth [d / dLast - 1] is multiplied by 1 and taken
    in full, the level before the bounds being
    [zoomLevel * (1 + (d / dLast - 1))]. *)
Theorem pinch_zoom_formula
    (H : Helpers) (props : ReactNativeZoomableViewProps)
    (e : GestureResponderEvent) (gs : PanResponderGestureState)
    (c : ZoomableView) (d dLast s : number) (center : Vec2D) :
  zoomEnabled props = true ->
  zoom_vetoed props e gs c = false ->
  calcGestureTouchDistance H e gs = Some d -> ~ d == 0 ->
  lastGestureTouchDistance c = Some dLast -> ~ dLast == 0 ->
  (d / dLast < 1 -> pinchToZoomOutSensitivity props = Some s) ->
  (1 <= d / dLast -> pinchToZoomInSensitivity props = Some s) ->
  calcGestureCenterPoint H e gs = Some center ->
  (debug props = true -> (2 <= List.length (nativeTouches e))%nat) ->
  ~ originalHeight (state c) == 0 ->
  ~ originalWidth (state c) == 0 ->
  exists v,
    v == zoomLevel c * (1 + (d / dLast - 1) * (1 - 9 * s / 100)) /\
    (s == 0 ->
     (d / dLast - 1) * (1 - s * 9 / 100) == d / dLast - 1 /\
     v == zoomLevel c * (1 + (d / dLast - 1))) /\
    zoomLevel (_handlePinching H props e gs c) = respectZoomBounds props v.
Proof.
  intros ZE V D Dnz L Lnz Sout Sin C DBG Hh Hw.
  exists (pinchZoomLevel (zoomLevel c) d dLast s).
  split; [apply pinchZoomLevel_formula | ].
  split; [apply pinchZoomLevel_no_resistance | ].
  apply _handlePinching_stores with (center := center); trivial.
  unfold pinchSensitivity.
  destruct (num_lt (d / dLast) 1) eqn:E.
  - apply num_lt_true in E. auto.
  - apply num_lt_false in E. auto.
Qed.

Lemma pinch_zoom_formula_witness :
  let c := viewDuring pinch defaultProps in
  let e := twoTouches 100 100 280 100 in
  let gs := gesture 2 0 0 190 100 0 0 in
  let d := 180 in
  let dLast := 150 in
  let s := 1 in
  let center := {| x := 380 / 2; y := 200 / 2 |} in
  zoomEnabled defaultProps = true /\
  zoom_vetoed defaultProps e gs c = false /\
  calcGestureTouchDistance exampleHelpers e gs = Some d /\
  ~ d == 0 /\
  lastGestureTouchDistance c = Some dLast /\
  ~ dLast == 0 /\
  (d / dLast < 1 -> pinchToZoomOutSensitivity defaultProps = Some s) /\
  (1 <= d / dLast -> pinchToZoomInSensitivity defaultProps = Some s) /\
  calcGestureCenterPoint exampleHelpers e gs = Some center /\
  (debug defaultProps = true -> (2 <= List.length (nativeTouches e))%nat) /\
  ~ originalHeight (state c) == 0 /\
  ~ originalWidth (state c) == 0 /\
  exists v,
    v == zoomLevel c * (1 + (d / dLast - 1) * (1 - 9 * s / 100)) /\
    (s == 0 ->
     (d / dLast - 1) * (1 - s * 9 / 100) == d / dLast - 1 /\
     v == zoomLevel c * (1 + (d / dLast - 1))) /\
    zoomLevel (_handlePinching exampleHelpers defaultProps e gs c) =
      respectZoomBounds defaultProps v.
Proof.
  cbv zeta.
  assert (N180 : ~ 180 == 0) by (vm_compute; discriminate).
  assert (N150 : ~ 150 == 0) by (vm_compute; discriminate).
  assert (N400 : ~ 400 == 0) by (vm_compute; discriminate).
  assert (N300 : ~ 300 == 0) by (vm_compute; discriminate).
  repeat (split; [first [reflexivity | assumption | intros _; reflexivity
                        | intros _; simpl; lia ] | ]).
  apply (pinch_zoom_formula exampleHelpers defaultProps
           (twoTouches 100 100 280 100) (gesture 2 0 0 190 100 0 0)
           (viewDuring pinch defaultProps) 180 150 1
           {| x := 380 / 2; y := 200 / 2 |});
    first [reflexivity | assumption | intros _; reflexivity
          | intros _; simpl; lia ].
Defined.

(** ** The rendered transform *)

(** C7.  Whatever [style] the props carry, the transform of the zoom
    subject is the scale driven by [zoomAnim] followed by the two
    translations driven by [panAnim], and nothing else: no rotation and no
    skew. *)
Theorem render_transform_is_scale_then_translation
    (props : ReactNativeZoomableViewProps) :
  transform (flattenStyle (render_style props)) =
    Some [scale ZoomAnimNode; translateX PanAnimXNode; translateY PanAnimYNode]
  /\
  forall l, transform (flattenStyle (render_style props)) = Some l ->
            existsb is_rotation_or_skew l = false.
Proof.
  assert (E : transform (flattenStyle (render_style props)) =
              Some [scale ZoomAnimNode; translateX PanAnimXNode;
                    translateY PanAnimYNode]).
  { unfold render_style, flattenStyle. cbn [fold_left styles_zoomSubject].
    destruct (style props) as [[[t|]]|]; reflexivity. }
  split; [exact E | ].
  intros l El. rewrite E in El. injection El as <-. reflexivity.
Qed.

(** ** Worked examples *)

(** A pinch that spreads two fingers from 100 to 120 apart zooms from 1 to
    [1 + 0.2 * 0.91]; spreading on to 320 stops at [maxZoom]. *)
Example pinch_out_example :
  let move e := _handlePanResponderMove exampleHelpers defaultProps 1000 e
                  (gesture 2 0 0 150 100 0 0) in
  let c1 := snd (move (twoTouches 100 100 200 100) exampleView) in
  let c2 := snd (move (twoTouches 100 100 220 100) c1) in
  let c3 := snd (move (twoTouches 100 100 420 100) c2) in
  gestureType c1 = Some pinch /\ zoomLevel c1 == 1 /\
  1 < zoomLevel c2 /\ zoomLevel c2 < 12 # 10 /\ zoomLevel c3 == 3 # 2 /\
  zoomAnim c3 == 3 # 2.
Proof. vm_compute. repeat split; reflexivity. Qed.

(** Two taps 100 ms apart are a double tap: the second one starts the zoom
    to the next step, centered on the tap. *)
Example double_tap_example :
  let tap now := _handlePanResponderEnd exampleHelpers defaultProps now
                   (oneTouch 100 100) (gesture 0 0 0 100 100 0 0) in
  let c1 := tap 1000%Z exampleView in
  let c2 := tap 1100%Z c1 in
  zoomStarts (trace c1) = [] /\
  zoomStarts (trace c2) = [(3 # 2, Some {| x := 100; y := 100 |})] /\
  zoomLevel c2 = zoomLevel exampleView.
Proof. vm_compute. repeat split; reflexivity. Qed.

(** After a gesture, a frame of the momentum animation that leaves the pan
    boundaries starts the boundary animation back to them. *)
Example boundary_animation_example :
  let c := panAnim_setValue exampleHelpers defaultProps {| x := 31; y := 0 |}
             exampleView in
  boundaryStarts (trace c) = [(AxisX, 0 # 2)] /\
  boundaryCrossedAnimInEffect (offsets_x c) = true.
Proof. vm_compute. repeat split; reflexivity. Qed.

(** * Further properties *)

(** ** Bookkeeping frames *)

Lemma kept_refl c : kept c c.
Proof. now constructor. Qed.

Lemma kept_trans c0 c c' : kept c0 c -> kept c c' -> kept c0 c'.
Proof. intros [] []; constructor; congruence. Qed.

(** [R c0 (f c)] from [R c0 c], with the step [L : R c (f c)]. *)
Ltac after trans L := eapply trans; [ | apply L ].

Ltac plainly_kept := intros; constructor; reflexivity.

Section Bookkeeping.

Context (H : Helpers) (props : ReactNativeZoomableViewProps).

Lemma emit_kept e c : kept c (emit e c).
Proof. plainly_kept. Qed.

Lemma ask_kept cb e gs c : kept c (snd (ask props cb e gs c)).
Proof. unfold ask. destruct (callback props cb); plainly_kept. Qed.

Lemma invoke_kept cb e gs c : kept c (invoke props cb e gs c).
Proof. apply ask_kept. Qed.

Lemma set_offsetState_kept axis o c : kept c (set_offsetState axis o c).
Proof. destruct axis; plainly_kept. Qed.

Lemma __setOffset_kept axis offset c :
  kept c (__setOffset H props axis offset c).
Proof.
  unfold __setOffset.
  destruct (bindToBorders props); [ | apply set_offsetState_kept].
  destruct (_ && _); [ | apply set_offsetState_kept].
  destruct (boundariesApplied _ _); [ | apply set_offsetState_kept].
  after kept_trans emit_kept. apply set_offsetState_kept.
Qed.

Lemma boundaryCrossedAnimEnd_kept axis c :
  kept c (boundaryCrossedAnimEnd axis c).
Proof. apply set_offsetState_kept. Qed.

Lemma onTransformListener_kept c : kept c (onTransformListener c).
Proof.
  unfold onTransformListener, _invokeOnTransform.
  destruct (onTransformInvocationInitialized c); [ | apply kept_refl].
  destruct (_ || _); plainly_kept.
Qed.

Lemma panAnimListeners_kept c : kept c (panAnimListeners H props c).
Proof.
  unfold panAnimListeners, set_offsetX, set_offsetY. cbv zeta.
  after kept_trans onTransformListener_kept.
  after kept_trans __setOffset_kept.
  apply __setOffset_kept.
Qed.

Lemma set_panAnim_kept v c : kept c (set_panAnim v c).
Proof. plainly_kept. Qed.

Lemma panAnim_setValue_kept v c : kept c (panAnim_setValue H props v c).
Proof.
  unfold panAnim_setValue. cbv zeta.
  after kept_trans panAnimListeners_kept.
  after kept_trans set_panAnim_kept.
  after kept_trans boundaryCrossedAnimEnd_kept.
  after kept_trans panAnimListeners_kept.
  after kept_trans set_panAnim_kept.
  apply boundaryCrossedAnimEnd_kept.
Qed.

Lemma zoomAnim_setValue_kept v c : kept c (zoomAnim_setValue v c).
Proof.
  unfold zoomAnim_setValue, zoomAnimListeners.
  after kept_trans onTransformListener_kept. plainly_kept.
Qed.

Lemma raisePin_kept c : kept c (raisePin props c).
Proof. unfold raisePin. destruct (negb _); plainly_kept. Qed.

Lemma dropPin_kept c : kept c (dropPin props c).
Proof. unfold dropPin. destruct (negb _); plainly_kept. Qed.

Lemma _updateStaticPin_kept c : kept c (_updateStaticPin H props c).
Proof.
  unfold _updateStaticPin. destruct (_staticPinPosition H props c);
    plainly_kept.
Qed.

Lemma zoomTo_kept z zc c : kept c (snd (zoomTo props z zc c)).
Proof.
  rewrite zoomTo_unfold. destruct (_ || _ || _); [apply kept_refl | ].
  cbn [snd]. after kept_trans invoke_kept. after kept_trans emit_kept.
  apply invoke_kept.
Qed.

Lemma _setNewOffsetPosition_kept nx ny c :
  kept c (_setNewOffsetPosition H props nx ny c).
Proof.
  unfold _setNewOffsetPosition.
  rewrite (surjective_pairing (ask props onShiftingBefore None None c)).
  destruct (fst _); [apply ask_kept | ].
  unfold set_offsetX, set_offsetY.
  after kept_trans invoke_kept.
  after kept_trans zoomAnim_setValue_kept.
  after kept_trans panAnim_setValue_kept.
  after kept_trans __setOffset_kept.
  after kept_trans __setOffset_kept.
  apply ask_kept.
Qed.

End Bookkeeping.

(** ** Offsets that are stored as given *)

Section Storing.

Context (H : Helpers) (props : ReactNativeZoomableViewProps).

(** What [__setOffset] leaves when it stores. *)
Lemma __setOffset_stores axis offset c :
  bindToBorders props = false \/ gestureType c <> None \/
  boundaryCrossedAnimInEffect (offsetStateOf axis c) = true \/
  boundariesApplied (boundOffsetOf H props axis offset c) offset = false ->
  __setOffset H props axis offset c =
  set_offsetState axis
    {| value := offset;
       boundaryCrossedAnimInEffect :=
         boundaryCrossedAnimInEffect (offsetStateOf axis c) |} c.
Proof.
  unfold __setOffset. intros [B | [G | [F | A]]].
  - now rewrite B.
  - destruct (bindToBorders props); [ | reflexivity].
    destruct (gestureType c); [reflexivity | congruence].
  - rewrite F, andb_false_r. now destruct (bindToBorders props).
  - rewrite A. destruct (bindToBorders props); [ | reflexivity].
    now destruct (_ && _).
Qed.

Lemma stores_freely_stores axis offset c :
  stores_freely props c ->
  __setOffset H props axis offset c =
  set_offsetState axis
    {| value := offset;
       boundaryCrossedAnimInEffect :=
         boundaryCrossedAnimInEffect (offsetStateOf axis c) |} c.
Proof. intros [B | G]; apply __setOffset_stores; auto. Qed.

Lemma stores_freely_steady c c' :
  steady c c' -> stores_freely props c -> stores_freely props c'.
Proof.
  intros (_ & _ & G) [B | N]; [now left | right]. now rewrite G.
Qed.

Lemma __setOffset_panAnim axis offset c :
  panAnim (__setOffset H props axis offset c) = panAnim c /\
  zoomAnim (__setOffset H props axis offset c) = zoomAnim c.
Proof.
  unfold __setOffset.
  destruct (bindToBorders props); [ | now destruct axis].
  destruct (_ && _); [ | now destruct axis].
  destruct (boundariesApplied _ _); now destruct axis.
Qed.

(** An assignment to one axis leaves the other axis alone. *)
Lemma __setOffset_other_axis axis axis' offset c :
  axis <> axis' ->
  offsetStateOf axis' (__setOffset H props axis offset c) =
  offsetStateOf axis' c.
Proof.
  intros N. unfold __setOffset.
  destruct (bindToBorders props);
    [ | destruct axis, axis'; reflexivity || congruence].
  destruct (_ && _); [ | destruct axis, axis'; reflexivity || congruence].
  destruct (boundariesApplied _ _);
    destruct axis, axis'; reflexivity || congruence.
Qed.

(** The listener of [panAnim] copies both numbers into the offsets. *)
Lemma panAnimListeners_free c :
  stores_freely props c ->
  let c' := panAnimListeners H props c in
  offsetX c' = x (panAnim c) /\ offsetY c' = y (panAnim c) /\
  panAnim c' = panAnim c /\ zoomAnim c' = zoomAnim c.
Proof.
  intros F. unfold panAnimListeners. cbv zeta.
  unfold set_offsetX, set_offsetY.
  set (c1 := __setOffset H props AxisX (x (panAnim c)) c).
  assert (E1 : c1 = set_offsetState AxisX
                      {| value := x (panAnim c);
                         boundaryCrossedAnimInEffect :=
                           boundaryCrossedAnimInEffect (offsetStateOf AxisX c) |}
                      c)
    by (apply stores_freely_stores, F).
  assert (F1 : stores_freely props c1)
    by (apply (stores_freely_steady c); [apply __setOffset_steady | exact F]).
  set (c2 := __setOffset H props AxisY (y (panAnim c)) c1).
  assert (E2 : c2 = set_offsetState AxisY
                      {| value := y (panAnim c);
                         boundaryCrossedAnimInEffect :=
                           boundaryCrossedAnimInEffect (offsetStateOf AxisY c1) |}
                      c1)
    by (apply stores_freely_stores, F1).
  destruct (onTransformListener_quiet c2) as [[_ _ Ez Ep Ex Ey] _].
  rewrite Ex, Ey, Ep, Ez, E2, E1. repeat split; reflexivity.
Qed.

(** [panAnim.setValue(v)] while offsets are stored as given. *)
Lemma panAnim_setValue_free v c :
  stores_freely props c ->
  let c' := panAnim_setValue H props v c in
  offsetX c' = x v /\ offsetY c' = y v /\ panAnim c' = v /\
  zoomAnim c' = zoomAnim c.
Proof.
  intros F. unfold panAnim_setValue. cbv zeta.
  set (c1 := boundaryCrossedAnimEnd AxisX c).
  set (c2 := set_panAnim {| x := x v; y := y (panAnim c1) |} c1).
  assert (F2 : stores_freely props c2)
    by (destruct F as [B | G]; [now left | now right]).
  destruct (panAnimListeners_free c2 F2) as (_ & _ & P3 & Z3).
  pose proof (panAnimListeners_steady H props c2) as S3.
  set (c3 := panAnimListeners H props c2) in *.
  set (c4 := boundaryCrossedAnimEnd AxisY c3).
  set (c5 := set_panAnim {| x := x (panAnim c4); y := y v |} c4).
  assert (F5 : stores_freely props c5).
  { apply (stores_freely_steady c2); [ | exact F2].
    eapply steady_trans; [exact S3 | ]. subst c5 c4. now repeat split. }
  assert (P5 : panAnim c5 = v).
  { change (panAnim c5) with {| x := x (panAnim c3); y := y v |}.
    rewrite P3.
    change (panAnim c2) with {| x := x v; y := y (panAnim c1) |}.
    cbn [x]. now destruct v. }
  assert (Z5 : zoomAnim c5 = zoomAnim c).
  { change (zoomAnim c5) with (zoomAnim c3). rewrite Z3. reflexivity. }
  clearbody c5.
  destruct (panAnimListeners_free c5 F5) as (X6 & Y6 & P6 & Z6).
  rewrite X6, Y6, P6, Z6, P5, Z5. repeat split; reflexivity.
Qed.

Lemma ask_event_quiet cb e gs c c' :
  quiet c c' ->
  fst (ask props cb e gs c') = fst (ask props cb e gs c).
Proof.
  intros [[Es Ez _ _ Ex Ey] _]. unfold ask.
  destruct (callback props cb); [ | reflexivity]. cbn [fst].
  unfold _getZoomableViewEventObject. now rewrite Es, Ez, Ex, Ey.
Qed.

(** [_setNewOffsetPosition] while offsets are stored as given: the offsets
    are the new ones, and the animated values mirror the transform. *)
Lemma _setNewOffsetPosition_free nx ny c :
  shift_vetoed props c = false ->
  stores_freely props c ->
  let c' := _setNewOffsetPosition H props nx ny c in
  offsetX c' = nx /\ offsetY c' = ny /\
  panAnim c' = {| x := nx; y := ny |} /\
  zoomLevel c' = zoomLevel c /\ zoomAnim c' = zoomLevel c.
Proof.
  unfold shift_vetoed. intros V F. unfold _setNewOffsetPosition.
  rewrite (surjective_pairing (ask props onShiftingBefore None None c)), V.
  pose proof (ask_quiet props onShiftingBefore None None c) as Q0.
  set (c0 := snd (ask props onShiftingBefore None None c)) in *.
  assert (F0 : stores_freely props c0)
    by (apply (stores_freely_steady c); [apply quiet_steady, Q0 | exact F]).
  assert (Z0 : zoomLevel c0 = zoomLevel c) by (now destruct Q0 as [[] _]).
  clearbody c0. cbv zeta. unfold set_offsetX, set_offsetY.
  pose proof (stores_freely_stores AxisX nx c0 F0) as E1.
  pose proof (__setOffset_steady H props AxisX nx c0) as S1.
  set (c1 := __setOffset H props AxisX nx c0) in *.
  assert (F1 : stores_freely props c1)
    by (apply (stores_freely_steady c0); assumption).
  pose proof (stores_freely_stores AxisY ny c1 F1) as E2.
  pose proof (__setOffset_steady H props AxisY ny c1) as S2.
  set (c2 := __setOffset H props AxisY ny c1) in *.
  assert (F2 : stores_freely props c2)
    by (apply (stores_freely_steady c1); assumption).
  assert (X2 : offsetX c2 = nx) by (rewrite E2, E1; reflexivity).
  assert (Y2 : offsetY c2 = ny) by (rewrite E2; reflexivity).
  rewrite X2, Y2.
  destruct (panAnim_setValue_free {| x := nx; y := ny |} c2 F2)
    as (X3 & Y3 & P3 & _).
  pose proof (panAnim_setValue_steady H props {| x := nx; y := ny |} c2) as S3.
  set (c3 := panAnim_setValue H props {| x := nx; y := ny |} c2) in *.
  assert (Z3 : zoomLevel c3 = zoomLevel c).
  { destruct S3 as (_ & -> & _). destruct S2 as (_ & -> & _).
    destruct S1 as (_ & -> & _). exact Z0. }
  destruct (invoke_quiet props onShiftingAfter None None
              (zoomAnim_setValue (zoomLevel c3) c3))
    as [[_ -> -> -> -> ->] _].
  rewrite zoomAnim_setValue_zoomLevel, zoomAnim_setValue_zoomAnim, Z3.
  unfold zoomAnim_setValue, zoomAnimListeners.
  destruct (onTransformListener_quiet
              (set_zoomLevel (zoomAnim (set_zoomAnim (zoomLevel c) c3))
                 (set_zoomAnim (zoomLevel c) c3)))
    as [[_ _ _ -> -> ->] _].
  cbn [offsetX offsetY __getOffset offsetStateOf offsets_x offsets_y panAnim
       set_zoomLevel set_zoomAnim].
  repeat split; assumption.
Qed.

End Storing.

(** ** The constructor and offset assignments *)

Lemma boundariesApplied_same (v : number) : boundariesApplied v v = false.
Proof. apply boundariesApplied_false. left. reflexivity. Qed.

Lemma boundOffsetOf_unbound H props axis offset c :
  panBoundaryPadding props = None \/
  containerSizeOf axis c == 0 \/ contentSizeOf props axis c == 0 ->
  boundOffsetOf H props axis offset c = offset.
Proof.
  unfold boundOffsetOf. intros [-> | [E | E]]; [reflexivity | | ];
    apply truthy_false in E; rewrite E;
    destruct (panBoundaryPadding props); rewrite ?andb_false_r; reflexivity.
Qed.

(** The fields after the constructor. *)
Lemma construct_fields
    (H : Helpers) (props : ReactNativeZoomableViewProps) :
  let c := construct H props in
  trace c = [] /\
  zoomLevel c = match initialZoom props with
                | Some z => if truthy z then z else 1
                | None => 1
                end /\
  offsetX c = match initialOffsetX props with Some v => v | None => 0 end /\
  offsetY c = match initialOffsetY props with Some v => v | None => 0 end /\
  panAnim c = {| x := offsetX c; y := offsetY c |} /\
  zoomAnim c = zoomLevel c /\
  gestureType c = None /\ gestureStarted c = false /\
  lastGestureTouchDistance c = Some 150 /\
  state c = initialState.
Proof.
  cbv zeta. unfold construct, set_offsetX, set_offsetY.
  set (c0 := mkView initialState _ _ _ _ _ _ _ _ _ _ _ _ _ _ _ _).
  set (c1 := match initialZoom props with
             | Some z => if truthy z then set_zoomLevel z c0 else c0
             | None => c0
             end).
  assert (S1 : state c1 = initialState /\ trace c1 = [] /\
               offsets_x c1 = offsets_x c0 /\ offsets_y c1 = offsets_y c0 /\
               gestureType c1 = None /\ gestureStarted c1 = false /\
               zoomLevel c1 = match initialZoom props with
                              | Some z => if truthy z then z else 1
                              | None => 1
                              end).
  { subst c1. destruct (initialZoom props) as [z|];
      [destruct (truthy z) | ]; repeat split; reflexivity. }
  destruct S1 as (S1 & T1 & X1 & Y1 & G1 & GS1 & Z1).
  clearbody c1.
  assert (stored : forall axis v c,
             state c = initialState ->
             __setOffset H props axis v c =
             set_offsetState axis
               {| value := v;
                  boundaryCrossedAnimInEffect :=
                    boundaryCrossedAnimInEffect (offsetStateOf axis c) |} c).
  { intros axis v c Sc. apply __setOffset_stores. do 3 right.
    rewrite boundOffsetOf_unbound; [apply boundariesApplied_same | ].
    right; left. unfold containerSizeOf. rewrite Sc.
    destruct axis; reflexivity. }
  set (c2 := match initialOffsetX props with
             | Some v => __setOffset H props AxisX v c1
             | None => c1
             end).
  assert (S2 : state c2 = initialState /\ trace c2 = [] /\
               offsets_y c2 = offsets_y c0 /\
               gestureType c2 = None /\ gestureStarted c2 = false /\
               zoomLevel c2 = zoomLevel c1 /\
               offsetX c2 = match initialOffsetX props with
                            | Some v => v
                            | None => 0
                            end).
  { subst c2. destruct (initialOffsetX props) as [v|].
    - rewrite (stored AxisX v c1 S1). cbn. repeat split; trivial.
    - unfold offsetX, __getOffset. cbn [offsetStateOf]. rewrite X1.
      repeat split; trivial. }
  destruct S2 as (S2 & T2 & Y2 & G2 & GS2 & Z2 & X2).
  clearbody c2.
  set (c3 := match initialOffsetY props with
             | Some v => __setOffset H props AxisY v c2
             | None => c2
             end).
  assert (S3 : state c3 = initialState /\ trace c3 = [] /\
               gestureType c3 = None /\ gestureStarted c3 = false /\
               zoomLevel c3 = zoomLevel c2 /\ offsetX c3 = offsetX c2 /\
               offsetY c3 = match initialOffsetY props with
                            | Some v => v
                            | None => 0
                            end).
  { subst c3. destruct (initialOffsetY props) as [v|].
    - rewrite (stored AxisY v c2 S2). cbn. repeat split; trivial.
    - unfold offsetY, __getOffset. cbn [offsetStateOf]. rewrite Y2.
      repeat split; trivial. }
  destruct S3 as (S3 & T3 & G3 & GS3 & Z3 & X3 & Y3).
  clearbody c3.
  split; [exact T3 | ].
  split; [exact (eq_trans Z3 (eq_trans Z2 Z1)) | ].
  split; [exact (eq_trans X3 X2) | ].
  split; [exact Y3 | ].
  split; [reflexivity | ].
  split; [reflexivity | ].
  split; [exact G3 | ].
  split; [exact GS3 | ].
  split; [reflexivity | exact S3].
Qed.

(** X1.  The constructor takes [initialZoom] (1 when it is absent or zero)
    and the initial offsets (0 when absent) as they are, whatever
    [bindToBorders] and the helpers say: nothing is measured yet, so no
    offset is clamped and no animation is started.  The animated values
    mirror them and no gesture is in progress. *)
Theorem constructor_initial_transform
    (H : Helpers) (props : ReactNativeZoomableViewProps) :
  let c := construct H props in
  trace c = [] /\
  zoomLevel c = match initialZoom props with
                | Some z => if truthy z then z else 1
                | None => 1
                end /\
  offsetX c = match initialOffsetX props with Some v => v | None => 0 end /\
  offsetY c = match initialOffsetY props with Some v => v | None => 0 end /\
  panAnim c = {| x := offsetX c; y := offsetY c |} /\
  zoomAnim c = zoomLevel c /\
  gestureType c = None /\ gestureStarted c = false /\
  lastGestureTouchDistance c = Some 150 /\
  state c = initialState.
Proof. exact (construct_fields H props). Qed.

Lemma construct_mirrored H props : mirrored (construct H props).
Proof.
  destruct (construct_fields H props) as (_ & _ & _ & _ & P & Z & _).
  split; assumption.
Qed.

(** X2.  While the borders do not bind - [bindToBorders] is off, or
    [panBoundaryPadding] is null, or the container or the content has no
    size yet - an assignment to [offsetX] or [offsetY] stores the offset as
    it is given and starts no animation. *)
Theorem setOffset_stores_while_unbound
    (H : Helpers) (props : ReactNativeZoomableViewProps)
    (axis : Axis) (offset : number) (c : ZoomableView) :
  bindToBorders props = false \/ panBoundaryPadding props = None \/
  containerSizeOf axis c == 0 \/ contentSizeOf props axis c == 0 ->
  let c' := __setOffset H props axis offset c in
  __getOffset axis c' = offset /\
  boundaryCrossedAnimInEffect (offsetStateOf axis c') =
    boundaryCrossedAnimInEffect (offsetStateOf axis c) /\
  trace c' = trace c.
Proof.
  intros U. cbv zeta. rewrite __setOffset_stores.
  - rewrite __getOffset_set_offsetState, offsetStateOf_set_offsetState,
      trace_set_offsetState. repeat split; reflexivity.
  - destruct U as [B | U]; [now left | do 3 right].
    rewrite boundOffsetOf_unbound; [apply boundariesApplied_same | exact U].
Qed.

Lemma setOffset_stores_while_unbound_witness :
  let c := construct exampleHelpers defaultProps in
  (bindToBorders defaultProps = false \/
   panBoundaryPadding defaultProps = None \/
   containerSizeOf AxisX c == 0 \/ contentSizeOf defaultProps AxisX c == 0) /\
  let c' := __setOffset exampleHelpers defaultProps AxisX 1000 c in
  __getOffset AxisX c' = 1000 /\
  boundaryCrossedAnimInEffect (offsetStateOf AxisX c') =
    boundaryCrossedAnimInEffect (offsetStateOf AxisX c) /\
  trace c' = trace c.
Proof.
  split; [right; right; left; reflexivity | ].
  apply (setOffset_stores_while_unbound exampleHelpers defaultProps AxisX 1000
           (construct exampleHelpers defaultProps)).
  right; right; left; reflexivity.
Defined.

(** X3.  An assignment to the offset of one axis never touches the other
    axis (its offset and its animation flag), the zoom level, the animated
    values, the measurements, the kind of gesture or the bookkeeping of
    gestures and taps. *)
Theorem setOffset_touches_one_axis
    (H : Helpers) (props : ReactNativeZoomableViewProps)
    (offset : number) (c : ZoomableView) :
  offsets_y (__setOffset H props AxisX offset c) = offsets_y c /\
  offsets_x (__setOffset H props AxisY offset c) = offsets_x c /\
  forall axis,
    let c' := __setOffset H props axis offset c in
    zoomLevel c' = zoomLevel c /\ zoomAnim c' = zoomAnim c /\
    panAnim c' = panAnim c /\ state c' = state c /\
    gestureType c' = gestureType c /\ kept c c'.
Proof.
  split; [ | split].
  - apply (__setOffset_other_axis H props AxisX AxisY); discriminate.
  - apply (__setOffset_other_axis H props AxisY AxisX); discriminate.
  - intros axis. cbv zeta.
    destruct (__setOffset_steady H props axis offset c) as (S & Z & G).
    destruct (__setOffset_panAnim H props axis offset c) as (P & ZA).
    repeat split; trivial; apply __setOffset_kept.
Qed.

(** ** Pan steps *)

Lemma pan_blocked_true props c :
  negb (panEnabled props) ||
  (disablePanOnInitialZoom props &&
   strictEqO (zoomLevel c) (initialZoom props)) = true
  <-> pan_blocked props c.
Proof.
  unfold pan_blocked, strictEqO, strictEq.
  rewrite orb_true_iff, andb_true_iff, negb_true_iff. split.
  - intros [P | [D Z]]; [now left | right]. split; [exact D | ].
    destruct (initialZoom props) as [z0|]; [ | discriminate].
    apply Qeq_bool_iff in Z. eauto.
  - intros [P | (D & z0 & E & Z)]; [now left | right].
    rewrite E, Qeq_bool_iff. auto.
Qed.

Lemma pan_blocked_zoomLevel props c c' :
  zoomLevel c' = zoomLevel c -> pan_blocked props c' <-> pan_blocked props c.
Proof. intros E. unfold pan_blocked. now rewrite E. Qed.

(** X4.  A pan step that is not blocked or vetoed, taken at a zoom level
    that is not 0 while offsets are stored as given (during a gesture, or
    with [bindToBorders] off), moves each offset by the displacement of the
    finger since the last gesture state, divided by the zoom level and by
    [movementSensibility]; the animated pan value follows, the zoom level
    stays, and the finger position is remembered for the next step. *)
Theorem shift_follows_the_finger
    (H : Helpers) (props : ReactNativeZoomableViewProps)
    (gs : PanResponderGestureState) (c : ZoomableView)
    (last : Vec2D) (ms : number) :
  ~ pan_blocked props c ->
  lastGestureCenterPosition c = Some last ->
  movementSensibility props = Some ms -> ~ ms == 0 ->
  ~ zoomLevel c == 0 ->
  shift_vetoed props c = false ->
  stores_freely props c ->
  let c' := _handleShifting H props gs c in
  offsetX c' = offsetX c + (moveX gs - x last) / zoomLevel c / ms /\
  offsetY c' = offsetY c + (moveY gs - y last) / zoomLevel c / ms /\
  panAnim c' = {| x := offsetX c'; y := offsetY c' |} /\
  zoomLevel c' = zoomLevel c /\ zoomAnim c' = zoomLevel c /\
  lastGestureCenterPosition c' = Some {| x := moveX gs; y := moveY gs |}.
Proof.
  intros NB L M Mnz _ V F. cbv zeta. unfold _handleShifting.
  destruct (negb (panEnabled props) || _) eqn:B;
    [apply pan_blocked_true in B; contradiction | ].
  unfold _calcOffsetShiftSinceLastGestureState. rewrite L, M.
  apply truthy_true in Mnz. rewrite Mnz. cbv zeta. cbn [x y].
  set (p := {| x := moveX gs; y := moveY gs |}).
  set (c1 := set_lastGestureCenterPosition (Some p) c).
  change (offsetX c1) with (offsetX c).
  change (offsetY c1) with (offsetY c).
  change (zoomLevel c1) with (zoomLevel c).
  set (nx := offsetX c + (moveX gs - x last) / zoomLevel c / ms).
  set (ny := offsetY c + (moveY gs - y last) / zoomLevel c / ms).
  set (c2 := if debug props && _ && _ then emit _ c1 else c1).
  assert (Q2 : quiet c c2 /\ lastGestureCenterPosition c2 = Some p).
  { subst c2. destruct (_ && _ && _); split;
      reflexivity || (repeat split; reflexivity). }
  destruct Q2 as [Q2 L2]. clearbody c2.
  assert (V2 : shift_vetoed props c2 = false).
  { unfold shift_vetoed. rewrite (ask_event_quiet props _ _ _ c c2 Q2).
    exact V. }
  assert (F2 : stores_freely props c2)
    by (apply (stores_freely_steady props c); [apply quiet_steady, Q2 | exact F]).
  destruct (_setNewOffsetPosition_free H props nx ny c2 V2 F2)
    as (X3 & Y3 & P3 & Z3 & ZA3).
  pose proof (_setNewOffsetPosition_kept H props nx ny c2) as K3.
  set (c3 := _setNewOffsetPosition H props nx ny c2) in *.
  destruct (raisePin_quiet props c3) as [[_ -> -> -> -> ->] _].
  destruct (raisePin_kept props c3) as [_ _ _ _ _ _ _ -> _].
  destruct K3 as [_ _ _ _ _ _ _ -> _].
  destruct Q2 as [[_ Z2 _ _ _ _] _].
  rewrite X3, Y3, P3, Z3, ZA3, Z2, L2. repeat split; reflexivity.
Qed.

Lemma shift_follows_the_finger_witness :
  let c := set_lastGestureCenterPosition (Some {| x := 100; y := 100 |})
             (viewDuring shift defaultProps) in
  let gs := gesture 1 30 10 130 110 0 0 in
  let last := {| x := 100; y := 100 |} in
  let ms := 1 in
  ~ pan_blocked defaultProps c /\
  lastGestureCenterPosition c = Some last /\
  movementSensibility defaultProps = Some ms /\ ~ ms == 0 /\
  ~ zoomLevel c == 0 /\
  shift_vetoed defaultProps c = false /\
  stores_freely defaultProps c /\
  let c' := _handleShifting exampleHelpers defaultProps gs c in
  offsetX c' = offsetX c + (moveX gs - x last) / zoomLevel c / ms /\
  offsetY c' = offsetY c + (moveY gs - y last) / zoomLevel c / ms /\
  panAnim c' = {| x := offsetX c'; y := offsetY c' |} /\
  zoomLevel c' = zoomLevel c /\ zoomAnim c' = zoomLevel c /\
  lastGestureCenterPosition c' = Some {| x := moveX gs; y := moveY gs |}.
Proof.
  cbv zeta.
  assert (NB : ~ pan_blocked defaultProps
                 (set_lastGestureCenterPosition
                    (Some {| x := 100; y := 100 |})
                    (viewDuring shift defaultProps)))
    by (intros [E | [E _]]; discriminate E).
  assert (N1 : ~ 1 == 0) by (vm_compute; discriminate).
  assert (F : stores_freely defaultProps
                (set_lastGestureCenterPosition
                   (Some {| x := 100; y := 100 |})
                   (viewDuring shift defaultProps)))
    by (right; discriminate).
  assert (Znz : ~ zoomLevel
                    (set_lastGestureCenterPosition
                       (Some {| x := 100; y := 100 |})
                       (viewDuring shift defaultProps)) == 0)
    by (vm_compute; discriminate).
  split; [exact NB | ]. split; [reflexivity | ]. split; [reflexivity | ].
  split; [exact N1 | ]. split; [exact Znz | ].
  split; [reflexivity | ]. split; [exact F | ].
  apply (shift_follows_the_finger exampleHelpers defaultProps
           (gesture 1 30 10 130 110 0 0)
           (set_lastGestureCenterPosition (Some {| x := 100; y := 100 |})
              (viewDuring shift defaultProps))
           {| x := 100; y := 100 |} 1);
    [exact NB | reflexivity | reflexivity | exact N1 | exact Znz
    | reflexivity | exact F].
Defined.

(** X5.  A pan step that is blocked ([panEnabled] off, or
    [disablePanOnInitialZoom] at the initial zoom level) leaves the component
    exactly as it is.  One that is not blocked but has no last gesture
    position to compare with, or a [movementSensibility] of null or 0, moves
    nothing either: it only remembers the finger position. *)
Theorem shift_without_reference_only_remembers
    (H : Helpers) (props : ReactNativeZoomableViewProps)
    (gs : PanResponderGestureState) (c : ZoomableView) :
  (pan_blocked props c -> _handleShifting H props gs c = c) /\
  (~ pan_blocked props c ->
   lastGestureCenterPosition c = None \/ movementSensibility props = None \/
   (exists ms, movementSensibility props = Some ms /\ ms == 0) ->
   _handleShifting H props gs c =
   set_lastGestureCenterPosition
     (Some {| x := moveX gs; y := moveY gs |}) c).
Proof.
  unfold _handleShifting. split.
  - intros B. apply pan_blocked_true in B. now rewrite B.
  - intros NB R.
    destruct (negb (panEnabled props) || _) eqn:B;
      [apply pan_blocked_true in B; contradiction | ].
    unfold _calcOffsetShiftSinceLastGestureState.
    destruct R as [-> | [-> | (ms & -> & Z)]].
    + reflexivity.
    + now destruct (lastGestureCenterPosition c).
    + apply truthy_false in Z. rewrite Z.
      now destruct (lastGestureCenterPosition c).
Qed.

(** ** The start of a gesture *)

Lemma _handlePanResponderGrant_fields props e gs c :
  let c' := _handlePanResponderGrant props e gs c in
  gestureStarted c' = true /\
  longPressTimeout c' =
    match callback props onLongPress with
    | Some _ => Some (LongPressTimer (longPressDuration props))
    | None => longPressTimeout c
    end /\
  lastGestureTouchDistance c' = lastGestureTouchDistance c /\
  lastGestureCenterPosition c' = lastGestureCenterPosition c /\
  tapsKept (set_longPressTimeout (longPressTimeout c')
              (set_gestureStarted true c)) c' /\
  boundaryCrossedAnimInEffect (offsets_x c') = false /\
  boundaryCrossedAnimInEffect (offsets_y c') = false /\
  animationStops (trace c') = ZoomAnim :: PanAnim :: animationStops (trace c).
Proof.
  cbv zeta.
  unfold _handlePanResponderGrant, raisePin, zoomAnim_stopAnimation,
    panAnim_stopAnimation, invoke, ask.
  destruct (callback props onLongPress),
    (callback props onPanResponderGrant), (animatePin props);
    repeat split; reflexivity.
Qed.

(** X6.  When a touch is granted the gesture is marked as started, the
    animations of the pan and of the zoom value are stopped (and with them
    a boundary animation), and a long-press timer is armed exactly when the
    [onLongPress] prop is given.  The transform, the kind of gesture and
    the taps on record are as before. *)
Theorem grant_starts_the_gesture
    (props : ReactNativeZoomableViewProps) (e : GestureResponderEvent)
    (gs : PanResponderGestureState) (c : ZoomableView) :
  let c' := _handlePanResponderGrant props e gs c in
  gestureStarted c' = true /\
  animationStops (trace c') = ZoomAnim :: PanAnim :: animationStops (trace c) /\
  boundaryCrossedAnimInEffect (offsets_x c') = false /\
  boundaryCrossedAnimInEffect (offsets_y c') = false /\
  (callback props onLongPress = None ->
   longPressTimeout c' = longPressTimeout c) /\
  (callback props onLongPress <> None ->
   longPressTimeout c' = Some (LongPressTimer (longPressDuration props))) /\
  quiet c c' /\
  touches c' = touches c /\
  doubleTapFirstTap c' = doubleTapFirstTap c /\
  doubleTapFirstTapReleaseTimestamp c' = doubleTapFirstTapReleaseTimestamp c.
Proof.
  cbv zeta.
  destruct (_handlePanResponderGrant_fields props e gs c)
    as (G & L & _ & _ & [_ _ _ T D DT] & FX & FY & A).
  repeat match goal with |- _ /\ _ => split end; trivial.
  - intros N. now rewrite L, N.
  - intros N. rewrite L. destruct (callback props onLongPress); congruence.
  - apply _handlePanResponderGrant_quiet.
Qed.

(** ** The shape of a move *)

Lemma clearLongPressTimeout_fields c :
  let c' := clearLongPressTimeout c in
  longPressTimeout c' = None /\
  gestureStarted c' = gestureStarted c /\
  lastGestureTouchDistance c' = lastGestureTouchDistance c /\
  lastGestureCenterPosition c' = lastGestureCenterPosition c.
Proof.
  cbv zeta. unfold clearLongPressTimeout.
  destruct (longPressTimeout c) eqn:E; repeat split; trivial.
Qed.

Lemma move_two_touches H props now e gs c :
  move_claimed props e gs c = false ->
  numberActiveTouches gs = 2%nat ->
  exists c1,
    quiet c c1 /\ gestureStarted c1 = true /\ longPressTimeout c1 = None /\
    (is_pinch (gestureType c) = true ->
     lastGestureTouchDistance c1 = lastGestureTouchDistance c /\
     lastGestureCenterPosition c1 = lastGestureCenterPosition c) /\
    (is_pinch (gestureType c) = false ->
     lastGestureTouchDistance c1 = calcGestureTouchDistance H e gs /\
     lastGestureCenterPosition c1 = calcGestureCenterPoint H e gs) /\
    _handlePanResponderMove H props now e gs c =
      (None, _handlePinching H props e gs (set_gestureType (Some pinch) c1)).
Proof.
  unfold move_claimed. intros V N.
  unfold _handlePanResponderMove.
  rewrite (surjective_pairing (ask props onPanResponderMove (Some e) (Some gs) c)).
  rewrite V, N. cbn [Nat.ltb Nat.leb Nat.eqb].
  pose proof (ask_quiet props onPanResponderMove (Some e) (Some gs) c) as Q0.
  pose proof (ask_kept props onPanResponderMove (Some e) (Some gs) c) as K0.
  set (c0 := snd (ask props onPanResponderMove (Some e) (Some gs) c)) in *.
  clearbody c0.
  set (c1 := if negb (gestureStarted c0)
             then _handlePanResponderGrant props e gs c0 else c0).
  assert (Q1 : quiet c c1 /\ gestureStarted c1 = true /\
               lastGestureTouchDistance c1 = lastGestureTouchDistance c /\
               lastGestureCenterPosition c1 = lastGestureCenterPosition c).
  { destruct K0 as [_ _ _ _ _ _ KD KC _]. subst c1.
    destruct (gestureStarted c0) eqn:S0; cbn [negb].
    - repeat split; try assumption; apply Q0.
    - destruct (_handlePanResponderGrant_fields props e gs c0)
        as (G & _ & D & C & _).
      split; [ | split; [exact G | split; congruence]].
      eapply quiet_trans; [exact Q0 | apply _handlePanResponderGrant_quiet]. }
  destruct Q1 as (Q1 & G1 & D1 & C1). clearbody c1.
  set (c2 := clearLongPressTimeout c1).
  assert (Q2 : quiet c c2 /\ gestureStarted c2 = true /\
               longPressTimeout c2 = None /\
               lastGestureTouchDistance c2 = lastGestureTouchDistance c /\
               lastGestureCenterPosition c2 = lastGestureCenterPosition c).
  { split; [eapply quiet_trans; [exact Q1 | apply clearLongPressTimeout_quiet] | ].
    subst c2. unfold clearLongPressTimeout.
    destruct (longPressTimeout c1) eqn:L1; repeat split; assumption. }
  destruct Q2 as (Q2 & G2 & L2 & D2 & C2). clearbody c2.
  assert (EG : gestureType c2 = gestureType c) by apply Q2.
  rewrite EG.
  eexists. split; [ | split; [ | split; [ | split; [ | split;
    [ | reflexivity]]]]].
  - destruct (negb (is_pinch (gestureType c)));
      [ | exact Q2].
    eapply quiet_trans; [exact Q2 | ]. repeat split; reflexivity.
  - now destruct (negb (is_pinch (gestureType c))).
  - now destruct (negb (is_pinch (gestureType c))).
  - intros ->. cbn [negb]. auto.
  - intros ->. cbn [negb]. split; reflexivity.
Qed.

Lemma move_one_touch H props now e gs c :
  move_claimed props e gs c = false ->
  numberActiveTouches gs = 1%nat ->
  exists c1,
    quiet c c1 /\ gestureStarted c1 = true /\
    lastGestureTouchDistance c1 = lastGestureTouchDistance c /\
    (5 < Qabs (dx gs) \/ 5 < Qabs (dy gs) -> longPressTimeout c1 = None) /\
    (Qabs (dx gs) <= 5 /\ Qabs (dy gs) <= 5 -> gestureStarted c = true ->
     longPressTimeout c1 = longPressTimeout c) /\
    (is_shift (gestureType c) = true ->
     lastGestureCenterPosition c1 = lastGestureCenterPosition c) /\
    (is_shift (gestureType c) = false ->
     lastGestureCenterPosition c1 = calcGestureCenterPoint H e gs) /\
    _handlePanResponderMove H props now e gs c =
      (None,
       if num_gt (Qabs (dx gs)) 2 || num_gt (Qabs (dy gs)) 2
       then _handleShifting H props gs (set_gestureType (Some shift) c1)
       else c1).
Proof.
  unfold move_claimed. intros V N.
  unfold _handlePanResponderMove.
  rewrite (surjective_pairing (ask props onPanResponderMove (Some e) (Some gs) c)).
  rewrite V, N. cbn [Nat.ltb Nat.leb Nat.eqb].
  pose proof (ask_quiet props onPanResponderMove (Some e) (Some gs) c) as Q0.
  pose proof (ask_kept props onPanResponderMove (Some e) (Some gs) c) as K0.
  set (c0 := snd (ask props onPanResponderMove (Some e) (Some gs) c)) in *.
  clearbody c0.
  set (c1 := if negb (gestureStarted c0)
             then _handlePanResponderGrant props e gs c0 else c0).
  assert (Q1 : quiet c c1 /\ gestureStarted c1 = true /\
               lastGestureTouchDistance c1 = lastGestureTouchDistance c /\
               lastGestureCenterPosition c1 = lastGestureCenterPosition c /\
               (gestureStarted c = true ->
                longPressTimeout c1 = longPressTimeout c)).
  { destruct K0 as [KS KL _ _ _ _ KD KC _]. subst c1.
    destruct (gestureStarted c0) eqn:S0; cbn [negb].
    - repeat split; try assumption; try apply Q0. intros _. exact KL.
    - destruct (_handlePanResponderGrant_fields props e gs c0)
        as (G & _ & D & C & _).
      split; [ | split; [exact G | split; [congruence | split;
        [congruence | intros S; congruence]]]].
      eapply quiet_trans; [exact Q0 | apply _handlePanResponderGrant_quiet]. }
  destruct Q1 as (Q1 & G1 & D1 & C1 & L1). clearbody c1.
  set (far := num_gt (Qabs (dx gs)) 5 || num_gt (Qabs (dy gs)) 5).
  set (c2 := if isSome (longPressTimeout c1) && far
             then clearLongPressTimeout c1 else c1).
  assert (Q2 : quiet c c2 /\ gestureStarted c2 = true /\
               lastGestureTouchDistance c2 = lastGestureTouchDistance c /\
               lastGestureCenterPosition c2 = lastGestureCenterPosition c /\
               (far = true -> longPressTimeout c2 = None) /\
               (far = false -> longPressTimeout c2 = longPressTimeout c1)).
  { destruct (clearLongPressTimeout_fields c1) as (LC & GC & DC & CC).
    subst c2. destruct (isSome (longPressTimeout c1) && far) eqn:B.
    - apply andb_true_iff in B. destruct B as [_ B].
      split; [eapply quiet_trans;
                [exact Q1 | apply clearLongPressTimeout_quiet] | ].
      repeat split; try congruence.
    - repeat split; try assumption; try apply Q1.
      intros Ef. rewrite Ef, andb_true_r in B.
      now destruct (longPressTimeout c1). }
  destruct Q2 as (Q2 & G2 & D2 & C2 & LF & LN). clearbody c2.
  assert (EG : gestureType c2 = gestureType c) by apply Q2.
  rewrite EG.
  exists (if negb (is_shift (gestureType c))
          then set_lastGestureCenterPosition (calcGestureCenterPoint H e gs) c2
          else c2).
  split; [ | split; [ | split; [ | split; [ | split; [ | split;
    [ | split]]]]]].
  - destruct (negb (is_shift (gestureType c))); [ | exact Q2].
    eapply quiet_trans; [exact Q2 | ]. repeat split; reflexivity.
  - now destruct (negb (is_shift (gestureType c))).
  - now destruct (negb (is_shift (gestureType c))).
  - intros T.
    assert (Ef : far = true).
    { subst far. apply orb_true_iff. rewrite !num_gt_true. exact T. }
    destruct (negb (is_shift (gestureType c))); apply LF, Ef.
  - intros [Tx Ty] S.
    assert (Ef : far = false).
    { subst far. apply orb_false_iff. rewrite !num_gt_false. auto. }
    destruct (negb (is_shift (gestureType c)));
      cbn [longPressTimeout set_lastGestureCenterPosition];
      rewrite (LN Ef); apply L1, S.
  - intros ->. exact C2.
  - intros ->. reflexivity.
  - now destruct (num_gt (Qabs (dx gs)) 2 || num_gt (Qabs (dy gs)) 2).
Qed.

(** ** Bookkeeping of the pan and pinch steps *)

Lemma tapsKept_refl c : tapsKept c c.
Proof. now constructor. Qed.

Lemma tapsKept_trans c0 c c' : tapsKept c0 c -> tapsKept c c' -> tapsKept c0 c'.
Proof. intros [] []; constructor; congruence. Qed.

Lemma kept_tapsKept c c' : kept c c' -> tapsKept c c'.
Proof. intros []; now constructor. Qed.

Lemma _handleShifting_tapsKept H props gs c :
  tapsKept c (_handleShifting H props gs c).
Proof.
  unfold _handleShifting.
  destruct (_ || _); [apply tapsKept_refl | ].
  unfold _calcOffsetShiftSinceLastGestureState.
  set (c1 := set_lastGestureCenterPosition _ c).
  assert (T1 : tapsKept c c1) by now constructor.
  clearbody c1.
  destruct (match lastGestureCenterPosition c with Some _ => _ | None => _ end);
    [ | exact T1].
  cbv zeta.
  eapply tapsKept_trans; [ | apply kept_tapsKept, raisePin_kept].
  eapply tapsKept_trans;
    [ | apply kept_tapsKept, _setNewOffsetPosition_kept].
  destruct (_ && _ && _); [ | exact T1].
  eapply tapsKept_trans; [exact T1 | apply kept_tapsKept, emit_kept].
Qed.

Lemma set_zoomLevel_kept v c : kept c (set_zoomLevel v c).
Proof. plainly_kept. Qed.

Lemma pinch_store_kept H props e gs ox oy z c :
  let c1 := set_zoomLevel z (set_offsetY H props oy (set_offsetX H props ox c)) in
  let c2 := panAnim_setValue H props {| x := offsetX c1; y := offsetY c1 |} c1 in
  kept c
    (invoke props onZoomAfter e gs (zoomAnim_setValue (zoomLevel c2) c2)).
Proof.
  cbv zeta. unfold set_offsetX, set_offsetY.
  after kept_trans invoke_kept.
  after kept_trans zoomAnim_setValue_kept.
  after kept_trans panAnim_setValue_kept.
  after kept_trans set_zoomLevel_kept.
  after kept_trans __setOffset_kept.
  apply __setOffset_kept.
Qed.

(** The previous touch distance after a pinch step, and what else of the
    bookkeeping the step keeps. *)
Lemma _handlePinching_bookkeeping H props e gs c :
  let c' := _handlePinching H props e gs c in
  tapsKept c c' /\
  lastGestureTouchDistance c' =
    if zoomEnabled props && negb (zoom_vetoed props e gs c) then
      match calcGestureTouchDistance H e gs, lastGestureTouchDistance c with
      | Some d, Some l =>
          if truthy d && truthy l then Some d else lastGestureTouchDistance c
      | _, _ => lastGestureTouchDistance c
      end
    else lastGestureTouchDistance c.
Proof.
  cbv zeta. unfold _handlePinching, zoom_vetoed.
  destruct (zoomEnabled props); cbn [negb andb];
    [ | split; [apply tapsKept_refl | reflexivity]].
  rewrite (surjective_pairing (ask props onZoomBefore (Some e) (Some gs) c)).
  pose proof (ask_kept props onZoomBefore (Some e) (Some gs) c) as K1.
  set (c1 := snd (ask props onZoomBefore (Some e) (Some gs) c)) in *.
  assert (T1 : tapsKept c c1) by apply kept_tapsKept, K1.
  assert (D1 : lastGestureTouchDistance c1 = lastGestureTouchDistance c)
    by apply K1.
  clearbody c1.
  destruct (fst _); cbn [negb]; [split; assumption | ].
  rewrite D1.
  destruct (calcGestureTouchDistance H e gs) as [d|]; [ | split; assumption].
  destruct (lastGestureTouchDistance c) as [l|] eqn:L; [ | split; assumption].
  destruct (truthy d); cbn [negb andb]; [ | split; assumption].
  destruct (truthy l); cbn [negb]; [ | split; assumption].
  set (c2 := set_lastGestureTouchDistance (Some d) c1).
  assert (T2 : tapsKept c c2 /\ lastGestureTouchDistance c2 = Some d).
  { split; [ | reflexivity]. eapply tapsKept_trans; [exact T1 | ].
    now constructor. }
  clearbody c2.
  destruct (pinchSensitivity props d l); [ | exact T2].
  destruct (calcGestureCenterPoint H e gs) as [center|]; [ | exact T2].
  set (zc := match staticPinPosition props with Some _ => _ | None => _ end).
  clearbody zc.
  destruct (if debug props then _ else _) as [c3|] eqn:DBG; [ | exact T2].
  assert (T3 : tapsKept c c3 /\ lastGestureTouchDistance c3 = Some d).
  { destruct (debug props).
    - unfold _setPinchDebugPoints in DBG.
      destruct (nativeTouches e) as [|t0 [|t1 ts]]; try discriminate.
      injection DBG as <-. destruct T2 as [[] D2].
      split; [constructor; assumption | exact D2].
    - injection DBG as <-. exact T2. }
  destruct (_ || _); [exact T3 | ].
  unfold _calcOffsetShiftSinceLastGestureState. cbv zeta.
  set (c4 := set_lastGestureCenterPosition (Some center) c3).
  assert (T4 : tapsKept c c4 /\ lastGestureTouchDistance c4 = Some d).
  { destruct T3 as [[] D3]. split; [constructor; assumption | exact D3]. }
  clearbody c4.
  match goal with
  | |- context [invoke props onZoomAfter ?e' ?gs'
                  (zoomAnim_setValue _
                     (panAnim_setValue H props _
                        (set_zoomLevel ?z
                           (set_offsetY H props ?oy
                              (set_offsetX H props ?ox c4)))))] =>
      pose proof (pinch_store_kept H props e' gs' ox oy z c4) as K5
  end.
  cbv zeta in K5.
  destruct T4 as [T4 D4].
  split.
  - eapply tapsKept_trans; [exact T4 | apply kept_tapsKept, K5].
  - destruct K5 as [_ _ _ _ _ _ -> _ _]. exact D4.
Qed.

(** ** Moves that change nothing, and what a move returns *)

Lemma _handleShifting_blocked H props gs c :
  pan_blocked props c -> _handleShifting H props gs c = c.
Proof.
  intros B. unfold _handleShifting. apply pan_blocked_true in B.
  now rewrite B.
Qed.

Lemma _handlePinching_disabled H props e gs c :
  zoomEnabled props = false -> _handlePinching H props e gs c = c.
Proof. intros E. unfold _handlePinching. now rewrite E. Qed.

(** X7.  While panning is blocked ([panEnabled] off, or
    [disablePanOnInitialZoom] at the initial zoom level), a move with one
    active touch never changes the transform: zoom level, offsets and
    animated values are as before, however far the finger went. *)
Theorem blocked_pan_moves_nothing
    (H : Helpers) (props : ReactNativeZoomableViewProps) (now : Z)
    (e : GestureResponderEvent) (gs : PanResponderGestureState)
    (c : ZoomableView) :
  move_claimed props e gs c = false ->
  numberActiveTouches gs = 1%nat ->
  pan_blocked props c ->
  unmoved c (snd (_handlePanResponderMove H props now e gs c)).
Proof.
  intros V N B.
  destruct (move_one_touch H props now e gs c V N)
    as (c1 & Q1 & _ & _ & _ & _ & _ & _ & ->).
  cbn [snd]. destruct (_ || _); [ | apply quiet_unmoved, Q1].
  rewrite _handleShifting_blocked.
  - eapply unmoved_trans; [apply quiet_unmoved, Q1 | ].
    apply set_gestureType_unmoved.
  - apply (pan_blocked_zoomLevel props c); [ | exact B].
    cbn [zoomLevel set_gestureType]. apply Q1.
Qed.

Lemma blocked_pan_moves_nothing_witness :
  let props := withSwitches true true true defaultProps in
  let c := exampleView in
  let e := oneTouch 150 100 in
  let gs := gesture 1 50 0 150 100 0 0 in
  move_claimed props e gs c = false /\
  numberActiveTouches gs = 1%nat /\
  pan_blocked props c /\
  unmoved c (snd (_handlePanResponderMove exampleHelpers props 1000 e gs c)).
Proof.
  cbv zeta.
  assert (B : pan_blocked (withSwitches true true true defaultProps)
                exampleView).
  { right. split; [reflexivity | ]. exists 1. split; reflexivity. }
  split; [reflexivity | ]. split; [reflexivity | ]. split; [exact B | ].
  apply (blocked_pan_moves_nothing exampleHelpers
           (withSwitches true true true defaultProps) 1000
           (oneTouch 150 100) (gesture 1 50 0 150 100 0 0) exampleView);
    [reflexivity | reflexivity | exact B].
Defined.

(** X8.  With [zoomEnabled] off, a move with two active touches is still
    classified as a pinch but never changes the transform. *)
Theorem disabled_zoom_pinch_moves_nothing
    (H : Helpers) (props : ReactNativeZoomableViewProps) (now : Z)
    (e : GestureResponderEvent) (gs : PanResponderGestureState)
    (c : ZoomableView) :
  move_claimed props e gs c = false ->
  numberActiveTouches gs = 2%nat ->
  zoomEnabled props = false ->
  let c' := snd (_handlePanResponderMove H props now e gs c) in
  unmoved c c' /\ gestureType c' = Some pinch.
Proof.
  intros V N Z.
  destruct (move_two_touches H props now e gs c V N)
    as (c1 & Q1 & _ & _ & _ & _ & ->).
  cbv zeta. cbn [snd]. rewrite _handlePinching_disabled by exact Z.
  split; [ | reflexivity].
  eapply unmoved_trans; [apply quiet_unmoved, Q1 | ].
  apply set_gestureType_unmoved.
Qed.

Lemma disabled_zoom_pinch_moves_nothing_witness :
  let props := withSwitches false true false defaultProps in
  let c := exampleView in
  let e := twoTouches 100 100 300 100 in
  let gs := gesture 2 0 0 200 100 0 0 in
  move_claimed props e gs c = false /\
  numberActiveTouches gs = 2%nat /\
  zoomEnabled props = false /\
  let c' := snd (_handlePanResponderMove exampleHelpers props 1000 e gs c) in
  unmoved c c' /\ gestureType c' = Some pinch.
Proof.
  cbv zeta. split; [reflexivity | ]. split; [reflexivity | ].
  split; [reflexivity | ].
  apply (disabled_zoom_pinch_moves_nothing exampleHelpers
           (withSwitches false true false defaultProps) 1000
           (twoTouches 100 100 300 100) (gesture 2 0 0 200 100 0 0)
           exampleView);
    reflexivity.
Defined.

(** X9.  A move that the [onPanResponderMove] prop claims does nothing
    else: [_handlePanResponderMove] returns [false], the only thing handed
    to the outside is that one call of the prop, no gesture is started or
    classified, no timer is cleared, and the transform and all bookkeeping
    are as before - whatever the number of touches. *)
Theorem claimed_move_does_nothing
    (H : Helpers) (props : ReactNativeZoomableViewProps) (now : Z)
    (e : GestureResponderEvent) (gs : PanResponderGestureState)
    (c : ZoomableView) :
  move_claimed props e gs c = true ->
  let r := _handlePanResponderMove H props now e gs c in
  fst r = Some false /\
  trace (snd r) =
    Invoke onPanResponderMove (_getZoomableViewEventObject c) :: trace c /\
  quiet c (snd r) /\ kept c (snd r).
Proof.
  unfold move_claimed. intros V. cbv zeta.
  unfold _handlePanResponderMove.
  rewrite (surjective_pairing (ask props onPanResponderMove (Some e) (Some gs) c)).
  rewrite V. cbn [fst snd].
  split; [reflexivity | ].
  split; [ | split; [apply ask_quiet | apply ask_kept]].
  unfold ask in *. destruct (callback props onPanResponderMove);
    [reflexivity | discriminate].
Qed.

Lemma claimed_move_does_nothing_witness :
  let props := withCallback claimingMove defaultProps in
  let c := viewDuring shift props in
  let e := oneTouch 150 100 in
  let gs := gesture 1 50 0 150 100 0 0 in
  move_claimed props e gs c = true /\
  let r := _handlePanResponderMove exampleHelpers props 1000 e gs c in
  fst r = Some false /\
  trace (snd r) =
    Invoke onPanResponderMove (_getZoomableViewEventObject c) :: trace c /\
  quiet c (snd r) /\ kept c (snd r).
Proof.
  cbv zeta. split; [reflexivity | ].
  apply (claimed_move_does_nothing exampleHelpers
           (withCallback claimingMove defaultProps) 1000
           (oneTouch 150 100) (gesture 1 50 0 150 100 0 0)
           (viewDuring shift (withCallback claimingMove defaultProps))).
  reflexivity.
Defined.

(** X10.  The long-press timer and moves, for a move that is not claimed.
    A move with two active touches clears a pending timer; so does a move
    with one active touch once [|dx| > 5] or [|dy| > 5].  A one-touch move
    of a started gesture within 5 on both axes leaves the timer pending -
    also when it pans, which takes a displacement above 2 only. *)
Theorem long_press_timer_and_moves
    (H : Helpers) (props : ReactNativeZoomableViewProps) (now : Z)
    (e : GestureResponderEvent) (gs : PanResponderGestureState)
    (c : ZoomableView) :
  move_claimed props e gs c = false ->
  let c' := snd (_handlePanResponderMove H props now e gs c) in
  (numberActiveTouches gs = 2%nat -> longPressTimeout c' = None) /\
  (numberActiveTouches gs = 1%nat ->
   (5 < Qabs (dx gs) \/ 5 < Qabs (dy gs) -> longPressTimeout c' = None) /\
   (Qabs (dx gs) <= 5 /\ Qabs (dy gs) <= 5 -> gestureStarted c = true ->
    longPressTimeout c' = longPressTimeout c)).
Proof.
  intros V. cbv zeta. split; intros N.
  - destruct (move_two_touches H props now e gs c V N)
      as (c1 & _ & _ & L1 & _ & _ & ->).
    cbn [snd].
    destruct (_handlePinching_bookkeeping H props e gs
                (set_gestureType (Some pinch) c1)) as [[_ -> _ _ _ _] _].
    exact L1.
  - destruct (move_one_touch H props now e gs c V N)
      as (c1 & _ & _ & _ & LF & LN & _ & _ & ->).
    cbn [snd].
    assert (E : longPressTimeout
                  (if num_gt (Qabs (dx gs)) 2 || num_gt (Qabs (dy gs)) 2
                   then _handleShifting H props gs
                          (set_gestureType (Some shift) c1)
                   else c1) = longPressTimeout c1).
    { destruct (_ || _); [ | reflexivity].
      now destruct (_handleShifting_tapsKept H props gs
                      (set_gestureType (Some shift) c1)) as [_ -> _ _ _ _]. }
    rewrite E. split; assumption.
Qed.

Lemma long_press_timer_and_moves_witness :
  let c := set_longPressTimeout (Some (LongPressTimer (Some 700)))
             (viewDuring shift defaultProps) in
  let e := oneTouch 104 100 in
  let gs := gesture 1 4 0 104 100 0 0 in
  move_claimed defaultProps e gs c = false /\
  let c' := snd (_handlePanResponderMove exampleHelpers defaultProps 1000
                   e gs c) in
  (numberActiveTouches gs = 2%nat -> longPressTimeout c' = None) /\
  (numberActiveTouches gs = 1%nat ->
   (5 < Qabs (dx gs) \/ 5 < Qabs (dy gs) -> longPressTimeout c' = None) /\
   (Qabs (dx gs) <= 5 /\ Qabs (dy gs) <= 5 -> gestureStarted c = true ->
    longPressTimeout c' = longPressTimeout c)).
Proof.
  cbv zeta. split; [reflexivity | ].
  apply (long_press_timer_and_moves exampleHelpers defaultProps 1000
           (oneTouch 104 100) (gesture 1 4 0 104 100 0 0)
           (set_longPressTimeout (Some (LongPressTimer (Some 700)))
              (viewDuring shift defaultProps))).
  reflexivity.
Defined.


(** ** The zoom level over pinch steps *)

(** [_handlePinching_zoomLevel], with what the step checked of the two
    distances. *)
Lemma _handlePinching_zoomLevel_cases H props e gs c :
  let c' := _handlePinching H props e gs c in
  zoomLevel c' = zoomLevel c \/
  exists d last s,
    calcGestureTouchDistance H e gs = Some d /\ ~ d == 0 /\
    lastGestureTouchDistance c = Some last /\ ~ last == 0 /\
    pinchSensitivity props d last = Some s /\
    zoomLevel c' =
      respectZoomBounds props (pinchZoomLevel (zoomLevel c) d last s).
Proof.
  cbv zeta.
  destruct (_handlePinching_zoomLevel H props e gs c)
    as [E | (d & last & s & D & L & PS & E)]; [now left | ].
  destruct (truthy d) eqn:TD; [destruct (truthy last) eqn:TL | ].
  - right. exists d, last, s. apply truthy_true in TD, TL. auto 10.
  - left. unfold _handlePinching.
    destruct (negb (zoomEnabled props)); [reflexivity | ].
    rewrite (surjective_pairing (ask props onZoomBefore (Some e) (Some gs) c)).
    pose proof (ask_quiet props onZoomBefore (Some e) (Some gs) c)
      as [[_ Z _ _ _ _] _].
    rewrite (ask_lastGestureTouchDistance props onZoomBefore (Some e) (Some gs) c).
    rewrite D, L, TD, TL. cbn [negb]. now destruct (fst _).
  - left. unfold _handlePinching.
    destruct (negb (zoomEnabled props)); [reflexivity | ].
    rewrite (surjective_pairing (ask props onZoomBefore (Some e) (Some gs) c)).
    pose proof (ask_quiet props onZoomBefore (Some e) (Some gs) c)
      as [[_ Z _ _ _ _] _].
    rewrite (ask_lastGestureTouchDistance props onZoomBefore (Some e) (Some gs) c).
    rewrite D, L, TD. cbn [negb]. now destruct (fst _).
Qed.

Lemma respectZoomBounds_within props (v z : number) :
  v == z -> within_zoom_bounds props z -> respectZoomBounds props v == z.
Proof.
  intros E [Bmax Bmin]. unfold respectZoomBounds.
  destruct (maxZoom props) as [mx|].
  - specialize (Bmax mx eq_refl).
    assert (G : num_gt v mx = false) by (apply num_gt_false; lra).
    rewrite G. destruct (minZoom props) as [mn|]; [ | exact E].
    specialize (Bmin mn eq_refl).
    assert (L : num_lt v mn = false) by (apply num_lt_false; lra).
    now rewrite L.
  - destruct (minZoom props) as [mn|]; [ | exact E].
    specialize (Bmin mn eq_refl).
    assert (L : num_lt v mn = false) by (apply num_lt_false; lra).
    now rewrite L.
Qed.

Lemma respectZoomBounds_above props (v z : number) :
  z <= v -> within_zoom_bounds props z -> z <= respectZoomBounds props v.
Proof.
  intros E [Bmax Bmin]. unfold respectZoomBounds.
  set (v1 := match maxZoom props with Some _ => _ | None => _ end).
  assert (E1 : z <= v1).
  { subst v1. destruct (maxZoom props) as [mx|]; [ | exact E].
    specialize (Bmax mx eq_refl). now destruct (num_gt v mx). }
  clearbody v1.
  destruct (minZoom props) as [mn|]; [ | exact E1].
  specialize (Bmin mn eq_refl).
  destruct (num_lt v1 mn) eqn:L; [ | exact E1].
  apply num_lt_true in L. lra.
Qed.

Lemma respectZoomBounds_below props (v z : number) :
  v <= z -> within_zoom_bounds props z -> respectZoomBounds props v <= z.
Proof.
  intros E [Bmax Bmin]. unfold respectZoomBounds.
  set (v1 := match maxZoom props with Some _ => _ | None => _ end).
  assert (E1 : v1 <= z).
  { subst v1. destruct (maxZoom props) as [mx|]; [ | exact E].
    specialize (Bmax mx eq_refl).
    destruct (num_gt v mx) eqn:G; [ | exact E].
    apply num_gt_true in G. lra. }
  clearbody v1.
  destruct (minZoom props) as [mn|]; [ | exact E1].
  specialize (Bmin mn eq_refl).
  destruct (num_lt v1 mn); [exact Bmin | exact E1].
Qed.

Lemma pinchZoomLevel_same_distance (z d s : number) :
  ~ d == 0 -> pinchZoomLevel z d d s == z.
Proof. intros Dnz. rewrite pinchZoomLevel_formula. field. exact Dnz. Qed.

Lemma pinchSensitivity_cases props d last s :
  pinchSensitivity props d last = Some s ->
  pinchToZoomOutSensitivity props = Some s \/
  pinchToZoomInSensitivity props = Some s.
Proof. unfold pinchSensitivity. destruct (num_lt _ _); auto. Qed.

Lemma pinchZoomLevel_direction (z d last s : number) :
  0 < d -> 0 < last -> 9 * s <= 100 -> 0 <= z ->
  (last <= d -> z <= pinchZoomLevel z d last s) /\
  (d <= last -> pinchZoomLevel z d last s <= z).
Proof.
  intros Dp Lp S Zp. rewrite pinchZoomLevel_formula.
  assert (R : 0 <= 1 - 9 * s / 100).
  { assert (9 * s / 100 <= 1); [ | lra].
    apply Qle_shift_div_r; lra. }
  set (r := 1 - 9 * s / 100) in *. clearbody r.
  split; intros G.
  - assert (T : 0 <= d / last - 1).
    { assert (1 <= d / last); [ | lra]. apply Qle_shift_div_l; lra. }
    set (t := d / last - 1) in *. clearbody t.
    assert (0 <= z * (t * r)) by (repeat apply Qmult_le_0_compat; assumption).
    lra.
  - assert (T : 0 <= 1 - d / last).
    { assert (d / last <= 1); [ | lra]. apply Qle_shift_div_r; lra. }
    set (t := 1 - d / last) in *.
    assert (0 <= z * (t * r)) by (repeat apply Qmult_le_0_compat; assumption).
    assert (E : z * (1 + (d / last - 1) * r) == z - z * (t * r))
      by (subst t; ring).
    rewrite E. lra.
Qed.

(** X12.  The first pinch step of a gesture - a move with two active
    touches while the gesture was not yet a pinch - takes the touch
    distance of that same event as the previous distance: it never changes
    a zoom level that is within the bounds that are set. *)
Theorem first_pinch_move_keeps_zoomLevel
    (H : Helpers) (props : ReactNativeZoomableViewProps) (now : Z)
    (e : GestureResponderEvent) (gs : PanResponderGestureState)
    (c : ZoomableView) :
  move_claimed props e gs c = false ->
  numberActiveTouches gs = 2%nat ->
  gestureType c <> Some pinch ->
  within_zoom_bounds props (zoomLevel c) ->
  zoomLevel (snd (_handlePanResponderMove H props now e gs c)) == zoomLevel c.
Proof.
  intros V N G B.
  destruct (move_two_touches H props now e gs c V N)
    as (c1 & Q1 & _ & _ & _ & D1 & ->).
  cbn [snd].
  assert (P : is_pinch (gestureType c) = false).
  { destruct (gestureType c) as [[]|]; [congruence | reflexivity ..]. }
  destruct (D1 P) as [D _].
  assert (Z1 : zoomLevel (set_gestureType (Some pinch) c1) = zoomLevel c)
    by apply Q1.
  destruct (_handlePinching_zoomLevel_cases H props e gs
              (set_gestureType (Some pinch) c1))
    as [E | (d & last & s & Ed & Dnz & El & _ & _ & E)];
    rewrite E, Z1; [reflexivity | ].
  cbn [lastGestureTouchDistance set_gestureType] in El.
  assert (last = d) as -> by congruence.
  apply respectZoomBounds_within; [ | exact B].
  apply pinchZoomLevel_same_distance, Dnz.
Qed.

Lemma first_pinch_move_keeps_zoomLevel_witness :
  let c := viewDuring shift defaultProps in
  let e := twoTouches 100 100 280 100 in
  let gs := gesture 2 0 0 190 100 0 0 in
  move_claimed defaultProps e gs c = false /\
  numberActiveTouches gs = 2%nat /\
  gestureType c <> Some pinch /\
  within_zoom_bounds defaultProps (zoomLevel c) /\
  zoomLevel (snd (_handlePanResponderMove exampleHelpers defaultProps 1000
                    e gs c)) == zoomLevel c.
Proof.
  cbv zeta.
  assert (B : within_zoom_bounds defaultProps
                (zoomLevel (viewDuring shift defaultProps))).
  { split; intros m E; injection E as <-; vm_compute; discriminate. }
  split; [reflexivity | ]. split; [reflexivity | ].
  split; [discriminate | ]. split; [exact B | ].
  apply (first_pinch_move_keeps_zoomLevel exampleHelpers defaultProps 1000
           (twoTouches 100 100 280 100) (gesture 2 0 0 190 100 0 0)
           (viewDuring shift defaultProps));
    [reflexivity | reflexivity | discriminate | exact B].
Defined.

(** X13.  The direction of a pinch step.  With positive touch distances,
    sensitivities of at most [100 / 9] and a zoom level that is not
    negative and within the bounds that are set, fingers moving apart never
    lower the zoom level and fingers closing in never raise it - whether
    the step stores a new level or returns early. *)
Theorem pinch_direction
    (H : Helpers) (props : ReactNativeZoomableViewProps)
    (e : GestureResponderEvent) (gs : PanResponderGestureState)
    (c : ZoomableView) (d last : number) :
  calcGestureTouchDistance H e gs = Some d -> 0 < d ->
  lastGestureTouchDistance c = Some last -> 0 < last ->
  (forall s, pinchToZoomInSensitivity props = Some s -> 9 * s <= 100) ->
  (forall s, pinchToZoomOutSensitivity props = Some s -> 9 * s <= 100) ->
  0 <= zoomLevel c ->
  within_zoom_bounds props (zoomLevel c) ->
  let c' := _handlePinching H props e gs c in
  (last <= d -> zoomLevel c <= zoomLevel c') /\
  (d <= last -> zoomLevel c' <= zoomLevel c).
Proof.
  intros D Dp L Lp Sin Sout Zp B. cbv zeta.
  destruct (_handlePinching_zoomLevel_cases H props e gs c)
    as [E | (d' & last' & s & Ed & _ & El & _ & PS & E)]; rewrite E.
  - split; intros _; apply Qle_refl.
  - assert (d' = d) as -> by congruence.
    assert (last' = last) as -> by congruence.
    assert (S : 9 * s <= 100).
    { destruct (pinchSensitivity_cases props d last s PS); auto. }
    destruct (pinchZoomLevel_direction (zoomLevel c) d last s Dp Lp S Zp)
      as [Up Down].
    split; intros G.
    + apply respectZoomBounds_above; auto.
    + apply respectZoomBounds_below; auto.
Qed.

Lemma pinch_direction_witness :
  let c := viewDuring pinch defaultProps in
  let e := twoTouches 100 100 280 100 in
  let gs := gesture 2 0 0 190 100 0 0 in
  calcGestureTouchDistance exampleHelpers e gs = Some 180 /\
  0 < 180 /\
  lastGestureTouchDistance c = Some 150 /\
  0 < 150 /\
  (forall s, pinchToZoomInSensitivity defaultProps = Some s -> 9 * s <= 100) /\
  (forall s, pinchToZoomOutSensitivity defaultProps = Some s -> 9 * s <= 100) /\
  0 <= zoomLevel c /\
  within_zoom_bounds defaultProps (zoomLevel c) /\
  let c' := _handlePinching exampleHelpers defaultProps e gs c in
  (150 <= 180 -> zoomLevel c <= zoomLevel c') /\
  (180 <= 150 -> zoomLevel c' <= zoomLevel c).
Proof.
  cbv zeta.
  assert (B : within_zoom_bounds defaultProps
                (zoomLevel (viewDuring pinch defaultProps))).
  { split; intros m E; injection E as <-; vm_compute; discriminate. }
  assert (Sin : forall s, pinchToZoomInSensitivity defaultProps = Some s ->
                          9 * s <= 100).
  { intros s E; injection E as <-; vm_compute; discriminate. }
  assert (Sout : forall s, pinchToZoomOutSensitivity defaultProps = Some s ->
                           9 * s <= 100).
  { intros s E; injection E as <-; vm_compute; discriminate. }
  assert (Zp : 0 <= zoomLevel (viewDuring pinch defaultProps))
    by (vm_compute; discriminate).
  split; [reflexivity | ]. split; [reflexivity | ].
  split; [reflexivity | ]. split; [reflexivity | ].
  split; [exact Sin | ]. split; [exact Sout | ].
  split; [exact Zp | ]. split; [exact B | ].
  apply (pinch_direction exampleHelpers defaultProps
           (twoTouches 100 100 280 100) (gesture 2 0 0 190 100 0 0)
           (viewDuring pinch defaultProps) 180 150);
    [reflexivity | reflexivity | reflexivity | reflexivity
    | exact Sin | exact Sout | exact Zp | exact B].
Defined.

(** ** Taps and the end of a gesture *)

Lemma kept_tapRecord c c' : kept c c' -> tapRecord c' = tapRecord c.
Proof. intros []. unfold tapRecord. congruence. Qed.

Lemma isDoubleTap_true props now c :
  match doubleTapFirstTapReleaseTimestamp c, doubleTapDelay props with
  | Some t0, Some delay =>
      truthy (inject_Z t0) && truthy delay &&
      num_lt (inject_Z now - inject_Z t0) delay
  | _, _ => false
  end = true <-> is_double_tap props now c.
Proof.
  unfold is_double_tap. split.
  - destruct (doubleTapFirstTapReleaseTimestamp c) as [t0|]; [ | discriminate].
    destruct (doubleTapDelay props) as [delay|]; [ | discriminate].
    rewrite !andb_true_iff, !truthy_true, num_lt_true.
    intros [[T D] L]. exists t0, delay. repeat split; trivial.
    intros ->. apply T. reflexivity.
  - intros (t0 & delay & -> & T & -> & D & L).
    rewrite !andb_true_iff, !truthy_true, num_lt_true.
    repeat split; trivial.
    intros E. apply T. apply (inject_Z_injective t0 0). exact E.
Qed.

Lemma _getNextZoomStep_zoomLevel props c c' :
  zoomLevel c' = zoomLevel c ->
  _getNextZoomStep props c' = _getNextZoomStep props c.
Proof. intros E. unfold _getNextZoomStep. now rewrite E. Qed.

Lemma zoomStarts_emit e c :
  zoomStarts (trace (emit e c)) =
  match e with
  | ZoomToAnimation z zc => (z, zc) :: zoomStarts (trace c)
  | _ => zoomStarts (trace c)
  end.
Proof. now destruct e. Qed.

Lemma zoomTo_zoomStarts props z zc c :
  (zoomTo_refuses props z ->
   zoomStarts (trace (snd (zoomTo props z zc c))) = zoomStarts (trace c)) /\
  (~ zoomTo_refuses props z ->
   zoomStarts (trace (snd (zoomTo props z zc c))) =
     (z, zc) :: zoomStarts (trace c)).
Proof.
  rewrite zoomTo_unfold. pose proof (zoomTo_guards props z) as G.
  destruct (_ || _ || _); cbn [snd].
  - split; [reflexivity | ]. intros N. exfalso. apply N, G. reflexivity.
  - split.
    + intros R. apply G in R. discriminate.
    + intros _. rewrite zoomStarts_invoke, zoomStarts_emit.
      now rewrite zoomStarts_invoke.
Qed.

(** A double tap: the bookkeeping stays, and at most one zoom animation is
    started. *)
Lemma _handleDoubleTap_zooms props e c :
  let c' := _handleDoubleTap props e c in
  kept c c' /\
  (_getNextZoomStep props c = None ->
   zoomStarts (trace c') = zoomStarts (trace c)) /\
  (forall z, _getNextZoomStep props c = Some z ->
     (zoomTo_refuses props z ->
      zoomStarts (trace c') = zoomStarts (trace c)) /\
     (~ zoomTo_refuses props z ->
      zoomStarts (trace c') =
        (z, Some (doubleTapCenter props e c)) :: zoomStarts (trace c))).
Proof.
  cbv zeta. unfold _handleDoubleTap, doubleTapCenter.
  pose proof (invoke_kept props onDoubleTapBefore (Some e) None c) as K1.
  pose proof (invoke_quiet props onDoubleTapBefore (Some e) None c)
    as [[S1 Z1 _ _ _ _] _].
  pose proof (zoomStarts_invoke props onDoubleTapBefore (Some e) None c) as T1.
  set (c1 := invoke props onDoubleTapBefore (Some e) None c) in *.
  rewrite (_getNextZoomStep_zoomLevel props c c1 Z1). rewrite S1.
  clearbody c1.
  destruct (_getNextZoomStep props c) as [z|].
  - set (zc := if doubleTapZoomToCenter props then _ else _). clearbody zc.
    cbv zeta.
    pose proof (zoomTo_kept props z (Some zc) c1) as K2.
    destruct (zoomTo_zoomStarts props z (Some zc) c1) as [R2 N2].
    set (c2 := snd (zoomTo props z (Some zc) c1)) in *. clearbody c2.
    assert (K : kept c c2) by (eapply kept_trans; eassumption).
    split; [ | split; [discriminate | ]].
    + destruct (callback props onDoubleTapAfter); [ | exact K].
      after kept_trans emit_kept. exact K.
    + intros z' [= <-].
      destruct (callback props onDoubleTapAfter);
        rewrite ?zoomStarts_emit; split; intros R;
        rewrite <- T1; auto.
  - split; [exact K1 | ]. split; [intros _; exact T1 | discriminate].
Qed.

(** The two branches of [_resolveAndHandleTap]. *)
Lemma _resolveAndHandleTap_first props now e c :
  ~ is_double_tap props now c ->
  let c' := _resolveAndHandleTap props now e c in
  tapRecord c' =
    (Some now, Some (firstTapOf now e c),
     Some (SingleTapTimer (doubleTapDelay props)),
     touches c ++ [firstTapOf now e c]) /\
  zoomStarts (trace c') = zoomStarts (trace c) /\
  lastGestureTouchDistance c' = lastGestureTouchDistance c.
Proof.
  intros N. cbv zeta. unfold _resolveAndHandleTap.
  pose proof (isDoubleTap_true props now c) as D.
  destruct (match doubleTapFirstTapReleaseTimestamp c with
            | Some _ => _ | None => _ end).
  - exfalso. apply N, D. reflexivity.
  - repeat split; reflexivity.
Qed.

Lemma _resolveAndHandleTap_double props now e c :
  is_double_tap props now c ->
  let c' := _resolveAndHandleTap props now e c in
  tapRecord c' = (None, None, None, touches c ++ secondTapOf now c) /\
  lastGestureTouchDistance c' = lastGestureTouchDistance c /\
  (_getNextZoomStep props c = None ->
   zoomStarts (trace c') = zoomStarts (trace c)) /\
  (forall z, _getNextZoomStep props c = Some z ->
     (zoomTo_refuses props z ->
      zoomStarts (trace c') = zoomStarts (trace c)) /\
     (~ zoomTo_refuses props z ->
      zoomStarts (trace c') =
        (z, Some (doubleTapCenter props e c)) :: zoomStarts (trace c))).
Proof.
  intros D. cbv zeta. unfold _resolveAndHandleTap.
  apply isDoubleTap_true in D. rewrite D.
  set (c1 := match doubleTapFirstTap c with
             | Some _ => _ | None => c end).
  set (c2 := match singleTapTimeoutId c1 with
             | Some _ => _ | None => c1 end).
  set (c3 := set_doubleTapFirstTap None
               (set_singleTapTimeoutId None
                  (set_doubleTapFirstTapReleaseTimestamp None c2))).
  assert (R3 : tapRecord c3 = (None, None, None, touches c ++ secondTapOf now c)
               /\ lastGestureTouchDistance c3 = lastGestureTouchDistance c
               /\ zoomStarts (trace c3) = zoomStarts (trace c)
               /\ zoomLevel c3 = zoomLevel c /\ state c3 = state c).
  { subst c3 c2 c1. unfold tapRecord, secondTapOf, _addTouch.
    destruct (doubleTapFirstTap c); cbn;
      destruct (singleTapTimeoutId c); cbn;
      rewrite ?app_nil_r; repeat split; reflexivity. }
  clearbody c3. destruct R3 as (R3 & L3 & T3 & Z3 & S3).
  destruct (_handleDoubleTap_zooms props e c3) as (K & ZN & ZS).
  rewrite (_getNextZoomStep_zoomLevel props c c3 Z3) in ZN, ZS.
  unfold doubleTapCenter in ZS. rewrite S3, T3 in ZS. rewrite T3 in ZN.
  split; [rewrite (kept_tapRecord _ _ K); exact R3 | ].
  split; [destruct K as [_ _ _ _ _ _ -> _ _]; exact L3 | ].
  split; [exact ZN | exact ZS].
Qed.

Lemma startPanMomentumDecayAnim_kept v c :
  kept c (startPanMomentumDecayAnim v c).
Proof.
  unfold startPanMomentumDecayAnim.
  after kept_trans emit_kept.
  after kept_trans boundaryCrossedAnimEnd_kept.
  apply boundaryCrossedAnimEnd_kept.
Qed.

Lemma zoomStarts_updateStaticPin H props c :
  zoomStarts (trace (_updateStaticPin H props c)) = zoomStarts (trace c).
Proof.
  unfold _updateStaticPin. now destruct (_staticPinPosition H props c).
Qed.

(** What [_handlePanResponderEnd] does after it has resolved a tap. *)
Lemma _handlePanResponderEnd_fields H props now e gs c :
  let c0 := if negb (isSome (gestureType c))
            then _resolveAndHandleTap props now e c else c in
  let c' := _handlePanResponderEnd H props now e gs c in
  gestureType c' = None /\ gestureStarted c' = false /\
  lastGestureCenterPosition c' = None /\ longPressTimeout c' = None /\
  lastGestureTouchDistance c' = lastGestureTouchDistance c0 /\
  tapRecord c' = tapRecord c0 /\
  zoomStarts (trace c') = zoomStarts (trace c0).
Proof.
  cbv zeta. unfold _handlePanResponderEnd.
  set (c0 := if negb (isSome (gestureType c))
             then _resolveAndHandleTap props now e c else c).
  clearbody c0.
  set (c1 := set_lastGestureCenterPosition None (emit (SetDebugPoints []) c0)).
  assert (I1 : lastGestureCenterPosition c1 = None /\
               lastGestureTouchDistance c1 = lastGestureTouchDistance c0 /\
               tapRecord c1 = tapRecord c0 /\
               zoomStarts (trace c1) = zoomStarts (trace c0))
    by (repeat split; reflexivity).
  clearbody c1.
  set (c2 := if negb (momentumDisabled props c1)
             then startPanMomentumDecayAnim _ c1 else c1).
  assert (I2 : lastGestureCenterPosition c2 = None /\
               lastGestureTouchDistance c2 = lastGestureTouchDistance c0 /\
               tapRecord c2 = tapRecord c0 /\
               zoomStarts (trace c2) = zoomStarts (trace c0)).
  { subst c2. destruct (negb _); [ | exact I1].
    destruct I1 as (A & B & C & D). repeat split; assumption. }
  clear I1. clearbody c2.
  set (c3 := clearLongPressTimeout c2).
  assert (I3 : longPressTimeout c3 = None /\
               lastGestureCenterPosition c3 = None /\
               lastGestureTouchDistance c3 = lastGestureTouchDistance c0 /\
               tapRecord c3 = tapRecord c0 /\
               zoomStarts (trace c3) = zoomStarts (trace c0)).
  { destruct I2 as (A & B & C & D). subst c3. unfold clearLongPressTimeout.
    destruct (longPressTimeout c2) eqn:L; repeat split; assumption. }
  clear I2. clearbody c3.
  set (c4 := invoke props onPanResponderEnd (Some e) (Some gs) c3).
  set (c5 := match gestureType c4 with
             | Some pinch => invoke props onZoomEnd (Some e) (Some gs) c4
             | Some shift => invoke props onShiftingEnd (Some e) (Some gs) c4
             | None => c4
             end).
  set (c6 := if isSome (staticPinPosition props)
             then _updateStaticPin H props c5 else c5).
  assert (K : kept c3 (dropPin props c6) /\
              zoomStarts (trace (dropPin props c6)) = zoomStarts (trace c3)).
  { split.
    - after kept_trans dropPin_kept.
      eapply kept_trans;
        [ | subst c6; destruct (isSome _);
            [apply _updateStaticPin_kept | apply kept_refl]].
      eapply kept_trans;
        [ | subst c5; destruct (gestureType c4) as [[]|];
            [apply invoke_kept | apply invoke_kept | apply kept_refl]].
      apply invoke_kept.
    - unfold dropPin.
      assert (E6 : zoomStarts (trace c6) = zoomStarts (trace c3)).
      { subst c6.
        assert (E5 : zoomStarts (trace c5) = zoomStarts (trace c3)).
        { subst c5 c4.
          destruct (gestureType _) as [[]|];
            now rewrite ?zoomStarts_invoke. }
        destruct (isSome _); [ | exact E5].
        now rewrite zoomStarts_updateStaticPin. }
      now destruct (negb (animatePin props)). }
  destruct K as [K T]. destruct I3 as (A & B & C & D & E).
  cbn [gestureType gestureStarted lastGestureCenterPosition longPressTimeout
       lastGestureTouchDistance trace set_gestureStarted set_gestureType].
  split; [reflexivity | ]. split; [reflexivity | ].
  pose proof (kept_tapRecord _ _ K) as R.
  destruct K as [_ KL _ _ _ _ KD KC _].
  split; [congruence | ]. split; [congruence | ]. split; [congruence | ].
  split; [ | congruence].
  rewrite <- D, <- R. reflexivity.
Qed.

Lemma zoomStarts_grant props e gs c :
  zoomStarts (trace (_handlePanResponderGrant props e gs c)) =
  zoomStarts (trace c).
Proof.
  unfold _handlePanResponderGrant, raisePin, zoomAnim_stopAnimation,
    panAnim_stopAnimation, invoke, ask.
  destruct (callback props onLongPress),
    (callback props onPanResponderGrant), (animatePin props); reflexivity.
Qed.

(** X14.  The end of a gesture resets it: no kind of gesture, not started,
    no gesture center and no long-press timer are left, while the
    transform and the previous touch distance stay.  After a pinch or a
    pan the taps on record are untouched and no zoom animation is
    started. *)
Theorem end_resets_the_gesture
    (H : Helpers) (props : ReactNativeZoomableViewProps) (now : Z)
    (e : GestureResponderEvent) (gs : PanResponderGestureState)
    (c : ZoomableView) :
  let c' := _handlePanResponderEnd H props now e gs c in
  gestureType c' = None /\ gestureStarted c' = false /\
  lastGestureCenterPosition c' = None /\ longPressTimeout c' = None /\
  unmoved c c' /\
  lastGestureTouchDistance c' = lastGestureTouchDistance c /\
  (gestureType c <> None ->
   tapRecord c' = tapRecord c /\
   zoomStarts (trace c') = zoomStarts (trace c)).
Proof.
  cbv zeta.
  destruct (_handlePanResponderEnd_fields H props now e gs c)
    as (G & S & C & L & D & R & T).
  repeat match goal with |- _ /\ _ => split end; trivial.
  - apply _handlePanResponderEnd_unmoved.
  - rewrite D. destruct (gestureType c); cbn [isSome negb]; [reflexivity | ].
    pose proof (isDoubleTap_true props now c) as B.
    destruct (match doubleTapFirstTapReleaseTimestamp c with
              | Some _ => _ | None => _ end) eqn:EB.
    + apply (_resolveAndHandleTap_double props now e c), B. reflexivity.
    + apply (_resolveAndHandleTap_first props now e c).
      intros N. apply B in N. discriminate.
  - intros NG. rewrite R, T.
    destruct (gestureType c); [split; reflexivity | congruence].
Qed.

(** X15.  A gesture that ends without having been classified as a pinch or
    a pan is a tap.  Unless a first tap was released less than
    [doubleTapDelay] before, it is put on record as the first tap - release
    time, position relative to the measured page origin, a single tap
    timer of [doubleTapDelay], one more touch shown - and no zoom animation
    is started.  Otherwise it is the second tap of a double tap: the
    record is cleared and one zoom animation towards [_getNextZoomStep] is
    started around the tap (around the center with
    [doubleTapZoomToCenter]), or none if there is no next step or [zoomTo]
    refuses it. *)
Theorem end_without_gesture_is_a_tap
    (H : Helpers) (props : ReactNativeZoomableViewProps) (now : Z)
    (e : GestureResponderEvent) (gs : PanResponderGestureState)
    (c : ZoomableView) :
  gestureType c = None ->
  let c' := _handlePanResponderEnd H props now e gs c in
  (~ is_double_tap props now c ->
   tapRecord c' =
     (Some now, Some (firstTapOf now e c),
      Some (SingleTapTimer (doubleTapDelay props)),
      touches c ++ [firstTapOf now e c]) /\
   zoomStarts (trace c') = zoomStarts (trace c)) /\
  (is_double_tap props now c ->
   tapRecord c' = (None, None, None, touches c ++ secondTapOf now c) /\
   (_getNextZoomStep props c = None ->
    zoomStarts (trace c') = zoomStarts (trace c)) /\
   (forall z, _getNextZoomStep props c = Some z ->
      (zoomTo_refuses props z ->
       zoomStarts (trace c') = zoomStarts (trace c)) /\
      (~ zoomTo_refuses props z ->
       zoomStarts (trace c') =
         (z, Some (doubleTapCenter props e c)) :: zoomStarts (trace c)))).
Proof.
  intros G. cbv zeta.
  destruct (_handlePanResponderEnd_fields H props now e gs c)
    as (_ & _ & _ & _ & _ & R & T).
  rewrite G in R, T. cbn [isSome negb] in R, T. rewrite R, T. split.
  - intros N.
    destruct (_resolveAndHandleTap_first props now e c N) as (A & B & _).
    split; assumption.
  - intros D.
    destruct (_resolveAndHandleTap_double props now e c D) as (A & _ & B & C).
    repeat split; trivial; apply C; assumption.
Qed.

Lemma end_without_gesture_is_a_tap_witness :
  let c := exampleView in
  let e := oneTouch 150 100 in
  let gs := gesture 0 0 0 150 100 0 0 in
  gestureType c = None /\
  let c' := _handlePanResponderEnd exampleHelpers defaultProps 1000 e gs c in
  (~ is_double_tap defaultProps 1000 c ->
   tapRecord c' =
     (Some 1000%Z, Some (firstTapOf 1000 e c),
      Some (SingleTapTimer (doubleTapDelay defaultProps)),
      touches c ++ [firstTapOf 1000 e c]) /\
   zoomStarts (trace c') = zoomStarts (trace c)) /\
  (is_double_tap defaultProps 1000 c ->
   tapRecord c' = (None, None, None, touches c ++ secondTapOf 1000 c) /\
   (_getNextZoomStep defaultProps c = None ->
    zoomStarts (trace c') = zoomStarts (trace c)) /\
   (forall z, _getNextZoomStep defaultProps c = Some z ->
      (zoomTo_refuses defaultProps z ->
       zoomStarts (trace c') = zoomStarts (trace c)) /\
      (~ zoomTo_refuses defaultProps z ->
       zoomStarts (trace c') =
         (z, Some (doubleTapCenter defaultProps e c))
         :: zoomStarts (trace c)))).
Proof.
  cbv zeta. split; [reflexivity | ].
  apply (end_without_gesture_is_a_tap exampleHelpers defaultProps 1000
           (oneTouch 150 100) (gesture 0 0 0 150 100 0 0) exampleView).
  reflexivity.
Defined.

(** X16.  Two taps make a double tap.  When a tap is released at [t0], the
    next touch is granted and released at [t1] without a move in between,
    and [t1 - t0] is below a [doubleTapDelay] that is not zero, the second
    release clears the record of the first tap, shows the first tap again
    as the second touch, and starts the zoom animation towards
    [_getNextZoomStep] unless [zoomTo] refuses that level. *)
Theorem two_taps_make_a_double_tap
    (H : Helpers) (props : ReactNativeZoomableViewProps) (t0 t1 : Z)
    (e0 e1 : GestureResponderEvent) (gs0 gs1 : PanResponderGestureState)
    (delay : number) (c : ZoomableView) :
  gestureType c = None ->
  ~ is_double_tap props t0 c ->
  t0 <> 0%Z ->
  doubleTapDelay props = Some delay -> ~ delay == 0 ->
  inject_Z t1 - inject_Z t0 < delay ->
  let c1 := _handlePanResponderEnd H props t0 e0 gs0 c in
  let c2 := _handlePanResponderGrant props e1 gs1 c1 in
  let c3 := _handlePanResponderEnd H props t1 e1 gs1 c2 in
  tapRecord c3 =
    (None, None, None,
     touches c ++
     [ firstTapOf t0 e0 c;
       {| tp_x := tp_x (firstTapOf t0 e0 c);
          tp_y := tp_y (firstTapOf t0 e0 c);
          id := t1; isSecondTap := true |} ]) /\
  (forall z, _getNextZoomStep props c = Some z ->
     ~ zoomTo_refuses props z ->
     zoomStarts (trace c3) =
       (z, Some (doubleTapCenter props e1 c)) :: zoomStarts (trace c)).
Proof.
  intros G N T0 Ed Dnz Lt. cbv zeta.
  (* the first release *)
  destruct (_handlePanResponderEnd_fields H props t0 e0 gs0 c)
    as (G1 & _ & _ & _ & _ & R1 & Z1).
  pose proof (_handlePanResponderEnd_unmoved H props t0 e0 gs0 c) as U1.
  rewrite G in R1, Z1. cbn [isSome negb] in R1, Z1.
  destruct (_resolveAndHandleTap_first props t0 e0 c N) as (A & B & _).
  rewrite A in R1. rewrite B in Z1. clear A B.
  set (c1 := _handlePanResponderEnd H props t0 e0 gs0 c) in *. clearbody c1.
  (* the next touch *)
  pose proof (_handlePanResponderGrant_quiet props e1 gs1 c1) as Q2.
  destruct (_handlePanResponderGrant_fields props e1 gs1 c1)
    as (_ & _ & _ & _ & [_ _ KT KS KF KR] & _).
  pose proof (zoomStarts_grant props e1 gs1 c1) as Z2.
  set (c2 := _handlePanResponderGrant props e1 gs1 c1) in *. clearbody c2.
  cbn [singleTapTimeoutId touches doubleTapFirstTap
       doubleTapFirstTapReleaseTimestamp set_longPressTimeout
       set_gestureStarted] in KT, KS, KF, KR.
  assert (G2 : gestureType c2 = None) by (destruct Q2 as [_ ->]; exact G1).
  assert (S2 : state c2 = state c).
  { destruct Q2 as [[-> _ _ _ _ _] _]. now destruct U1. }
  assert (L2 : zoomLevel c2 = zoomLevel c).
  { destruct Q2 as [[_ -> _ _ _ _] _]. now destruct U1. }
  injection R1 as RR RF RT RS.
  assert (D2 : is_double_tap props t1 c2).
  { exists t0, delay. rewrite KR, RR. auto. }
  (* the second release *)
  destruct (_handlePanResponderEnd_fields H props t1 e1 gs1 c2)
    as (_ & _ & _ & _ & _ & R3 & Z3).
  rewrite G2 in R3, Z3. cbn [isSome negb] in R3, Z3.
  destruct (_resolveAndHandleTap_double props t1 e1 c2 D2) as (A & _ & _ & C).
  rewrite R3, Z3, A. split.
  - unfold secondTapOf. rewrite KS, KF, RF, RS, <- app_assoc. reflexivity.
  - intros z Ez R.
    rewrite <- (_getNextZoomStep_zoomLevel props c c2 L2) in Ez.
    destruct (C z Ez) as [_ C']. rewrite (C' R), Z2, Z1.
    unfold doubleTapCenter. now rewrite S2.
Qed.

Lemma two_taps_make_a_double_tap_witness :
  let c := exampleView in
  let e0 := oneTouch 150 100 in
  let e1 := oneTouch 152 101 in
  let gs := gesture 0 0 0 150 100 0 0 in
  gestureType c = None /\
  ~ is_double_tap defaultProps 1000 c /\
  1000%Z <> 0%Z /\
  doubleTapDelay defaultProps = Some 300 /\ ~ 300 == 0 /\
  inject_Z 1200 - inject_Z 1000 < 300 /\
  let c1 := _handlePanResponderEnd exampleHelpers defaultProps 1000 e0 gs c in
  let c2 := _handlePanResponderGrant defaultProps e1 gs c1 in
  let c3 := _handlePanResponderEnd exampleHelpers defaultProps 1200 e1 gs c2 in
  tapRecord c3 =
    (None, None, None,
     touches c ++
     [ firstTapOf 1000 e0 c;
       {| tp_x := tp_x (firstTapOf 1000 e0 c);
          tp_y := tp_y (firstTapOf 1000 e0 c);
          id := 1200; isSecondTap := true |} ]) /\
  (forall z, _getNextZoomStep defaultProps c = Some z ->
     ~ zoomTo_refuses defaultProps z ->
     zoomStarts (trace c3) =
       (z, Some (doubleTapCenter defaultProps e1 c)) :: zoomStarts (trace c)).
Proof.
  cbv zeta.
  assert (N : ~ is_double_tap defaultProps 1000 exampleView).
  { intros (t0 & delay & E & _). discriminate E. }
  assert (Dnz : ~ 300 == 0) by (vm_compute; discriminate).
  assert (Lt : inject_Z 1200 - inject_Z 1000 < 300) by reflexivity.
  split; [reflexivity | ]. split; [exact N | ]. split; [discriminate | ].
  split; [reflexivity | ]. split; [exact Dnz | ]. split; [exact Lt | ].
  apply (two_taps_make_a_double_tap exampleHelpers defaultProps 1000 1200
           (oneTouch 150 100) (oneTouch 152 101)
           (gesture 0 0 0 150 100 0 0) (gesture 0 0 0 150 100 0 0)
           300 exampleView);
    [reflexivity | exact N | discriminate | reflexivity | exact Dnz
    | exact Lt].
Defined.

(** ** The next zoom step *)

(** X17.  With [maxZoom] set and [initialZoom] not above it, the zoom level
    [_getNextZoomStep] proposes for a double tap is never above [maxZoom].
    Away from [maxZoom] (to two decimals), with a [zoomStep] that is not
    negative and a zoom level between 0 and [maxZoom], it is never below
    the current zoom level either. *)
Theorem next_zoom_step_within_maxZoom
    (props : ReactNativeZoomableViewProps) (c : ZoomableView)
    (mx z : number) :
  maxZoom props = Some mx ->
  (forall z0, initialZoom props = Some z0 -> z0 <= mx) ->
  _getNextZoomStep props c = Some z ->
  z <= mx /\
  (toFixed 2 (zoomLevel c) <> toFixed 2 mx ->
   forall s, zoomStep props = Some s -> 0 <= s ->
     0 <= zoomLevel c -> zoomLevel c <= mx -> zoomLevel c <= z).
Proof.
  intros Emx I. unfold _getNextZoomStep. rewrite Emx.
  destruct (String.eqb _ _) eqn:E.
  - intros Ez. split; [exact (I z Ez) | ].
    intros N. apply String.eqb_eq in E. contradiction.
  - destruct (zoomStep props) as [s|]; [ | discriminate].
    destruct (num_gt _ mx) eqn:G; intros [= <-].
    + split; [apply Qle_refl | ]. auto.
    + apply num_gt_false in G. split; [exact G | ].
      intros _ s' [= <-] S Z _.
      assert (0 <= zoomLevel c * s) by (apply Qmult_le_0_compat; assumption).
      lra.
Qed.

Lemma next_zoom_step_within_maxZoom_witness :
  let c := exampleView in
  maxZoom defaultProps = Some (3 # 2) /\
  (forall z0, initialZoom defaultProps = Some z0 -> z0 <= 3 # 2) /\
  _getNextZoomStep defaultProps c = Some (3 # 2) /\
  (3 # 2) <= (3 # 2) /\
  (toFixed 2 (zoomLevel c) <> toFixed 2 (3 # 2) ->
   forall s, zoomStep defaultProps = Some s -> 0 <= s ->
     0 <= zoomLevel c -> zoomLevel c <= 3 # 2 -> zoomLevel c <= 3 # 2).
Proof.
  cbv zeta.
  assert (I : forall z0, initialZoom defaultProps = Some z0 -> z0 <= 3 # 2).
  { intros z0 E; injection E as <-; vm_compute; discriminate. }
  assert (E : _getNextZoomStep defaultProps exampleView = Some (3 # 2))
    by (vm_compute; reflexivity).
  split; [reflexivity | ]. split; [exact I | ]. split; [exact E | ].
  apply (next_zoom_step_within_maxZoom defaultProps exampleView
           (3 # 2) (3 # 2));
    [reflexivity | exact I | exact E].
Defined.

(** ** Programmatic pans *)

Lemma moveTo_free H props nx ny c :
  shift_vetoed props c = false -> stores_freely props c ->
  ~ originalWidth (state c) == 0 -> ~ originalHeight (state c) == 0 ->
  ~ zoomLevel c == 0 ->
  let c' := moveTo H props nx ny c in
  offsetX c' = - ((nx - originalWidth (state c) / 2) / zoomLevel c) /\
  offsetY c' = - ((ny - originalHeight (state c) / 2) / zoomLevel c) /\
  panAnim c' = {| x := offsetX c'; y := offsetY c' |} /\
  zoomLevel c' = zoomLevel c /\ zoomAnim c' = zoomLevel c.
Proof.
  intros V F W Hh _. cbv zeta. unfold moveTo.
  apply truthy_true in W, Hh. rewrite W, Hh. cbn [negb orb].
  destruct (_setNewOffsetPosition_free H props
              (- ((nx - originalWidth (state c) / 2) / zoomLevel c))
              (- ((ny - originalHeight (state c) / 2) / zoomLevel c)) c V F)
    as (X1 & Y1 & P1 & Z1 & A1).
  rewrite X1, Y1, P1, Z1, A1. repeat split; reflexivity.
Qed.

Lemma moveBy_free H props dx dy c :
  shift_vetoed props c = false -> stores_freely props c ->
  ~ zoomLevel c == 0 ->
  let c' := moveBy H props dx dy c in
  offsetX c' = (offsetX c * zoomLevel c - dx) / zoomLevel c /\
  offsetY c' = (offsetY c * zoomLevel c - dy) / zoomLevel c /\
  panAnim c' = {| x := offsetX c'; y := offsetY c' |} /\
  zoomLevel c' = zoomLevel c /\ zoomAnim c' = zoomLevel c.
Proof.
  intros V F _. cbv zeta. unfold moveBy.
  destruct (_setNewOffsetPosition_free H props
              ((offsetX c * zoomLevel c - dx) / zoomLevel c)
              ((offsetY c * zoomLevel c - dy) / zoomLevel c) c V F)
    as (X1 & Y1 & P1 & Z1 & A1).
  rewrite X1, Y1, P1, Z1, A1. repeat split; reflexivity.
Qed.

Lemma _setNewOffsetPosition_vetoed H props nx ny c :
  shift_vetoed props c = true ->
  quiet c (_setNewOffsetPosition H props nx ny c) /\
  kept c (_setNewOffsetPosition H props nx ny c).
Proof.
  unfold shift_vetoed. intros V. unfold _setNewOffsetPosition.
  rewrite (surjective_pairing (ask props onShiftingBefore None None c)), V.
  split; [apply ask_quiet | apply ask_kept].
Qed.

(** X18.  [moveTo].  Before the component is measured (width or height 0)
    it does nothing at all, and when the [onShiftingBefore] prop vetoes it
    moves nothing.  Otherwise, at a zoom level that is not 0 and while
    offsets are stored as given (no [bindToBorders], or a gesture in
    progress), the offsets become [-((x - width / 2) / zoomLevel)] and
    [-((y - height / 2) / zoomLevel)]; the pan value mirrors them and the
    zoom level and the measurements stay. *)
Theorem moveTo_stores_the_offsets
    (H : Helpers) (props : ReactNativeZoomableViewProps)
    (nx ny : number) (c : ZoomableView) :
  let c' := moveTo H props nx ny c in
  (originalWidth (state c) == 0 \/ originalHeight (state c) == 0 ->
   c' = c) /\
  (shift_vetoed props c = true -> unmoved c c' /\ kept c c') /\
  (~ originalWidth (state c) == 0 -> ~ originalHeight (state c) == 0 ->
   ~ zoomLevel c == 0 ->
   shift_vetoed props c = false -> stores_freely props c ->
   offsetX c' = - ((nx - originalWidth (state c) / 2) / zoomLevel c) /\
   offsetY c' = - ((ny - originalHeight (state c) / 2) / zoomLevel c) /\
   panAnim c' = {| x := offsetX c'; y := offsetY c' |} /\
   zoomLevel c' = zoomLevel c /\ zoomAnim c' = zoomLevel c /\
   state c' = state c).
Proof.
  cbv zeta. split; [ | split].
  - intros Z. unfold moveTo.
    destruct Z as [Z | Z]; apply truthy_false in Z; rewrite Z;
      [reflexivity | now rewrite orb_true_r].
  - intros V. unfold moveTo.
    destruct (_ || _); [split; [apply unmoved_refl | apply kept_refl] | ].
    cbv zeta.
    match goal with
    | |- context [_setNewOffsetPosition H props ?a ?b c] =>
        destruct (_setNewOffsetPosition_vetoed H props a b c V) as [Q K]
    end.
    split; [apply quiet_unmoved, Q | exact K].
  - intros W Hh Znz V F.
    destruct (moveTo_free H props nx ny c V F W Hh Znz)
      as (X1 & Y1 & P1 & Z1 & A1).
    destruct (moveTo_steady H props nx ny c) as (S1 & _).
    repeat split; assumption.
Qed.

Lemma moveTo_stores_the_offsets_example :
  let c := viewDuring shift defaultProps in
  let c' := moveTo exampleHelpers defaultProps 100 50 c in
  ~ originalWidth (state c) == 0 /\ ~ originalHeight (state c) == 0 /\
  ~ zoomLevel c == 0 /\
  shift_vetoed defaultProps c = false /\ stores_freely defaultProps c /\
  offsetX c' = - ((100 - originalWidth (state c) / 2) / zoomLevel c) /\
  offsetY c' = - ((50 - originalHeight (state c) / 2) / zoomLevel c) /\
  panAnim c' = {| x := offsetX c'; y := offsetY c' |} /\
  zoomLevel c' = zoomLevel c /\ zoomAnim c' = zoomLevel c /\
  state c' = state c.
Proof.
  cbv zeta.
  assert (W : ~ originalWidth (state (viewDuring shift defaultProps)) == 0)
    by (vm_compute; discriminate).
  assert (Hh : ~ originalHeight (state (viewDuring shift defaultProps)) == 0)
    by (vm_compute; discriminate).
  assert (Znz : ~ zoomLevel (viewDuring shift defaultProps) == 0)
    by (vm_compute; discriminate).
  assert (F : stores_freely defaultProps (viewDuring shift defaultProps))
    by (right; discriminate).
  split; [exact W | ]. split; [exact Hh | ]. split; [exact Znz | ].
  split; [reflexivity | ]. split; [exact F | ].
  apply (proj2 (proj2 (moveTo_stores_the_offsets exampleHelpers defaultProps
                         100 50 (viewDuring shift defaultProps))));
    [exact W | exact Hh | exact Znz | reflexivity | exact F].
Defined.

(** X19.  [moveBy].  When the [onShiftingBefore] prop vetoes, it moves
    nothing.  Otherwise, at a zoom level that is not 0 and while offsets
    are stored as given, the offsets become
    [(offsetX * zoomLevel - changeX) / zoomLevel] and
    [(offsetY * zoomLevel - changeY) / zoomLevel]; the pan value mirrors
    them, the zoom level and the measurements stay, and offsets are still
    stored as given for the next move. *)
Theorem moveBy_stores_the_offsets
    (H : Helpers) (props : ReactNativeZoomableViewProps)
    (a b : number) (c : ZoomableView) :
  let c' := moveBy H props a b c in
  (shift_vetoed props c = true -> unmoved c c' /\ kept c c') /\
  (~ zoomLevel c == 0 ->
   shift_vetoed props c = false -> stores_freely props c ->
   offsetX c' = (offsetX c * zoomLevel c - a) / zoomLevel c /\
   offsetY c' = (offsetY c * zoomLevel c - b) / zoomLevel c /\
   panAnim c' = {| x := offsetX c'; y := offsetY c' |} /\
   zoomLevel c' = zoomLevel c /\ zoomAnim c' = zoomLevel c /\
   state c' = state c /\ stores_freely props c').
Proof.
  cbv zeta. split.
  - intros V. unfold moveBy. cbv zeta.
    match goal with
    | |- context [_setNewOffsetPosition H props ?x ?y c] =>
        destruct (_setNewOffsetPosition_vetoed H props x y c V) as [Q K]
    end.
    split; [apply quiet_unmoved, Q | exact K].
  - intros Znz V F.
    destruct (moveBy_free H props a b c V F Znz) as (X1 & Y1 & P1 & Z1 & A1).
    pose proof (moveBy_steady H props a b c) as S1.
    assert (F1 : stores_freely props (moveBy H props a b c))
      by (apply (stores_freely_steady props c); assumption).
    destruct S1 as (S1 & _).
    repeat split; assumption.
Qed.

Lemma moveBy_stores_the_offsets_example :
  let c := viewDuring shift defaultProps in
  let c' := moveBy exampleHelpers defaultProps 30 (-20) c in
  ~ zoomLevel c == 0 /\
  shift_vetoed defaultProps c = false /\ stores_freely defaultProps c /\
  offsetX c' = (offsetX c * zoomLevel c - 30) / zoomLevel c /\
  offsetY c' = (offsetY c * zoomLevel c - (-20)) / zoomLevel c /\
  panAnim c' = {| x := offsetX c'; y := offsetY c' |} /\
  zoomLevel c' = zoomLevel c /\ zoomAnim c' = zoomLevel c /\
  state c' = state c /\ stores_freely defaultProps c'.
Proof.
  cbv zeta.
  assert (Znz : ~ zoomLevel (viewDuring shift defaultProps) == 0)
    by (vm_compute; discriminate).
  assert (F : stores_freely defaultProps (viewDuring shift defaultProps))
    by (right; discriminate).
  split; [exact Znz | ]. split; [reflexivity | ]. split; [exact F | ].
  apply (proj2 (moveBy_stores_the_offsets exampleHelpers defaultProps
                  30 (-20) (viewDuring shift defaultProps)));
    [exact Znz | reflexivity | exact F].
Defined.

(** ** Measurements and updates *)

Lemma set_state_same c : set_state (state c) c = c.
Proof. now destruct c. Qed.

Lemma strictEq_refl (a : number) : strictEq a a = true.
Proof. apply Qeq_bool_iff. reflexivity. Qed.

(** X20.  The measurements.  A measurement of all zeros (page position and
    size) is ignored.  Any other one leaves the state holding the measured
    numbers - stored now, or equal to what was stored before - and changes
    nothing but the state.  Taking the same measurement again changes
    nothing. *)
Theorem measurements_are_stored
    (mx my mw mh mpx mpy : number) (c : ZoomableView) :
  let c' := measureZoomSubject mx my mw mh mpx mpy c in
  (mpx == 0 /\ mpy == 0 /\ mw == 0 /\ mh == 0 -> c' = c) /\
  (~ (mpx == 0 /\ mpy == 0 /\ mw == 0 /\ mh == 0) ->
   originalX (state c') == mx /\ originalY (state c') == my /\
   originalWidth (state c') == mw /\ originalHeight (state c') == mh /\
   originalPageX (state c') == mpx /\ originalPageY (state c') == mpy) /\
  c' = set_state (state c') c /\
  measureZoomSubject mx my mw mh mpx mpy c' = c'.
Proof.
  cbv zeta. unfold measureZoomSubject.
  destruct (negb (truthy mpx) && negb (truthy mpy) && negb (truthy mw) &&
            negb (truthy mh)) eqn:Z.
  - split; [reflexivity | ]. split; [ | now rewrite set_state_same ].
    intros N. exfalso. apply N.
    rewrite !andb_true_iff, !negb_true_iff, !truthy_false in Z. tauto.
  - split.
    { intros (A & B & C & D). apply truthy_false in A, B, C, D.
      rewrite A, B, C, D in Z. discriminate. }
    destruct (strictEq (originalX (state c)) mx &&
              strictEq (originalY (state c)) my &&
              strictEq (originalWidth (state c)) mw &&
              strictEq (originalHeight (state c)) mh &&
              strictEq (originalPageX (state c)) mpx &&
              strictEq (originalPageY (state c)) mpy) eqn:E.
    + split; [ | split; [now rewrite set_state_same | now rewrite E]].
      intros _. unfold strictEq in E.
      rewrite !andb_true_iff, !Qeq_bool_iff in E. tauto.
    + split; [intros _; cbn; repeat split; reflexivity | ].
      split; [reflexivity | ].
      cbn [state set_state originalX originalY originalWidth originalHeight
           originalPageX originalPageY].
      now rewrite !strictEq_refl.
Qed.

Lemma zoomAnim_setValue_rest v c :
  let c' := zoomAnim_setValue v c in
  offsetX c' = offsetX c /\ offsetY c' = offsetY c /\ panAnim c' = panAnim c /\
  onTransformInvocationInitialized c' = onTransformInvocationInitialized c.
Proof.
  cbv zeta. unfold zoomAnim_setValue, zoomAnimListeners.
  set (c1 := set_zoomLevel (zoomAnim (set_zoomAnim v c)) (set_zoomAnim v c)).
  destruct (onTransformListener_quiet c1) as [[_ _ _ P X Y] _].
  destruct (onTransformListener_kept c1) as [_ _ _ _ _ _ _ _ I].
  rewrite X, Y, P, I. repeat split; reflexivity.
Qed.

Lemma _invokeOnTransform_successful c :
  fst (_invokeOnTransform c) =
  truthy (originalWidth (state c)) && truthy (originalHeight (state c)).
Proof.
  unfold _invokeOnTransform. cbn [ev_originalWidth ev_originalHeight
                                  _getZoomableViewEventObject].
  now destruct (truthy (originalWidth (state c))),
    (truthy (originalHeight (state c))).
Qed.

Lemma _invokeOnTransform_kept c : kept c (snd (_invokeOnTransform c)).
Proof.
  unfold _invokeOnTransform. destruct (_ || _); cbn [snd];
    [apply kept_refl | apply emit_kept].
Qed.

(** X21.  [componentDidUpdate].  When the props switch zooming off and
    [initialZoom] is set and not 0, the zoom level and the animated zoom
    value go back to [initialZoom]; in every other case both stay.  The
    offsets, the pan value, the measurements and the kind of gesture are
    never changed by an update.  The component counts as initialized for
    [onTransform] after the update exactly when it was before or its
    measured width and height are both not 0. *)
Theorem update_resets_zoom_and_initializes
    (props prevProps : ReactNativeZoomableViewProps)
    (prevState : ReactNativeZoomableViewState) (c : ZoomableView) :
  let c' := componentDidUpdate props prevProps prevState c in
  (zoomEnabled prevProps = true -> zoomEnabled props = false ->
   forall z0, initialZoom props = Some z0 -> ~ z0 == 0 ->
   zoomLevel c' = z0 /\ zoomAnim c' = z0) /\
  (zoomEnabled prevProps = false \/ zoomEnabled props = true \/
   initialZoom props = None \/
   (exists z0, initialZoom props = Some z0 /\ z0 == 0) ->
   zoomLevel c' = zoomLevel c /\ zoomAnim c' = zoomAnim c) /\
  offsetX c' = offsetX c /\ offsetY c' = offsetY c /\
  panAnim c' = panAnim c /\
  state c' = state c /\ gestureType c' = gestureType c /\
  (onTransformInvocationInitialized c' = true <->
   onTransformInvocationInitialized c = true \/
   (~ originalWidth (state c) == 0 /\ ~ originalHeight (state c) == 0)).
Proof.
  cbv zeta. unfold componentDidUpdate.
  (* the zoom level *)
  set (c1 := match initialZoom props with
             | Some z0 => if _ && _ && truthy z0 then _ else c
             | None => c
             end).
  assert (R1 :
    (zoomEnabled prevProps = true -> zoomEnabled props = false ->
     forall z0, initialZoom props = Some z0 -> ~ z0 == 0 ->
     zoomLevel c1 = z0 /\ zoomAnim c1 = z0) /\
    (zoomEnabled prevProps = false \/ zoomEnabled props = true \/
     initialZoom props = None \/
     (exists z0, initialZoom props = Some z0 /\ z0 == 0) ->
     zoomLevel c1 = zoomLevel c /\ zoomAnim c1 = zoomAnim c)).
  { subst c1. split.
    - intros -> -> z0 -> Z. apply truthy_true in Z. rewrite Z. cbn [negb andb].
      split; [apply zoomAnim_setValue_zoomLevel
             | apply zoomAnim_setValue_zoomAnim].
    - intros [-> | [-> | [-> | (z0 & -> & Z)]]].
      + now destruct (initialZoom props).
      + destruct (initialZoom props); [ | now split].
        now rewrite andb_false_r.
      + now split.
      + apply truthy_false in Z. rewrite Z, andb_false_r. now split. }
  assert (S1 : offsetX c1 = offsetX c /\ offsetY c1 = offsetY c /\
               panAnim c1 = panAnim c /\ state c1 = state c /\
               gestureType c1 = gestureType c /\
               onTransformInvocationInitialized c1 =
               onTransformInvocationInitialized c).
  { subst c1. destruct (initialZoom props) as [z0|];
      [ | repeat split; reflexivity].
    destruct (_ && _ && _); [ | repeat split; reflexivity].
    cbv zeta.
    destruct (zoomAnim_setValue_rest (zoomLevel (set_zoomLevel z0 c))
                (set_zoomLevel z0 c)) as (X & Y & P & I).
    destruct (zoomAnim_setValue_settled (zoomLevel (set_zoomLevel z0 c))
                (set_zoomLevel z0 c)) as (S & G).
    rewrite X, Y, P, I, S, G. repeat split; reflexivity. }
  clearbody c1.
  (* the first call of onTransform *)
  set (c2 := if negb (onTransformInvocationInitialized c1) then _ else c1).
  assert (S2 : quiet c1 c2 /\
               onTransformInvocationInitialized c2 =
               onTransformInvocationInitialized c1 ||
               (truthy (originalWidth (state c1)) &&
                truthy (originalHeight (state c1)))).
  { subst c2. destruct (onTransformInvocationInitialized c1) eqn:I1;
      cbn [negb orb]; [split; [apply quiet_refl | exact I1] | ].
    rewrite (surjective_pairing (_invokeOnTransform c1)).
    rewrite _invokeOnTransform_successful.
    pose proof (_invokeOnTransform_quiet c1) as Q.
    pose proof (_invokeOnTransform_kept c1) as [_ _ _ _ _ _ _ _ K].
    destruct (_ && _).
    - split; [ | reflexivity].
      eapply quiet_trans; [exact Q | ]. repeat split; reflexivity.
    - split; [exact Q | congruence]. }
  destruct S2 as [Q2 I2]. clearbody c2.
  (* onLayout and onTransform *)
  match goal with
  | |- context [if ?b then emit ?ev c2 else c2] =>
      set (c3 := if b then emit ev c2 else c2)
  end.
  assert (S3 : quiet c2 c3 /\
               onTransformInvocationInitialized c3 =
               onTransformInvocationInitialized c2).
  { subst c3.
    match goal with
    | |- context [if ?b then emit _ c2 else c2] => destruct b
    end; split; reflexivity || apply quiet_refl || apply emit_quiet. }
  destruct S3 as [Q3 I3]. clearbody c3.
  match goal with
  | |- context [if ?b then snd (_invokeOnTransform c3) else c3] =>
      set (c4 := if b then snd (_invokeOnTransform c3) else c3)
  end.
  assert (S4 : quiet c3 c4 /\
               onTransformInvocationInitialized c4 =
               onTransformInvocationInitialized c3).
  { subst c4.
    match goal with
    | |- context [if ?b then snd (_invokeOnTransform c3) else c3] =>
        destruct b
    end; [ | split; [apply quiet_refl | reflexivity]].
    split; [apply _invokeOnTransform_quiet | apply _invokeOnTransform_kept]. }
  destruct S4 as [Q4 I4]. clearbody c4.
  pose proof (quiet_trans _ _ _ Q2 (quiet_trans _ _ _ Q3 Q4))
    as [[Es Ez Ea Ep Ex Ey] Eg].
  destruct S1 as (X1 & Y1 & P1 & St1 & G1 & In1).
  destruct R1 as [R1 R1'].
  rewrite Ez, Ea, Ex, Ey, Ep, Es, Eg, X1, Y1, P1, St1, G1.
  split; [exact R1 | ]. split; [exact R1' | ].
  repeat (split; [reflexivity | ]).
  rewrite I4, I3, I2, In1, St1, orb_true_iff, andb_true_iff, !truthy_true.
  reflexivity.
Qed.

Lemma update_resets_zoom_and_initializes_example :
  let props := withSwitches false true false defaultProps in
  let c := set_zoomLevel (5 # 4) exampleView in
  let c' := componentDidUpdate props defaultProps exampleState c in
  zoomEnabled defaultProps = true /\ zoomEnabled props = false /\
  initialZoom props = Some 1 /\ ~ 1 == 0 /\
  zoomLevel c' = 1 /\ zoomAnim c' = 1.
Proof.
  cbv zeta.
  assert (N1 : ~ 1 == 0) by (vm_compute; discriminate).
  split; [reflexivity | ]. split; [reflexivity | ].
  split; [reflexivity | ]. split; [exact N1 | ].
  apply (proj1 (update_resets_zoom_and_initializes
                  (withSwitches false true false defaultProps) defaultProps
                  exampleState (set_zoomLevel (5 # 4) exampleView)));
    [reflexivity | reflexivity | reflexivity | exact N1].
Defined.

(** ** The static pin *)

Lemma panTimingStarts__setOffset H props axis offset c :
  panTimingStarts (trace (__setOffset H props axis offset c)) =
  panTimingStarts (trace c).
Proof.
  unfold __setOffset.
  destruct (bindToBorders props); [ | now destruct axis].
  destruct (_ && _); [ | now destruct axis].
  destruct (boundariesApplied _ _); now destruct axis.
Qed.

Lemma panTimingStarts_onTransformListener c :
  panTimingStarts (trace (onTransformListener c)) = panTimingStarts (trace c).
Proof.
  unfold onTransformListener, _invokeOnTransform.
  destruct (onTransformInvocationInitialized c); [ | reflexivity].
  now destruct (_ || _).
Qed.

Lemma panTimingStarts_panAnimListeners H props c :
  panTimingStarts (trace (panAnimListeners H props c)) =
  panTimingStarts (trace c).
Proof.
  unfold panAnimListeners, set_offsetX, set_offsetY. cbv zeta.
  now rewrite panTimingStarts_onTransformListener,
    !panTimingStarts__setOffset.
Qed.

Lemma panTimingStarts_panAnim_setValue H props v c :
  panTimingStarts (trace (panAnim_setValue H props v c)) =
  panTimingStarts (trace c).
Proof.
  unfold panAnim_setValue. cbv zeta.
  rewrite panTimingStarts_panAnimListeners.
  cbn [trace set_panAnim].
  assert (E : forall axis c0,
            trace (boundaryCrossedAnimEnd axis c0) = trace c0)
    by (now intros []).
  rewrite E, panTimingStarts_panAnimListeners. cbn [trace set_panAnim].
  now rewrite E.
Qed.

(** X22.  [moveStaticPinTo].  Without a static pin, before the component
    is measured, or without a content size that is not 0, it does nothing.
    Otherwise, at a zoom level that is not 0 and while offsets are stored
    as given, the new offsets put the given content position under the
    pin:
    [contentWidth / 2 - position.x + (pin.x - width / 2) / zoomLevel],
    and the same for [y].  With a duration that is not 0 the pan value is
    left to one timed animation towards these offsets; without one the pan
    value is set to them at once and no animation is started.  The zoom
    level stays. *)
Theorem moveStaticPinTo_puts_position_under_pin
    (H : Helpers) (props : ReactNativeZoomableViewProps)
    (position : Vec2D) (duration : option number) (c : ZoomableView) :
  let c' := moveStaticPinTo H props position duration c in
  (staticPinPosition props = None \/
   originalWidth (state c) == 0 \/ originalHeight (state c) == 0 \/
   contentWidth props = None \/ contentHeight props = None \/
   (exists w, contentWidth props = Some w /\ w == 0) \/
   (exists h, contentHeight props = Some h /\ h == 0) ->
   c' = c) /\
  (forall pin cw ch,
     staticPinPosition props = Some pin ->
     contentWidth props = Some cw -> contentHeight props = Some ch ->
     ~ cw == 0 -> ~ ch == 0 ->
     ~ originalWidth (state c) == 0 -> ~ originalHeight (state c) == 0 ->
     ~ zoomLevel c == 0 ->
     stores_freely props c ->
     offsetX c' =
       cw / 2 - x position
       + (x pin - originalWidth (state c) / 2) / zoomLevel c /\
     offsetY c' =
       ch / 2 - y position
       + (y pin - originalHeight (state c) / 2) / zoomLevel c /\
     zoomLevel c' = zoomLevel c /\
     (forall d, duration = Some d -> ~ d == 0 ->
        panTimingStarts (trace c') =
          ({| x := offsetX c'; y := offsetY c' |}, d)
          :: panTimingStarts (trace c) /\
        panAnim c' = panAnim c) /\
     (duration = None \/ (exists d, duration = Some d /\ d == 0) ->
        panAnim c' = {| x := offsetX c'; y := offsetY c' |} /\
        panTimingStarts (trace c') = panTimingStarts (trace c))).
Proof.
  cbv zeta. unfold moveStaticPinTo. split.
  - intros [-> | G]; [reflexivity | ].
    destruct (staticPinPosition props) as [pin|]; [ | reflexivity].
    destruct (contentWidth props) as [cw|]; [ | reflexivity].
    destruct (contentHeight props) as [ch|]; [ | reflexivity].
    destruct G as [Z | [Z | [Z | [Z | [(w & [= <-] & Z) | (h & [= <-] & Z)]]]]];
      try discriminate; apply truthy_false in Z; rewrite Z;
      cbn [negb orb]; rewrite ?orb_true_r; try reflexivity.
    + now destruct (_ || _).
    + now destruct (_ || _).
  - intros pin cw ch -> -> -> Cw Ch W Hh _ F.
    apply truthy_true in Cw, Ch, W, Hh. rewrite Cw, Ch, W, Hh.
    cbn [negb orb]. unfold set_offsetX, set_offsetY.
    set (nx := cw / 2 - x position
               + (x pin - originalWidth (state c) / 2) / zoomLevel c).
    pose proof (stores_freely_stores H props AxisX nx c F) as E1.
    pose proof (__setOffset_steady H props AxisX nx c) as S1.
    pose proof (panTimingStarts__setOffset H props AxisX nx c) as T1.
    destruct (__setOffset_panAnim H props AxisX nx c) as [P1 _].
    set (c1 := __setOffset H props AxisX nx c) in *.
    assert (X1 : offsetX c1 = nx) by (rewrite E1; reflexivity).
    assert (F1 : stores_freely props c1)
      by (apply (stores_freely_steady props c); assumption).
    clearbody c1. destruct S1 as (St1 & Z1 & G1). rewrite ?St1, ?Z1.
    set (ny := ch / 2 - y position
               + (y pin - originalHeight (state c) / 2) / zoomLevel c).
    pose proof (stores_freely_stores H props AxisY ny c1 F1) as E2.
    pose proof (__setOffset_steady H props AxisY ny c1) as S2.
    pose proof (panTimingStarts__setOffset H props AxisY ny c1) as T2.
    destruct (__setOffset_panAnim H props AxisY ny c1) as [P2 _].
    set (c2 := __setOffset H props AxisY ny c1) in *.
    assert (X2 : offsetX c2 = nx /\ offsetY c2 = ny)
      by (rewrite E2; split; [exact X1 | reflexivity]).
    assert (F2 : stores_freely props c2)
      by (apply (stores_freely_steady props c1); assumption).
    clearbody c2. destruct S2 as (St2 & Z2 & G2). destruct X2 as [X2 Y2].
    rewrite X2, Y2.
    destruct (panAnim_setValue_free H props {| x := nx; y := ny |} c2 F2)
      as (X3 & Y3 & P3 & _).
    destruct (panAnim_setValue_steady H props {| x := nx; y := ny |} c2)
      as (_ & Z3 & _).
    pose proof (panTimingStarts_panAnim_setValue H props
                  {| x := nx; y := ny |} c2) as T3.
    cbn [x y] in X3, Y3.
    assert (Now :
      let c' := panAnim_setValue H props {| x := nx; y := ny |} c2 in
      offsetX c' = nx /\ offsetY c' = ny /\ zoomLevel c' = zoomLevel c /\
      panAnim c' = {| x := nx; y := ny |} /\
      panTimingStarts (trace c') = panTimingStarts (trace c))
      by (cbv zeta; repeat split; congruence).
    assert (Timed : forall d,
      let c' := startPanTiming {| x := nx; y := ny |} d c2 in
      offsetX c' = nx /\ offsetY c' = ny /\ zoomLevel c' = zoomLevel c /\
      panAnim c' = panAnim c /\
      panTimingStarts (trace c') =
        ({| x := nx; y := ny |}, d) :: panTimingStarts (trace c)).
    { intros d. cbv zeta. unfold startPanTiming.
      split; [exact X2 | ]. split; [exact Y2 | ].
      split; [cbn; congruence | ]. split; [cbn; congruence | ].
      unfold emit. cbn [trace set_trace].
      change (panTimingStarts (PanTiming ?v ?d0 :: ?l))
        with ((v, d0) :: panTimingStarts l).
      f_equal.
      assert (E : forall axis c0,
                trace (boundaryCrossedAnimEnd axis c0) = trace c0)
        by (now intros []).
      rewrite !E. congruence. }
    cbv zeta in Now, Timed.
    clear X3 Y3 P3 Z3 T3.
    destruct duration as [d|].
    + destruct (truthy d) eqn:D.
      * destruct (Timed d) as (A & B & C & P & T). rewrite A, B.
        split; [reflexivity | ]. split; [reflexivity | ]. split; [exact C | ].
        split.
        -- intros d' [= <-] _. split; assumption.
        -- intros [N | (d' & [= <-] & Z)]; [discriminate | ].
           apply truthy_false in Z. congruence.
      * destruct Now as (A & B & C & P & T). rewrite A, B.
        split; [reflexivity | ]. split; [reflexivity | ]. split; [exact C | ].
        split.
        -- intros d' [= <-] Z. apply truthy_true in Z. congruence.
        -- intros _. split; assumption.
    + destruct Now as (A & B & C & P & T). rewrite A, B.
      split; [reflexivity | ]. split; [reflexivity | ]. split; [exact C | ].
      split; [discriminate | ]. intros _. split; assumption.
Qed.

Lemma moveStaticPinTo_puts_position_under_pin_example :
  let pin := {| x := 150; y := 200 |} in
  let props := withStaticPin pin 600 800 defaultProps in
  let c := viewDuring shift props in
  let position := {| x := 100; y := 120 |} in
  let c' := moveStaticPinTo exampleHelpers props position (Some 200) c in
  staticPinPosition props = Some pin /\
  contentWidth props = Some 600 /\ contentHeight props = Some 800 /\
  ~ 600 == 0 /\ ~ 800 == 0 /\
  ~ originalWidth (state c) == 0 /\ ~ originalHeight (state c) == 0 /\
  ~ zoomLevel c == 0 /\
  stores_freely props c /\
  offsetX c' =
    600 / 2 - x position
    + (x pin - originalWidth (state c) / 2) / zoomLevel c /\
  offsetY c' =
    800 / 2 - y position
    + (y pin - originalHeight (state c) / 2) / zoomLevel c /\
  zoomLevel c' = zoomLevel c /\
  (forall d, Some 200 = Some d -> ~ d == 0 ->
     panTimingStarts (trace c') =
       ({| x := offsetX c'; y := offsetY c' |}, d)
       :: panTimingStarts (trace c) /\
     panAnim c' = panAnim c) /\
  (Some 200 = None \/ (exists d, Some 200 = Some d /\ d == 0) ->
     panAnim c' = {| x := offsetX c'; y := offsetY c' |} /\
     panTimingStarts (trace c') = panTimingStarts (trace c)).
Proof.
  cbv zeta.
  set (props := withStaticPin {| x := 150; y := 200 |} 600 800 defaultProps).
  assert (N6 : ~ 600 == 0) by (vm_compute; discriminate).
  assert (N8 : ~ 800 == 0) by (vm_compute; discriminate).
  assert (W : ~ originalWidth (state (viewDuring shift props)) == 0)
    by (vm_compute; discriminate).
  assert (Hh : ~ originalHeight (state (viewDuring shift props)) == 0)
    by (vm_compute; discriminate).
  assert (F : stores_freely props (viewDuring shift props))
    by (right; discriminate).
  split; [reflexivity | ]. split; [reflexivity | ]. split; [reflexivity | ].
  split; [exact N6 | ]. split; [exact N8 | ].
  assert (Znz : ~ zoomLevel (viewDuring shift props) == 0)
    by (vm_compute; discriminate).
  split; [exact W | ]. split; [exact Hh | ]. split; [exact Znz | ].
  split; [exact F | ].
  apply (proj2 (moveStaticPinTo_puts_position_under_pin exampleHelpers props
                  {| x := 100; y := 120 |} (Some 200)
                  (viewDuring shift props))
           {| x := 150; y := 200 |} 600 800);
    [reflexivity | reflexivity | reflexivity | exact N6 | exact N8
    | exact W | exact Hh | exact Znz | exact F].
Defined.

(** ** The animated values mirror the transform *)

Lemma unmoved_mirrored c c' : unmoved c c' -> mirrored c -> mirrored c'.
Proof. intros [_ Z A P X Y] [M1 M2]. unfold mirrored. split; congruence. Qed.

Lemma invoke_fields props cb e gs c :
  let c' := invoke props cb e gs c in
  offsetX c' = offsetX c /\ offsetY c' = offsetY c /\
  panAnim c' = panAnim c /\ zoomLevel c' = zoomLevel c /\
  zoomAnim c' = zoomAnim c.
Proof.
  cbv zeta. destruct (invoke_quiet props cb e gs c) as [[_ Z A P X Y] _].
  auto.
Qed.

(** The last step of [_handlePinching] while offsets are stored as given. *)
Lemma pinch_store_free H props e gs ox oy z c :
  stores_freely props c ->
  let c1 := set_zoomLevel z (set_offsetY H props oy (set_offsetX H props ox c)) in
  let c2 := panAnim_setValue H props {| x := offsetX c1; y := offsetY c1 |} c1 in
  let c' := invoke props onZoomAfter e gs (zoomAnim_setValue (zoomLevel c2) c2) in
  offsetX c' = ox /\ offsetY c' = oy /\ zoomLevel c' = z /\
  panAnim c' = {| x := ox; y := oy |} /\ zoomAnim c' = z.
Proof.
  intros F. cbv zeta. unfold set_offsetX, set_offsetY.
  pose proof (stores_freely_stores H props AxisX ox c F) as E1.
  pose proof (__setOffset_steady H props AxisX ox c) as S1.
  set (c1 := __setOffset H props AxisX ox c) in *.
  assert (X1 : offsetX c1 = ox) by (rewrite E1; reflexivity).
  assert (F1 : stores_freely props c1)
    by (apply (stores_freely_steady props c); assumption).
  clearbody c1.
  pose proof (stores_freely_stores H props AxisY oy c1 F1) as E2.
  pose proof (__setOffset_steady H props AxisY oy c1) as S2.
  set (c2 := __setOffset H props AxisY oy c1) in *.
  assert (X2 : offsetX c2 = ox /\ offsetY c2 = oy)
    by (rewrite E2; split; [exact X1 | reflexivity]).
  assert (F2 : stores_freely props c2)
    by (apply (stores_freely_steady props c1); assumption).
  clearbody c2. destruct X2 as [X2 Y2].
  set (c3 := set_zoomLevel z c2).
  assert (R3 : offsetX c3 = ox /\ offsetY c3 = oy /\ zoomLevel c3 = z /\
               stores_freely props c3).
  { repeat split; trivial. }
  clearbody c3. destruct R3 as (X3 & Y3 & Z3 & F3).
  rewrite X3, Y3.
  destruct (panAnim_setValue_free H props {| x := ox; y := oy |} c3 F3)
    as (X4 & Y4 & P4 & _).
  destruct (panAnim_setValue_steady H props {| x := ox; y := oy |} c3)
    as (_ & Z4 & _).
  set (c4 := panAnim_setValue H props {| x := ox; y := oy |} c3) in *.
  clearbody c4. cbn [x y] in X4, Y4.
  destruct (zoomAnim_setValue_rest (zoomLevel c4) c4) as (X5 & Y5 & P5 & _).
  pose proof (zoomAnim_setValue_zoomLevel (zoomLevel c4) c4) as Z5.
  pose proof (zoomAnim_setValue_zoomAnim (zoomLevel c4) c4) as A5.
  set (c5 := zoomAnim_setValue (zoomLevel c4) c4) in *. clearbody c5.
  destruct (invoke_fields props onZoomAfter e gs c5) as (X6 & Y6 & P6 & Z6 & A6).
  rewrite X6, Y6, P6, Z6, A6. repeat split; congruence.
Qed.

Lemma _setNewOffsetPosition_mirrored H props nx ny c :
  stores_freely props c -> mirrored c ->
  mirrored (_setNewOffsetPosition H props nx ny c).
Proof.
  intros F M.
  destruct (shift_vetoed props c) eqn:V.
  - unfold shift_vetoed in V. unfold _setNewOffsetPosition.
    rewrite (surjective_pairing (ask props onShiftingBefore None None c)), V.
    apply (unmoved_mirrored c); [ | exact M].
    apply quiet_unmoved, ask_quiet.
  - destruct (_setNewOffsetPosition_free H props nx ny c V F)
      as (X1 & Y1 & P1 & Z1 & A1).
    unfold mirrored. rewrite X1, Y1, P1, Z1, A1. split; reflexivity.
Qed.

Lemma _handleShifting_mirrored H props gs c :
  stores_freely props c -> mirrored c ->
  mirrored (_handleShifting H props gs c).
Proof.
  intros F M. unfold _handleShifting.
  destruct (_ || _); [exact M | ].
  unfold _calcOffsetShiftSinceLastGestureState.
  set (c1 := set_lastGestureCenterPosition _ c).
  assert (R1 : quiet c c1) by (repeat split; reflexivity).
  clearbody c1.
  destruct (match lastGestureCenterPosition c with
            | Some _ => _ | None => _ end) as [s|];
    [ | apply (unmoved_mirrored c); [apply quiet_unmoved, R1 | exact M]].
  cbv zeta.
  set (c2 := if debug props && _ && _ then emit _ c1 else c1).
  assert (R2 : quiet c c2).
  { eapply quiet_trans; [exact R1 | ]. subst c2.
    destruct (_ && _ && _); [apply emit_quiet | apply quiet_refl]. }
  clearbody c2.
  apply (unmoved_mirrored
           (_setNewOffsetPosition H props (offsetX c1 + x s)
              (offsetY c1 + y s) c2));
    [apply quiet_unmoved, raisePin_quiet | ].
  apply _setNewOffsetPosition_mirrored.
  - apply (stores_freely_steady props c); [apply quiet_steady, R2 | exact F].
  - apply (unmoved_mirrored c); [apply quiet_unmoved, R2 | exact M].
Qed.

Lemma _handlePinching_mirrored H props e gs c :
  stores_freely props c -> mirrored c ->
  mirrored (_handlePinching H props e gs c).
Proof.
  intros F M. unfold _handlePinching.
  destruct (negb (zoomEnabled props)); [exact M | ].
  rewrite (surjective_pairing (ask props onZoomBefore (Some e) (Some gs) c)).
  pose proof (ask_quiet props onZoomBefore (Some e) (Some gs) c) as Q1.
  set (c1 := snd (ask props onZoomBefore (Some e) (Some gs) c)) in *.
  clearbody c1.
  assert (M1 : mirrored c1)
    by (apply (unmoved_mirrored c); [apply quiet_unmoved, Q1 | exact M]).
  destruct (fst _); [exact M1 | ].
  destruct (calcGestureTouchDistance H e gs) as [d|]; [ | exact M1].
  destruct (lastGestureTouchDistance c1) as [last|]; [ | exact M1].
  destruct (negb (truthy d)); [exact M1 | ].
  destruct (negb (truthy last)); [exact M1 | ].
  set (c2 := set_lastGestureTouchDistance (Some d) c1).
  assert (Q2 : quiet c c2)
    by (eapply quiet_trans; [exact Q1 | repeat split; reflexivity]).
  assert (M2 : mirrored c2) by exact M1.
  clearbody c2.
  destruct (pinchSensitivity props d last) as [s|]; [ | exact M2].
  destruct (calcGestureCenterPoint H e gs) as [center|]; [ | exact M2].
  set (zc := match staticPinPosition props with Some _ => _ | None => _ end).
  clearbody zc.
  destruct (if debug props then _ else _) as [c3|] eqn:DBG; [ | exact M2].
  assert (Q3 : quiet c c3).
  { eapply quiet_trans; [exact Q2 | ].
    destruct (debug props);
      [eapply _setPinchDebugPoints_quiet; eauto
      | injection DBG as <-; apply quiet_refl]. }
  destruct (_ || _);
    [apply (unmoved_mirrored c); [apply quiet_unmoved, Q3 | exact M] | ].
  unfold _calcOffsetShiftSinceLastGestureState. cbv zeta.
  set (c4 := set_lastGestureCenterPosition (Some center) c3).
  assert (F4 : stores_freely props c4).
  { apply (stores_freely_steady props c); [ | exact F].
    apply quiet_steady. eapply quiet_trans; [exact Q3 | ].
    repeat split; reflexivity. }
  clearbody c4.
  match goal with
  | |- mirrored (invoke props onZoomAfter ?e' ?gs'
                   (zoomAnim_setValue _
                      (panAnim_setValue H props _
                         (set_zoomLevel ?z
                            (set_offsetY H props ?oy
                               (set_offsetX H props ?ox c4)))))) =>
      destruct (pinch_store_free H props e' gs' ox oy z c4 F4)
        as (X5 & Y5 & Z5 & P5 & A5)
  end.
  unfold mirrored. rewrite X5, Y5, Z5, P5, A5. split; reflexivity.
Qed.

(** X23.  The animated values mirror the transform all along a gesture.
    After the constructor the pan value holds the offsets and the animated
    zoom value the zoom level; and a grant, a move - claimed or not,
    pinching or panning, stored or returned early - and the end of a
    gesture each keep it so. *)
Theorem gesture_keeps_animated_values_in_step
    (H : Helpers) (props : ReactNativeZoomableViewProps) (now : Z)
    (e : GestureResponderEvent) (gs : PanResponderGestureState)
    (c : ZoomableView) :
  mirrored (construct H props) /\
  (mirrored c ->
   mirrored (_handlePanResponderGrant props e gs c) /\
   mirrored (snd (_handlePanResponderMove H props now e gs c)) /\
   mirrored (_handlePanResponderEnd H props now e gs c)).
Proof.
  split.
  - apply construct_mirrored.
  - intros M.
    split; [apply (unmoved_mirrored c);
              [apply quiet_unmoved, _handlePanResponderGrant_quiet | exact M]
           | ].
    split; [ | apply (unmoved_mirrored c);
                 [apply _handlePanResponderEnd_unmoved | exact M]].
    destruct (move_claimed props e gs c) eqn:V.
    + apply (unmoved_mirrored c); [ | exact M].
      unfold move_claimed in V. unfold _handlePanResponderMove.
      rewrite (surjective_pairing
                 (ask props onPanResponderMove (Some e) (Some gs) c)), V.
      apply quiet_unmoved, ask_quiet.
    + destruct (Nat.lt_trichotomy (numberActiveTouches gs) 2)
        as [L | [E | G]].
      * destruct (numberActiveTouches gs) as [|[|n]] eqn:N; [ | | lia].
        -- apply (unmoved_mirrored c); [ | exact M].
           unfold move_claimed in V. unfold _handlePanResponderMove.
           rewrite (surjective_pairing
                      (ask props onPanResponderMove (Some e) (Some gs) c)), V.
           rewrite N. cbn [Nat.ltb Nat.leb Nat.eqb snd].
           apply quiet_unmoved.
           eapply quiet_trans; [apply ask_quiet | ].
           destruct (negb _);
             [apply _handlePanResponderGrant_quiet | apply quiet_refl].
        -- destruct (move_one_touch H props now e gs c V N)
             as (c1 & Q1 & _ & _ & _ & _ & _ & _ & ->).
           cbn [snd].
           assert (M1 : mirrored c1)
             by (apply (unmoved_mirrored c);
                   [apply quiet_unmoved, Q1 | exact M]).
           destruct (_ || _); [ | exact M1].
           apply _handleShifting_mirrored; [right; discriminate | exact M1].
      * destruct (move_two_touches H props now e gs c V E)
          as (c1 & Q1 & _ & _ & _ & _ & ->).
        cbn [snd].
        apply _handlePinching_mirrored; [right; discriminate | ].
        apply (unmoved_mirrored c1); [apply set_gestureType_unmoved | ].
        apply (unmoved_mirrored c); [apply quiet_unmoved, Q1 | exact M].
      * apply (unmoved_mirrored c); [ | exact M].
        unfold move_claimed in V. unfold _handlePanResponderMove.
        rewrite (surjective_pairing
                   (ask props onPanResponderMove (Some e) (Some gs) c)), V.
        apply Nat.ltb_lt in G. rewrite G. cbn [snd].
        eapply unmoved_trans; [apply quiet_unmoved, ask_quiet | ].
        destruct (gestureStarted _);
          [apply _handlePanResponderEnd_unmoved | apply unmoved_refl].
Qed.

(** ** Boundary animations and gestures *)

Lemma withinStep_refl c : withinStep c c.
Proof. reflexivity. Qed.

Lemma withinStep_trans c0 c c' :
  withinStep c0 c -> withinStep c c' -> withinStep c0 c'.
Proof. unfold withinStep. congruence. Qed.

Section Boundaries.

Context (H : Helpers) (props : ReactNativeZoomableViewProps).

Lemma ask_withinStep cb e gs c : withinStep c (snd (ask props cb e gs c)).
Proof. unfold ask. now destruct (callback props cb). Qed.

Lemma invoke_withinStep cb e gs c : withinStep c (invoke props cb e gs c).
Proof. apply ask_withinStep. Qed.

Lemma boundaryCrossedAnimEnd_withinStep axis c :
  withinStep c (boundaryCrossedAnimEnd axis c).
Proof. now destruct axis. Qed.

Lemma onTransformListener_withinStep c : withinStep c (onTransformListener c).
Proof.
  unfold onTransformListener, _invokeOnTransform.
  destruct (onTransformInvocationInitialized c); [ | reflexivity].
  now destruct (_ || _).
Qed.

Lemma __setOffset_withinStep axis offset c :
  stores_freely props c -> withinStep c (__setOffset H props axis offset c).
Proof.
  intros F. unfold withinStep.
  now rewrite (stores_freely_stores H props axis offset c F),
    trace_set_offsetState.
Qed.

Lemma panAnimListeners_withinStep c :
  stores_freely props c -> withinStep c (panAnimListeners H props c).
Proof.
  intros F. unfold panAnimListeners, set_offsetX, set_offsetY. cbv zeta.
  after withinStep_trans onTransformListener_withinStep.
  pose proof (__setOffset_withinStep AxisX (x (panAnim c)) c F) as W1.
  pose proof (__setOffset_steady H props AxisX (x (panAnim c)) c) as S1.
  set (c1 := __setOffset H props AxisX (x (panAnim c)) c) in *.
  eapply withinStep_trans; [exact W1 | ].
  apply __setOffset_withinStep.
  apply (stores_freely_steady props c); assumption.
Qed.

Lemma panAnim_setValue_withinStep v c :
  stores_freely props c -> withinStep c (panAnim_setValue H props v c).
Proof.
  intros F. unfold panAnim_setValue. cbv zeta.
  set (c1 := set_panAnim _ (boundaryCrossedAnimEnd AxisX c)).
  assert (R1 : withinStep c c1 /\ stores_freely props c1).
  { split; [now destruct F | ].
    destruct F as [B | G]; [now left | now right]. }
  destruct R1 as [W1 F1]. clearbody c1.
  pose proof (panAnimListeners_withinStep c1 F1) as W2.
  pose proof (panAnimListeners_steady H props c1) as S2.
  set (c2 := panAnimListeners H props c1) in *. clearbody c2.
  assert (F2 : stores_freely props c2)
    by (apply (stores_freely_steady props c1); assumption).
  set (c3 := set_panAnim _ (boundaryCrossedAnimEnd AxisY c2)).
  assert (R3 : withinStep c2 c3 /\ stores_freely props c3).
  { split; [reflexivity | ].
    destruct F2 as [B | G]; [now left | now right]. }
  destruct R3 as [W3 F3]. clearbody c3.
  eapply withinStep_trans; [ | apply panAnimListeners_withinStep, F3].
  eapply withinStep_trans; [ | exact W3].
  eapply withinStep_trans; eassumption.
Qed.

Lemma zoomAnim_setValue_withinStep v c :
  withinStep c (zoomAnim_setValue v c).
Proof.
  unfold zoomAnim_setValue, zoomAnimListeners.
  after withinStep_trans onTransformListener_withinStep. reflexivity.
Qed.

Lemma _setNewOffsetPosition_withinStep nx ny c :
  stores_freely props c ->
  withinStep c (_setNewOffsetPosition H props nx ny c).
Proof.
  intros F. unfold _setNewOffsetPosition.
  rewrite (surjective_pairing (ask props onShiftingBefore None None c)).
  pose proof (ask_withinStep onShiftingBefore None None c) as W0.
  pose proof (ask_quiet props onShiftingBefore None None c) as Q0.
  set (c0 := snd (ask props onShiftingBefore None None c)) in *. clearbody c0.
  destruct (fst _); [exact W0 | ].
  assert (F0 : stores_freely props c0)
    by (apply (stores_freely_steady props c);
          [apply quiet_steady, Q0 | exact F]).
  cbv zeta. unfold set_offsetX, set_offsetY.
  pose proof (__setOffset_withinStep AxisX nx c0 F0) as W1.
  pose proof (__setOffset_steady H props AxisX nx c0) as S1.
  set (c1 := __setOffset H props AxisX nx c0) in *. clearbody c1.
  assert (F1 : stores_freely props c1)
    by (apply (stores_freely_steady props c0); assumption).
  pose proof (__setOffset_withinStep AxisY ny c1 F1) as W2.
  pose proof (__setOffset_steady H props AxisY ny c1) as S2.
  set (c2 := __setOffset H props AxisY ny c1) in *. clearbody c2.
  assert (F2 : stores_freely props c2)
    by (apply (stores_freely_steady props c1); assumption).
  after withinStep_trans invoke_withinStep.
  after withinStep_trans zoomAnim_setValue_withinStep.
  eapply withinStep_trans; [ | apply panAnim_setValue_withinStep, F2].
  eapply withinStep_trans; [exact W0 | ].
  eapply withinStep_trans; eassumption.
Qed.

Lemma raisePin_withinStep c : withinStep c (raisePin props c).
Proof. unfold raisePin. now destruct (negb _). Qed.

Lemma dropPin_withinStep c : withinStep c (dropPin props c).
Proof. unfold dropPin. now destruct (negb _). Qed.

Lemma _handleShifting_withinStep gs c :
  stores_freely props c -> withinStep c (_handleShifting H props gs c).
Proof.
  intros F. unfold _handleShifting.
  destruct (_ || _); [apply withinStep_refl | ].
  unfold _calcOffsetShiftSinceLastGestureState.
  set (c1 := set_lastGestureCenterPosition _ c).
  assert (R1 : withinStep c c1 /\ quiet c c1)
    by (split; [reflexivity | repeat split; reflexivity]).
  clearbody c1.
  destruct (match lastGestureCenterPosition c with
            | Some _ => _ | None => _ end) as [s|]; [ | apply R1].
  cbv zeta.
  set (c2 := if debug props && _ && _ then emit _ c1 else c1).
  assert (R2 : withinStep c c2 /\ quiet c c2).
  { destruct R1 as [W1 Q1]. subst c2. destruct (_ && _ && _).
    - split; [exact W1 | ].
      eapply quiet_trans; [exact Q1 | apply emit_quiet].
    - split; assumption. }
  destruct R2 as [W2 Q2]. clearbody c2.
  after withinStep_trans raisePin_withinStep.
  eapply withinStep_trans; [exact W2 | ].
  apply _setNewOffsetPosition_withinStep.
  apply (stores_freely_steady props c); [apply quiet_steady, Q2 | exact F].
Qed.

Lemma pinch_store_withinStep e gs ox oy z c :
  stores_freely props c ->
  let c1 := set_zoomLevel z (set_offsetY H props oy (set_offsetX H props ox c)) in
  let c2 := panAnim_setValue H props {| x := offsetX c1; y := offsetY c1 |} c1 in
  withinStep c
    (invoke props onZoomAfter e gs (zoomAnim_setValue (zoomLevel c2) c2)).
Proof.
  intros F. cbv zeta. unfold set_offsetX, set_offsetY.
  pose proof (__setOffset_withinStep AxisX ox c F) as W1.
  pose proof (__setOffset_steady H props AxisX ox c) as S1.
  set (c1 := __setOffset H props AxisX ox c) in *. clearbody c1.
  assert (F1 : stores_freely props c1)
    by (apply (stores_freely_steady props c); assumption).
  pose proof (__setOffset_withinStep AxisY oy c1 F1) as W2.
  pose proof (__setOffset_steady H props AxisY oy c1) as S2.
  set (c2 := __setOffset H props AxisY oy c1) in *. clearbody c2.
  assert (F2 : stores_freely props c2)
    by (apply (stores_freely_steady props c1); assumption).
  set (c3 := set_zoomLevel z c2).
  assert (R3 : withinStep c2 c3 /\ stores_freely props c3).
  { split; [reflexivity | ].
    destruct F2 as [B | G]; [now left | now right]. }
  destruct R3 as [W3 F3]. clearbody c3.
  after withinStep_trans invoke_withinStep.
  after withinStep_trans zoomAnim_setValue_withinStep.
  eapply withinStep_trans; [ | apply panAnim_setValue_withinStep, F3].
  eapply withinStep_trans; [ | exact W3].
  eapply withinStep_trans; eassumption.
Qed.

Lemma _handlePinching_withinStep e gs c :
  stores_freely props c -> withinStep c (_handlePinching H props e gs c).
Proof.
  intros F. unfold _handlePinching.
  destruct (negb (zoomEnabled props)); [apply withinStep_refl | ].
  rewrite (surjective_pairing (ask props onZoomBefore (Some e) (Some gs) c)).
  pose proof (ask_quiet props onZoomBefore (Some e) (Some gs) c) as Q1.
  pose proof (ask_withinStep onZoomBefore (Some e) (Some gs) c) as W1.
  set (c1 := snd (ask props onZoomBefore (Some e) (Some gs) c)) in *.
  clearbody c1.
  destruct (fst _); [exact W1 | ].
  destruct (calcGestureTouchDistance H e gs) as [d|]; [ | exact W1].
  destruct (lastGestureTouchDistance c1) as [last|]; [ | exact W1].
  destruct (negb (truthy d)); [exact W1 | ].
  destruct (negb (truthy last)); [exact W1 | ].
  set (c2 := set_lastGestureTouchDistance (Some d) c1).
  assert (Q2 : quiet c c2)
    by (eapply quiet_trans; [exact Q1 | repeat split; reflexivity]).
  assert (W2 : withinStep c c2) by exact W1.
  clearbody c2.
  destruct (pinchSensitivity props d last) as [s|]; [ | exact W2].
  destruct (calcGestureCenterPoint H e gs) as [center|]; [ | exact W2].
  set (zc := match staticPinPosition props with Some _ => _ | None => _ end).
  clearbody zc.
  destruct (if debug props then _ else _) as [c3|] eqn:DBG; [ | exact W2].
  assert (R3 : quiet c c3 /\ withinStep c c3).
  { destruct (debug props).
    - split.
      + eapply quiet_trans; [exact Q2 | ].
        eapply _setPinchDebugPoints_quiet; eauto.
      + unfold _setPinchDebugPoints in DBG.
        destruct (nativeTouches e) as [|t0 [|t1 ts]]; try discriminate.
        injection DBG as <-. exact W2.
    - injection DBG as <-. split; assumption. }
  destruct R3 as [Q3 W3].
  destruct (_ || _); [exact W3 | ].
  unfold _calcOffsetShiftSinceLastGestureState. cbv zeta.
  set (c4 := set_lastGestureCenterPosition (Some center) c3).
  assert (R4 : stores_freely props c4 /\ withinStep c c4).
  { split; [ | exact W3].
    apply (stores_freely_steady props c); [ | exact F].
    apply quiet_steady. eapply quiet_trans; [exact Q3 | ].
    repeat split; reflexivity. }
  destruct R4 as [F4 W4]. clearbody c4.
  eapply withinStep_trans; [exact W4 | ].
  match goal with
  | |- withinStep c4 (invoke props onZoomAfter ?e' ?gs'
                        (zoomAnim_setValue _
                           (panAnim_setValue H props _
                              (set_zoomLevel ?z
                                 (set_offsetY H props ?oy
                                    (set_offsetX H props ?ox c4)))))) =>
      exact (pinch_store_withinStep e' gs' ox oy z c4 F4)
  end.
Qed.

Lemma clearLongPressTimeout_withinStep c :
  withinStep c (clearLongPressTimeout c).
Proof. unfold clearLongPressTimeout. now destruct (longPressTimeout c). Qed.

Lemma _handlePanResponderGrant_withinStep e gs c :
  withinStep c (_handlePanResponderGrant props e gs c).
Proof.
  unfold _handlePanResponderGrant, raisePin, zoomAnim_stopAnimation,
    panAnim_stopAnimation, invoke, ask.
  destruct (callback props onLongPress),
    (callback props onPanResponderGrant), (animatePin props); reflexivity.
Qed.

Lemma zoomTo_withinStep z zc c : withinStep c (snd (zoomTo props z zc c)).
Proof.
  rewrite zoomTo_unfold. destruct (_ || _ || _); [apply withinStep_refl | ].
  cbn [snd]. after withinStep_trans invoke_withinStep.
  eapply withinStep_trans; [apply invoke_withinStep | reflexivity].
Qed.

Lemma _resolveAndHandleTap_withinStep now e c :
  withinStep c (_resolveAndHandleTap props now e c).
Proof.
  unfold _resolveAndHandleTap.
  destruct (match doubleTapFirstTapReleaseTimestamp c with
            | Some _ => _ | None => _ end); [ | reflexivity].
  set (c3 := set_doubleTapFirstTap None _).
  assert (W3 : withinStep c c3).
  { subst c3. unfold withinStep, _addTouch.
    destruct (doubleTapFirstTap c); cbn;
      destruct (singleTapTimeoutId c); reflexivity. }
  clearbody c3. eapply withinStep_trans; [exact W3 | ].
  unfold _handleDoubleTap.
  pose proof (invoke_withinStep onDoubleTapBefore (Some e) None c3) as W4.
  set (c4 := invoke props onDoubleTapBefore (Some e) None c3) in *.
  clearbody c4.
  destruct (_getNextZoomStep props c4) as [z|]; [ | exact W4].
  cbv zeta. eapply withinStep_trans; [exact W4 | ].
  destruct (callback props onDoubleTapAfter);
    [eapply withinStep_trans; [apply zoomTo_withinStep | reflexivity]
    | apply zoomTo_withinStep].
Qed.

Lemma _handlePanResponderEnd_withinStep now e gs c :
  withinStep c (_handlePanResponderEnd H props now e gs c).
Proof.
  unfold _handlePanResponderEnd.
  set (c0 := if negb (isSome (gestureType c))
             then _resolveAndHandleTap props now e c else c).
  assert (W0 : withinStep c c0).
  { subst c0. destruct (negb _);
      [apply _resolveAndHandleTap_withinStep | apply withinStep_refl]. }
  clearbody c0.
  set (c1 := set_lastGestureCenterPosition None (emit (SetDebugPoints []) c0)).
  assert (W1 : withinStep c c1) by exact W0.
  clearbody c1.
  set (c2 := if negb (momentumDisabled props c1)
             then startPanMomentumDecayAnim _ c1 else c1).
  assert (W2 : withinStep c c2).
  { subst c2. destruct (negb _); [ | exact W1].
    eapply withinStep_trans; [exact W1 | ].
    unfold startPanMomentumDecayAnim, withinStep, emit.
    cbn [trace set_trace].
    change (boundaryStarts (PanMomentumDecayAnim ?v :: ?l))
      with (boundaryStarts l).
    now rewrite !boundaryCrossedAnimEnd_withinStep. }
  clearbody c2.
  match goal with
  | |- withinStep c (set_gestureStarted false (set_gestureType None ?c')) =>
      change (withinStep c c')
  end.
  after withinStep_trans dropPin_withinStep.
  set (c4 := invoke props onPanResponderEnd (Some e) (Some gs)
               (clearLongPressTimeout c2)).
  assert (W4 : withinStep c c4).
  { subst c4. after withinStep_trans invoke_withinStep.
    after withinStep_trans clearLongPressTimeout_withinStep. exact W2. }
  clearbody c4.
  set (c5 := match gestureType c4 with
             | Some pinch => _ | Some shift => _ | None => c4 end).
  assert (W5 : withinStep c c5).
  { subst c5. destruct (gestureType c4) as [[]|]; [ | | exact W4];
      (eapply withinStep_trans; [exact W4 | apply invoke_withinStep]). }
  clearbody c5.
  destruct (isSome _); [ | exact W5].
  eapply withinStep_trans; [exact W5 | ].
  unfold _updateStaticPin. now destruct (_staticPinPosition H props c5).
Qed.

Lemma _handlePanResponderMove_withinStep now e gs c :
  withinStep c (snd (_handlePanResponderMove H props now e gs c)).
Proof.
  unfold _handlePanResponderMove.
  rewrite (surjective_pairing (ask props onPanResponderMove (Some e) (Some gs) c)).
  pose proof (ask_withinStep onPanResponderMove (Some e) (Some gs) c) as W0.
  set (c0 := snd (ask props onPanResponderMove (Some e) (Some gs) c)) in *.
  clearbody c0.
  destruct (fst _); [exact W0 | ].
  destruct (2 <? numberActiveTouches gs)%nat; cbn [snd].
  { destruct (gestureStarted c0); [ | exact W0].
    eapply withinStep_trans;
      [exact W0 | apply _handlePanResponderEnd_withinStep]. }
  set (c1 := if negb (gestureStarted c0)
             then _handlePanResponderGrant props e gs c0 else c0).
  assert (W1 : withinStep c c1).
  { subst c1. destruct (negb _); [ | exact W0].
    eapply withinStep_trans;
      [exact W0 | apply _handlePanResponderGrant_withinStep]. }
  clearbody c1.
  destruct (numberActiveTouches gs =? 2)%nat; cbn [snd].
  { eapply withinStep_trans;
      [ | apply _handlePinching_withinStep; right; discriminate].
    eapply withinStep_trans; [exact W1 | ].
    eapply withinStep_trans; [apply clearLongPressTimeout_withinStep | ].
    unfold withinStep. cbn [trace set_gestureType].
    now destruct (negb _). }
  destruct (numberActiveTouches gs =? 1)%nat; [ | exact W1].
  set (c2 := if isSome (longPressTimeout c1) && _
             then clearLongPressTimeout c1 else c1).
  assert (W2 : withinStep c c2).
  { subst c2. destruct (_ && _); [ | exact W1].
    eapply withinStep_trans;
      [exact W1 | apply clearLongPressTimeout_withinStep]. }
  clearbody c2.
  set (c3 := if negb (is_shift (gestureType c2))
             then set_lastGestureCenterPosition _ c2 else c2).
  assert (W3 : withinStep c c3) by (subst c3; now destruct (negb _)).
  clearbody c3.
  destruct (_ || _); cbn [snd]; [ | exact W3].
  eapply withinStep_trans;
    [ | apply _handleShifting_withinStep; right; discriminate].
  exact W3.
Qed.

End Boundaries.

(** X24.  A gesture starts no boundary animation.  Neither the grant, nor a
    move - whatever its touches, and however far a pinch or a pan carries
    the offsets -, nor the end of the gesture starts an animation back to
    the pan boundaries, with [bindToBorders] on or off. *)
Theorem gesture_starts_no_boundary_animation
    (H : Helpers) (props : ReactNativeZoomableViewProps) (now : Z)
    (e : GestureResponderEvent) (gs : PanResponderGestureState)
    (c : ZoomableView) :
  boundaryStarts (trace (_handlePanResponderGrant props e gs c)) =
    boundaryStarts (trace c) /\
  boundaryStarts (trace (snd (_handlePanResponderMove H props now e gs c))) =
    boundaryStarts (trace c) /\
  boundaryStarts (trace (_handlePanResponderEnd H props now e gs c)) =
    boundaryStarts (trace c).
Proof.
  split; [apply _handlePanResponderGrant_withinStep | ].
  split; [apply _handlePanResponderMove_withinStep
         | apply _handlePanResponderEnd_withinStep].
Qed.
